(** * coindcx-trader: price tracker, alert engine and trading state machine

    A shallow embedding of the core of the repository:

    - [core/tracker.py]   ([PriceTracker])  as module [Tracker],
    - [core/alerts.py]    ([AlertSystem])   as module [Alerts],
    - [core/trader.py]    ([Trader])        as module [Trader],
    - [scripts/auto_trader.py] ([AutoTrader]) as module [AutoTrader].

    Python [float]s are IEEE-754 binary64 numbers; they are modelled by
    [spec_float] of the standard library with precision 53 and maximal
    exponent 1024, so that every product, quotient and comparison below is
    the one the interpreter computes.  The [decimal] arithmetic used by
    [Trader.place_buy_order] is modelled on integers (module [PyDecimal]).
    The exchange, the clock and the webhook are the environment: each call
    to them consumes a reply that is an input of the model. *)

From Stdlib Require Import ZArith Bool List String Ascii Lia Sorted.
From Stdlib Require Import SpecFloat.
From stdpp Require Import gmap strings list.

Local Open Scope Z_scope.

(** ** Exceptions *)

(** The exceptions the modelled code raises or lets through.  [ApiError]
    stands for whatever a call of the exchange client raises (a
    [RequestException] once the retries are spent, or an [AttributeError]
    on a reply that is not a JSON object). *)
Inductive exn : Set :=
| ValueError
| DivisionByZero
| InvalidOperation
| ZeroDivisionError
| ApiError.

(** [result A] is the outcome of a call that may raise. *)
Inductive result (A : Type) : Type :=
| Ok (a : A)
| Raise (e : exn).
Arguments Ok {A} a.
Arguments Raise {A} e.

Definition is_ok {A} (r : result A) : bool :=
  match r with Ok _ => true | Raise _ => false end.

(** ** Python floats *)

Module PyFloat.

Definition prec : Z := 53.
Definition emax : Z := 1024.

Definition fmul : spec_float -> spec_float -> spec_float := SFmul prec emax.
Definition fdiv_ieee : spec_float -> spec_float -> spec_float := SFdiv prec emax.

(** [a <= b], [a < b], [a >= b], [a > b]; all false on NaN. *)
Definition fle (a b : spec_float) : bool := SFleb a b.
Definition flt (a b : spec_float) : bool := SFltb a b.
Definition fge (a b : spec_float) : bool := SFleb b a.
Definition fgt (a b : spec_float) : bool := SFltb b a.

(** The float nearest to the fraction [n/d] (ties to even): the value of
    a decimal literal such as [0.95], read as [95/100]. *)
Definition of_ratio (n : Z) (d : positive) : spec_float :=
  match n with
  | Z0 => S754_zero false
  | Zpos p => fdiv_ieee (S754_finite false p 0) (S754_finite false d 0)
  | Zneg p => fdiv_ieee (S754_finite true p 0) (S754_finite false d 0)
  end.

Definition of_Z (n : Z) : spec_float := of_ratio n 1.

Definition is_zero (x : spec_float) : bool :=
  match x with S754_zero _ => true | _ => false end.

(** Truth value of a float: every float but [0.0] and [-0.0]. *)
Definition truthy (x : spec_float) : bool := negb (is_zero x).

(** [min(a, b)]: the first argument unless the second is smaller. *)
Definition py_min (a b : spec_float) : spec_float :=
  if flt b a then b else a.

(** [a / b] on floats raises on a zero divisor. *)
Definition truediv (a b : spec_float) : result spec_float :=
  if is_zero b then Raise ZeroDivisionError else Ok (fdiv_ieee a b).

(** [x or d]. *)
Definition or_default (x : option spec_float) (d : spec_float) : spec_float :=
  match x with
  | Some v => if truthy v then v else d
  | None => d
  end.

End PyFloat.

(** ** The decimal arithmetic of [place_buy_order] *)

Module PyDecimal.

(** A [Decimal]: NaN, an infinity, or [(-1)^s * c * 10^e] with [0 <= c]. *)
Inductive decimal : Set :=
| DNaN
| DInf (s : bool)
| DFin (s : bool) (c : Z) (e : Z).

(** Precision of the default context. *)
Definition context_prec : Z := 28.

(** [Decimal(x)] for a float [x]: exact. *)
Definition of_float (x : spec_float) : decimal :=
  match x with
  | S754_nan => DNaN
  | S754_infinity s => DInf s
  | S754_zero s => DFin s 0 0
  | S754_finite s m e =>
      if 0 <=? e then DFin s (Zpos m * 2 ^ e) 0
      else DFin s (Zpos m * 5 ^ (- e)) e
  end.

Fixpoint digits10_fuel (fuel : nat) (n : Z) : Z :=
  match fuel with
  | O => 0
  | S f => if n <? 10 then 1 else 1 + digits10_fuel f (n / 10)
  end.

(** Number of decimal digits of [n] (1 for [n <= 9]). *)
Definition digits10 (n : Z) : Z :=
  digits10_fuel (S (Z.to_nat (Z.log2 n))) n.

(** [adjusted()]: the exponent of the leading digit. *)
Definition adjusted (c e : Z) : Z := digits10 c + e - 1.

(** [a / b] rounded to an integer, ties to even ([0 <= a], [0 < b]). *)
Definition div_half_even (a b : Z) : Z :=
  let q := a / b in
  let r := a mod b in
  match 2 * r ?= b with
  | Lt => q
  | Gt => q + 1
  | Eq => if Z.even q then q else q + 1
  end.

(** The exponent [k] with [10^27 <= n / (d * 10^k) < 10^28]. *)
Definition quotient_shift (n d : Z) : Z :=
  let dd := digits10 n - digits10 d in
  let lead := if d * 10 ^ Z.max dd 0 <=? n * 10 ^ Z.max (- dd) 0
              then dd else dd - 1 in
  lead - (context_prec - 1).

(** Quotient of two non-zero finite decimals, correctly rounded to
    [context_prec] significant digits. *)
Definition div_finite (cx ex cy ey : Z) : Z * Z :=
  let k := quotient_shift cx cy in
  let a := cx * 10 ^ Z.max (- k) 0 in
  let b := cy * 10 ^ Z.max k 0 in
  (div_half_even a b, k + (ex - ey)).

(** Exponent of a zero quotient; its value is zero whatever it is. *)
Definition etiny : Z := -1000026.

(** [x / y] in the default context (traps: InvalidOperation,
    DivisionByZero, Overflow). *)
Definition div (x y : decimal) : result decimal :=
  match x, y with
  | DNaN, _ | _, DNaN => Ok DNaN
  | DInf _, DInf _ => Raise InvalidOperation
  | DInf sx, DFin sy _ _ => Ok (DInf (xorb sx sy))
  | DFin sx _ _, DInf sy => Ok (DFin (xorb sx sy) 0 etiny)
  | DFin sx cx ex, DFin sy cy ey =>
      if cy =? 0 then
        if cx =? 0 then Raise InvalidOperation else Raise DivisionByZero
      else if cx =? 0 then Ok (DFin (xorb sx sy) 0 (ex - ey))
      else let '(c, e) := div_finite cx ex cy ey in Ok (DFin (xorb sx sy) c e)
  end.

(** The coefficient of [c * 10^e] at exponent [q], digits beyond cut off
    ([ROUND_DOWN]). *)
Definition rescale_down (c e q : Z) : Z :=
  if q <=? e then c * 10 ^ (e - q) else c / 10 ^ (q - e).

(** [x.quantize(Decimal('0.00000001'), rounding=ROUND_DOWN)]. *)
Definition quantize_down8 (x : decimal) : result decimal :=
  match x with
  | DNaN => Ok DNaN
  | DInf _ => Raise InvalidOperation
  | DFin s c e =>
      if c =? 0 then Ok (DFin s 0 (-8))
      else if context_prec <? adjusted c e + 8 + 1 then Raise InvalidOperation
      else Ok (DFin s (rescale_down c e (-8)) (-8))
  end.

(** [float(x)]: the nearest float, ties to even. *)
Definition to_float (x : decimal) : spec_float :=
  match x with
  | DNaN => S754_nan
  | DInf s => S754_infinity s
  | DFin s c e =>
      let n := if 0 <=? e then c * 10 ^ e else c in
      let d := if 0 <=? e then 1 else 10 ^ (- e) in
      match n with
      | Zpos p =>
          PyFloat.fdiv_ieee (S754_finite s p 0) (S754_finite false (Z.to_pos d) 0)
      | _ => S754_zero s
      end
  end.

End PyDecimal.

(** ** Settings ([config/settings.py]) *)

Module Settings.
Definition BUY_PRICE : spec_float := PyFloat.of_ratio 65 100.
Definition SELL_PRICE : spec_float := PyFloat.of_ratio 70 100.
Definition PRICE_ALERT_THRESHOLDS : list (string * spec_float) :=
  [("low"%string, PyFloat.of_ratio 64 100);
   ("high"%string, PyFloat.of_ratio 71 100)].
End Settings.

(** Floats are compared for identity in sets of alert identifiers. *)
#[global] Instance spec_float_eq_dec : EqDecision spec_float.
Proof. solve_decision. Defined.

Definition spec_float_code (x : spec_float) : bool + bool + unit + bool * positive * Z :=
  match x with
  | S754_zero s => inl (inl (inl s))
  | S754_infinity s => inl (inl (inr s))
  | S754_nan => inl (inr tt)
  | S754_finite s m e => inr (s, m, e)
  end.

Definition spec_float_decode (c : bool + bool + unit + bool * positive * Z) : spec_float :=
  match c with
  | inl (inl (inl s)) => S754_zero s
  | inl (inl (inr s)) => S754_infinity s
  | inl (inr _) => S754_nan
  | inr (s, m, e) => S754_finite s m e
  end.

#[global] Instance spec_float_countable : Countable spec_float.
Proof.
  apply (inj_countable' spec_float_code spec_float_decode).
  intros []; reflexivity.
Defined.

(** ** Events: what a run does to the outside world and to the log *)

Inductive side : Set := Buy | Sell.

(** The places where an exception is caught and logged. *)
Inductive site : Set :=
| TraderBalance | TraderBuy | TraderSell | TraderStatus
| EngineStatus | EngineBuy | EngineSell
| TrackerCallback | MonitorLoop.

Inductive message : Set :=
| BuyFilled (at_price : option spec_float)
| SellFilled (at_price : spec_float)
| PlacedBuy (at_price : spec_float)
| PlacedSell (at_price : spec_float).

Inductive event : Set :=
| ExchangeOrder (s : side) (price quantity : spec_float)
    (* api.place_order(side, pair, price, quantity) is called *)
| TradeNotification (s : side) (price quantity total : spec_float) (id : option string)
| Message (m : message)
| PriceAlert (price : spec_float) (alert_type : string) (threshold : spec_float)
| ErrorLogged (where_ : site)
| Warned (s : side).

Definition is_exchange_order (e : event) : bool :=
  match e with ExchangeOrder _ _ _ => true | _ => false end.

Definition is_error (e : event) : bool :=
  match e with ErrorLogged _ => true | _ => false end.

(** ** The replies of the exchange during one polling cycle *)

Record Balance : Set := {
  crypto_available : spec_float;
  fiat_available : spec_float
}.

(** One cycle calls the exchange at most once for a status, once for the
    balances and once to place an order; [now] is [int(time.time())].
    An order reply is what [order.get("id")] yields, a status reply what
    [status.get("status")] yields. *)
Record replies : Set := {
  status_reply : result (option string);
  balance_reply : result Balance;
  order_reply : result (option string);
  now : Z
}.

(** Truth value of an order id: [None] and the empty string are false. *)
Definition truthy_id (o : option string) : bool :=
  match o with
  | Some s => negb (String.eqb s "")
  | None => false
  end.

(** ** [core/trader.py] *)

Module Trader.

Record OrderRecord : Set := {
  o_type : side;
  o_price : spec_float;
  o_quantity : spec_float;
  o_total : spec_float;
  o_status : option string;
  o_timestamp : Z
}.

Record t : Type := { active_orders : gmap string OrderRecord }.

Definition init : t := {| active_orders := ∅ |}.

Definition set_status (s : option string) (r : OrderRecord) : OrderRecord :=
  {| o_type := o_type r; o_price := o_price r; o_quantity := o_quantity r;
     o_total := o_total r; o_status := s; o_timestamp := o_timestamp r |}.

(** [status in ["filled", "cancelled"]]. *)
Definition terminal_status (s : option string) : bool :=
  match s with
  | Some v => String.eqb v "filled" || String.eqb v "cancelled"
  | None => false
  end.

Definition get_account_balance (ex : replies) : result Balance * list event :=
  match balance_reply ex with
  | Ok b => (Ok b, [])
  | Raise e => (Raise e, [ErrorLogged TraderBalance])
  end.

(** [float((Decimal(total_amount) / Decimal(price)).quantize(
    Decimal('0.00000001'), rounding=ROUND_DOWN))]. *)
Definition buy_quantity (total_amount price : spec_float) : result spec_float :=
  match PyDecimal.div (PyDecimal.of_float total_amount) (PyDecimal.of_float price) with
  | Raise e => Raise e
  | Ok q =>
      match PyDecimal.quantize_down8 q with
      | Raise e => Raise e
      | Ok d => Ok (PyDecimal.to_float d)
      end
  end.

(** [self.active_orders[order_id] = {...}] under [if order_id:]. *)
Definition store_order (tr : t) (id : option string) (r : OrderRecord) : t :=
  match id with
  | Some k => if truthy_id id then {| active_orders := <[k := r]> (active_orders tr) |} else tr
  | None => tr
  end.

Definition new_record (s : side) (price quantity : spec_float) (ts : Z) : OrderRecord :=
  {| o_type := s; o_price := price; o_quantity := quantity;
     o_total := PyFloat.fmul price quantity;
     o_status := Some "placed"%string; o_timestamp := ts |}.

(** The common tail of [place_buy_order] and [place_sell_order]: call
    the exchange, store the record, notify. *)
Definition submit (tr : t) (ex : replies) (s : side) (where_ : site)
    (price quantity : spec_float) : result (option string) * t * list event :=
  match order_reply ex with
  | Raise e => (Raise e, tr, [ExchangeOrder s price quantity; ErrorLogged where_])
  | Ok id =>
      (Ok id, store_order tr id (new_record s price quantity (now ex)),
       [ExchangeOrder s price quantity;
        TradeNotification s price quantity (PyFloat.fmul price quantity) id])
  end.

Definition place_buy_order (tr : t) (ex : replies) (price : spec_float)
    (quantity total_amount : option spec_float)
    : result (option string) * t * list event :=
  let computed :=
    match total_amount, quantity with
    | Some total, None =>
        match buy_quantity total price with
        | Ok q => Ok (Some q)
        | Raise e => Raise e
        end
    | _, _ => Ok quantity
    end in
  match computed with
  | Raise e => (Raise e, tr, [ErrorLogged TraderBuy])
  | Ok None => (Raise ValueError, tr, [ErrorLogged TraderBuy])
  | Ok (Some q) => submit tr ex Buy TraderBuy price q
  end.

Definition place_sell_order (tr : t) (ex : replies) (price quantity : spec_float)
    : result (option string) * t * list event :=
  submit tr ex Sell TraderSell price quantity.

Definition get_order_status (tr : t) (ex : replies) (order_id : string)
    : result (option string) * t * list event :=
  match status_reply ex with
  | Raise e => (Raise e, tr, [ErrorLogged TraderStatus])
  | Ok st =>
      (Ok st,
       {| active_orders := alter (set_status st) order_id (active_orders tr) |},
       [])
  end.

(** The records of [get_active_orders], in no particular order. *)
Definition get_active_orders (tr : t) : list OrderRecord :=
  List.filter (fun r => negb (terminal_status (o_status r)))
    (snd <$> map_to_list (active_orders tr)).

End Trader.

(** ** [core/tracker.py] *)

Module Tracker.

Record PriceSample : Set := { timestamp : Z; price : spec_float }.

(** What [float(ticker.get("last_price", 0))] meets in a fetched ticker:
    no such key, a value [float] rejects, or a number. *)
Inductive last_price : Set :=
| Absent
| Malformed
| Num (x : spec_float).

(** A registered callback is run on a price and a world [W]; it may
    raise, leaving the world as it was at that point. *)
Record outcome (W : Type) : Type := { world : W; trace : list event; raised : bool }.
Arguments world {W} _.
Arguments trace {W} _.
Arguments raised {W} _.

Definition callback (W : Type) : Type := spec_float -> W -> outcome W.

Record t (W : Type) : Type := {
  current_price : option spec_float;
  price_history : list PriceSample;
  callbacks : list (callback W)
}.
Arguments current_price {W} _.
Arguments price_history {W} _.
Arguments callbacks {W} _.

Definition init {W} : t W :=
  {| current_price := None; price_history := []; callbacks := [] |}.

Definition set_price {W} (tr : t W) (p : spec_float) : t W :=
  {| current_price := Some p; price_history := price_history tr;
     callbacks := callbacks tr |}.

Definition set_history {W} (tr : t W) (h : list PriceSample) : t W :=
  {| current_price := current_price tr; price_history := h;
     callbacks := callbacks tr |}.

(** The price read from a ticker reply, when the [try] body completes. *)
Definition fetched_price (r : result last_price) : option spec_float :=
  match r with
  | Ok (Num x) => Some x
  | Ok Absent => Some (S754_zero false)
  | Ok Malformed => None
  | Raise _ => None
  end.

Definition get_current_price {W} (tr : t W) (r : result last_price)
    : spec_float * t W :=
  match fetched_price r with
  | Some p => (p, set_price tr p)
  | None => (PyFloat.or_default (current_price tr) (S754_zero false), tr)
  end.

Definition register_callback {W} (tr : t W) (cb : callback W) : t W :=
  {| current_price := current_price tr; price_history := price_history tr;
     callbacks := callbacks tr ++ [cb] |}.

(** [self.price_history.append(s)] and [pop(0)] beyond 1000 entries. *)
Definition append_sample (h : list PriceSample) (s : PriceSample) : list PriceSample :=
  let h' := h ++ [s] in
  if (1000 <? Z.of_nat (length h')) then tl h' else h'.

(** The [for callback in self.callbacks] loop: an exception of a
    callback is logged and the next callback runs. *)
Fixpoint run_callbacks {W} (cbs : list (callback W)) (p : spec_float) (w : W)
    : W * list event :=
  match cbs with
  | [] => (w, [])
  | cb :: rest =>
      let o := cb p w in
      let '(w', evs) := run_callbacks rest p (world o) in
      (w', trace o ++ (if raised o then [ErrorLogged TrackerCallback] else []) ++ evs)
  end.

(** One iteration of the [while self._running] loop of [start_tracking]. *)
Definition tracking_cycle {W} (tr : t W) (w : W) (r : result last_price) (clock : Z)
    : t W * W * list event :=
  let '(p, tr1) := get_current_price tr r in
  let tr2 := set_history tr1
               (append_sample (price_history tr1) {| timestamp := clock; price := p |}) in
  let '(w', evs) := run_callbacks (callbacks tr2) p w in
  (tr2, w', evs).

(** [start_tracking] over the cycles it runs before it is stopped: one
    ticker reply and one clock reading per cycle. *)
Fixpoint start_tracking {W} (tr : t W) (w : W) (cycles : list (result last_price * Z))
    : t W * W * list event :=
  match cycles with
  | [] => (tr, w, [])
  | (r, clock) :: rest =>
      let '(tr1, w1, evs1) := tracking_cycle tr w r clock in
      let '(tr2, w2, evs2) := start_tracking tr1 w1 rest in
      (tr2, w2, evs1 ++ evs2)
  end.

(** [lst[start:]]. *)
Definition slice_from {A} (start : Z) (l : list A) : list A :=
  let n := Z.of_nat (length l) in
  let s := if start <? 0 then Z.max (start + n) 0 else Z.min start n in
  skipn (Z.to_nat s) l.

Definition get_price_history {W} (tr : t W) (limit : option Z) : list PriceSample :=
  match limit with
  | Some l =>
      if negb (l =? 0) && (l <? Z.of_nat (length (price_history tr)))
      then slice_from (- l) (price_history tr)
      else price_history tr
  | None => price_history tr
  end.

End Tracker.

(** ** [core/alerts.py] *)

Module Alerts.

(** [alert_id = f"{alert_type}_{threshold}"].  The text of a float holds
    no underscore and determines the float, so the identifier determines
    the pair and is modelled by it. *)
Definition alert_id : Type := string * spec_float.

Record alert : Set := {
  a_type : string;
  a_threshold : spec_float;
  a_current_price : spec_float
}.

(** [thresholds] is a dict: its items in insertion order. *)
Record t : Type := {
  thresholds : list (string * spec_float);
  triggered_alerts : gset alert_id
}.

Definition init (thresholds : list (string * spec_float)) : t :=
  {| thresholds := thresholds; triggered_alerts := ∅ |}.

Definition lower_ascii (c : ascii) : ascii :=
  let n := nat_of_ascii c in
  if (Nat.leb 65 n && Nat.leb n 90)%bool then ascii_of_nat (n + 32) else c.

(** [str.lower] on ASCII text. *)
Fixpoint lower (s : string) : string :=
  match s with
  | EmptyString => EmptyString
  | String c rest => String (lower_ascii c) (lower rest)
  end.

Definition is_high (alert_type : string) : bool := String.eqb (lower alert_type) "high".
Definition is_low (alert_type : string) : bool := String.eqb (lower alert_type) "low".

Definition c098 : spec_float := PyFloat.of_ratio 98 100.
Definition c102 : spec_float := PyFloat.of_ratio 102 100.

(** The condition of the last [elif]: the price is back beyond the band. *)
Definition rearms (alert_type : string) (threshold current_price : spec_float) : bool :=
  (is_high alert_type && PyFloat.flt current_price (PyFloat.fmul threshold c098))
  || (is_low alert_type && PyFloat.fgt current_price (PyFloat.fmul threshold c102)).

(** The condition of the first two branches. *)
Definition crosses (alert_type : string) (threshold current_price : spec_float) : bool :=
  (is_high alert_type && PyFloat.fge current_price threshold)
  || (is_low alert_type && PyFloat.fle current_price threshold).

Definition fire (alert_type : string) (threshold current_price : spec_float)
    (acc : list alert * gset alert_id) : list alert * gset alert_id :=
  let id := (alert_type, threshold) in
  if decide (id ∈ acc.2) then acc
  else (acc.1 ++ [{| a_type := alert_type; a_threshold := threshold;
                     a_current_price := current_price |}],
        acc.2 ∪ {[id]}).

(** The body of the loop of [check_alerts] for one item of [thresholds]. *)
Definition check_item (current_price : spec_float)
    (acc : list alert * gset alert_id) (item : string * spec_float)
    : list alert * gset alert_id :=
  let '(alert_type, threshold) := item in
  let id := (alert_type, threshold) in
  if is_high alert_type && PyFloat.fge current_price threshold then
    fire alert_type threshold current_price acc
  else if is_low alert_type && PyFloat.fle current_price threshold then
    fire alert_type threshold current_price acc
  else if rearms alert_type threshold current_price then
    if decide (id ∈ acc.2) then (acc.1, acc.2 ∖ {[id]}) else acc
  else acc.

Definition check_alerts (a : t) (current_price : spec_float) : list alert * t :=
  let '(triggered, set) :=
    fold_left (check_item current_price) (thresholds a) ([], triggered_alerts a) in
  (triggered, {| thresholds := thresholds a; triggered_alerts := set |}).

Definition remove_key (k : string) (d : list (string * spec_float)) :=
  List.filter (fun kv => negb (String.eqb (fst kv) k)) d.

Fixpoint assign (k : string) (v : spec_float) (d : list (string * spec_float)) :=
  match d with
  | [] => [(k, v)]
  | (k', v') :: rest =>
      if String.eqb k' k then (k, v) :: rest else (k', v') :: assign k v rest
  end.

Definition add_threshold (a : t) (alert_type : string) (price : spec_float) : t :=
  {| thresholds := assign alert_type price (thresholds a);
     triggered_alerts := triggered_alerts a |}.

Definition remove_threshold (a : t) (alert_type : string) : t :=
  {| thresholds := remove_key alert_type (thresholds a);
     triggered_alerts := triggered_alerts a |}.

Definition notification (al : alert) : event :=
  PriceAlert (a_current_price al) (a_type al) (a_threshold al).

(** [price_callback]: the alerts of [check_alerts], each sent on. *)
Definition price_callback (a : t) (price : spec_float) : t * list event :=
  let '(alerts, a') := check_alerts a price in
  (a', notification <$> alerts).

(** [price_callback] as the tracker sees it once registered. *)
Definition as_callback : Tracker.callback t :=
  fun price a =>
    let '(a', evs) := price_callback a price in
    {| Tracker.world := a'; Tracker.trace := evs; Tracker.raised := false |}.

(** The loop of [monitor_loop] ([use_existing_tracker=False]): the
    [try] is around the loop, an exception of the callback ends it. *)
Fixpoint monitor_loop {W} (tr : Tracker.t W) (cb : Tracker.callback t) (a : t)
    (tickers : list (result Tracker.last_price)) : Tracker.t W * t * list event :=
  match tickers with
  | [] => (tr, a, [])
  | r :: rest =>
      let '(p, tr1) := Tracker.get_current_price tr r in
      let o := cb p a in
      if Tracker.raised o
      then (tr1, Tracker.world o, Tracker.trace o ++ [ErrorLogged MonitorLoop])
      else
        let '(tr2, a2, evs) := monitor_loop tr1 cb (Tracker.world o) rest in
        (tr2, a2, Tracker.trace o ++ evs)
  end.

(** The sequence of alert lists [check_alerts] returns along [prices]. *)
Fixpoint feed (a : t) (prices : list spec_float) : list (list alert) * t :=
  match prices with
  | [] => ([], a)
  | p :: rest =>
      let '(tr, a1) := check_alerts a p in
      let '(trs, a2) := feed a1 rest in
      (tr :: trs, a2)
  end.

End Alerts.

(** ** [scripts/auto_trader.py] *)

Module AutoTrader.

Record t : Type := {
  buy_price : spec_float;
  sell_price : spec_float;
  trader : Trader.t;
  in_position : bool;
  current_order_id : option string;
  buy_order_price : option spec_float;
  buy_order_quantity : option spec_float
}.

(** [__init__]: a missing or zero price falls back on the settings. *)
Definition init (buy sell : option spec_float) : t :=
  {| buy_price := PyFloat.or_default buy Settings.BUY_PRICE;
     sell_price := PyFloat.or_default sell Settings.SELL_PRICE;
     trader := Trader.init;
     in_position := false;
     current_order_id := None;
     buy_order_price := None;
     buy_order_quantity := None |}.

Definition set_trader (a : t) (tr : Trader.t) : t :=
  {| buy_price := buy_price a; sell_price := sell_price a; trader := tr;
     in_position := in_position a; current_order_id := current_order_id a;
     buy_order_price := buy_order_price a;
     buy_order_quantity := buy_order_quantity a |}.

Definition set_in_position (a : t) (b : bool) : t :=
  {| buy_price := buy_price a; sell_price := sell_price a; trader := trader a;
     in_position := b; current_order_id := current_order_id a;
     buy_order_price := buy_order_price a;
     buy_order_quantity := buy_order_quantity a |}.

Definition set_order_id (a : t) (id : option string) : t :=
  {| buy_price := buy_price a; sell_price := sell_price a; trader := trader a;
     in_position := in_position a; current_order_id := id;
     buy_order_price := buy_order_price a;
     buy_order_quantity := buy_order_quantity a |}.

Definition set_buy_order_price (a : t) (p : option spec_float) : t :=
  {| buy_price := buy_price a; sell_price := sell_price a; trader := trader a;
     in_position := in_position a; current_order_id := current_order_id a;
     buy_order_price := p;
     buy_order_quantity := buy_order_quantity a |}.

Definition set_buy_order_quantity (a : t) (q : option spec_float) : t :=
  {| buy_price := buy_price a; sell_price := sell_price a; trader := trader a;
     in_position := in_position a; current_order_id := current_order_id a;
     buy_order_price := buy_order_price a;
     buy_order_quantity := q |}.

(** The four states of the engine. *)
Inductive state : Set := FLAT | BUY_PENDING | LONG | SELL_PENDING.

Definition state_of (a : t) : state :=
  match in_position a, truthy_id (current_order_id a) with
  | false, false => FLAT
  | false, true => BUY_PENDING
  | true, false => LONG
  | true, true => SELL_PENDING
  end.

Definition status_is (st : option string) (v : string) : bool :=
  match st with Some s => String.eqb s v | None => false end.

(** What the branches on [status] do once the poll has answered. *)
Definition resolve (a : t) (st : option string) : t * list event :=
  if status_is st "filled" then
    if negb (in_position a) then
      (set_order_id (set_in_position a true) None,
       [Message (BuyFilled (buy_order_price a))])
    else
      (set_order_id (set_in_position a false) None,
       [Message (SellFilled (sell_price a))])
  else if status_is st "cancelled" then (set_order_id a None, [])
  else (a, []).

(** Lines 41-67: the status poll of the pending order.  The boolean is
    true when the method returns at once ([open], [partially_filled]). *)
Definition poll_order (a : t) (ex : replies) : t * list event * bool :=
  match current_order_id a with
  | Some id =>
      if truthy_id (current_order_id a) then
        match Trader.get_order_status (trader a) ex id with
        | (Raise _, tr, evs) => (set_trader a tr, evs ++ [ErrorLogged EngineStatus], false)
        | (Ok st, tr, evs) =>
            let '(a', evs') := resolve (set_trader a tr) st in
            (a', evs ++ evs', status_is st "open" || status_is st "partially_filled")
        end
      else (a, [], false)
  | None => (a, [], false)
  end.

Definition c095 : spec_float := PyFloat.of_ratio 95 100.
Definition c1000 : spec_float := PyFloat.of_Z 1000.
Definition c10 : spec_float := PyFloat.of_Z 10.
Definition c0 : spec_float := S754_zero false.

(** [min(available_fiat * 0.95, 1000)]. *)
Definition spend (available_fiat : spec_float) : spec_float :=
  PyFloat.py_min (PyFloat.fmul available_fiat c095) c1000.

(** Lines 73-97: the [try] block of the buy side. *)
Definition try_buy (a : t) (ex : replies) (current_price : spec_float) : t * list event :=
  match Trader.get_account_balance ex with
  | (Raise _, evs) => (a, evs ++ [ErrorLogged EngineBuy])
  | (Ok balance, evs) =>
      let total_amount := spend (fiat_available balance) in
      if PyFloat.fgt total_amount c10 then
        match Trader.place_buy_order (trader a) ex current_price None (Some total_amount) with
        | (Raise _, tr, evs') => (set_trader a tr, evs ++ evs' ++ [ErrorLogged EngineBuy])
        | (Ok id, tr, evs') =>
            let a1 := set_buy_order_price (set_order_id (set_trader a tr) id)
                        (Some current_price) in
            match PyFloat.truediv total_amount current_price with
            | Raise _ => (a1, evs ++ evs' ++ [ErrorLogged EngineBuy])
            | Ok q =>
                (set_buy_order_quantity a1 (Some q),
                 evs ++ evs' ++ [Message (PlacedBuy current_price)])
            end
        end
      else (a, evs ++ [Warned Buy])
  end.

(** Lines 102-121: the [try] block of the sell side. *)
Definition try_sell (a : t) (ex : replies) (current_price : spec_float) : t * list event :=
  match Trader.get_account_balance ex with
  | (Raise _, evs) => (a, evs ++ [ErrorLogged EngineSell])
  | (Ok balance, evs) =>
      let available_crypto := crypto_available balance in
      if PyFloat.fgt available_crypto c0 then
        match Trader.place_sell_order (trader a) ex current_price available_crypto with
        | (Raise _, tr, evs') => (set_trader a tr, evs ++ evs' ++ [ErrorLogged EngineSell])
        | (Ok id, tr, evs') =>
            (set_order_id (set_trader a tr) id,
             evs ++ evs' ++ [Message (PlacedSell current_price)])
        end
      else (a, evs ++ [Warned Sell])
  end.

(** Lines 70-121: the order-placement logic. *)
Definition place_order (a : t) (ex : replies) (current_price : spec_float) : t * list event :=
  if negb (in_position a) && negb (truthy_id (current_order_id a)) then
    if PyFloat.fle current_price (buy_price a) then try_buy a ex current_price
    else (a, [])
  else if in_position a && negb (truthy_id (current_order_id a)) then
    if PyFloat.fge current_price (sell_price a) then try_sell a ex current_price
    else (a, [])
  else (a, []).

Definition check_price_and_trade (a : t) (ex : replies) (current_price : spec_float)
    : t * list event :=
  let '(a1, evs1, stop) := poll_order a ex in
  if stop then (a1, evs1)
  else
    let '(a2, evs2) := place_order a1 ex current_price in
    (a2, evs1 ++ evs2).

(** A run of polling cycles, each with its price and its replies. *)
Fixpoint run (a : t) (cycles : list (spec_float * replies)) : t * list event :=
  match cycles with
  | [] => (a, [])
  | (p, ex) :: rest =>
      let '(a1, evs1) := check_price_and_trade a ex p in
      let '(a2, evs2) := run a1 rest in
      (a2, evs1 ++ evs2)
  end.

(** The loop of [start_trading]: the price of each cycle is the one the
    engine's own tracker returns for that cycle's ticker reply. *)
Fixpoint trading_loop (tr : Tracker.t unit) (a : t)
    (cycles : list (result Tracker.last_price * replies))
    : Tracker.t unit * t * list event :=
  match cycles with
  | [] => (tr, a, [])
  | (r, ex) :: rest =>
      let '(p, tr1) := Tracker.get_current_price tr r in
      let '(a1, evs1) := check_price_and_trade a ex p in
      let '(tr2, a2, evs2) := trading_loop tr1 a1 rest in
      (tr2, a2, evs1 ++ evs2)
  end.

End AutoTrader.

(** * Properties *)

(** ** Records: setters that write back what is there *)

Lemma set_trader_same (a : AutoTrader.t) : AutoTrader.set_trader a (AutoTrader.trader a) = a.
Proof. destruct a; reflexivity. Qed.

(** ** [Trader.place_buy_order] without an amount *)

(** C10. With neither [quantity] nor [total_amount], [place_buy_order]
    raises [ValueError] before the exchange is called: there is no
    [ExchangeOrder] event, [active_orders] is the same and no trade
    notification is sent; the only trace is the error written to the log.
    More generally a call that does not reach the exchange raises,
    leaves [active_orders] alone and sends no notification. *)
Theorem place_buy_order_needs_an_amount (tr : Trader.t) (ex : replies) (price : spec_float) :
  Trader.place_buy_order tr ex price None None
  = (Raise ValueError, tr, [ErrorLogged TraderBuy])
  /\ (forall (quantity total_amount : option spec_float),
        let r := Trader.place_buy_order tr ex price quantity total_amount in
        List.filter is_exchange_order r.2 = [] ->
        r.1.2 = tr /\ is_ok r.1.1 = false /\ r.2 = [ErrorLogged TraderBuy]).
Proof.
  split; [reflexivity|].
  intros quantity total_amount r. subst r. unfold Trader.place_buy_order.
  assert (Hsub : forall q,
            List.filter is_exchange_order (Trader.submit tr ex Buy TraderBuy price q).2 <> []).
  { intros q. unfold Trader.submit. destruct (order_reply ex); discriminate. }
  destruct total_amount as [total|], quantity as [q|]; simpl;
    try (intros H; apply Hsub in H; contradiction);
    try (intros _; repeat split; reflexivity).
  destruct (Trader.buy_quantity total price) as [q | e]; simpl.
  - intros H; apply Hsub in H; contradiction.
  - intros _. repeat split; reflexivity.
Qed.

(** ** [PriceTracker.get_current_price] *)

Section CurrentPrice.
Context {W : Type}.
Implicit Types (tr : Tracker.t W) (r : result Tracker.last_price).

(** A reply from which no price is read: the fetch raised, or [float]
    rejected the field. *)
Definition fetch_failed r : Prop := Tracker.fetched_price r = None.

(** [x] and [y] are the same number for Python's [==], or the same NaN. *)
Definition same_number (x y : spec_float) : Prop :=
  x = y \/ SFeqb x y = true.

Lemma get_current_price_failed tr r :
  fetch_failed r ->
  Tracker.get_current_price tr r
  = (PyFloat.or_default (Tracker.current_price tr) (S754_zero false), tr).
Proof. unfold fetch_failed, Tracker.get_current_price. intros ->. reflexivity. Qed.

Lemma or_default_same_number (c : spec_float) :
  same_number (PyFloat.or_default (Some c) (S754_zero false)) c.
Proof.
  unfold PyFloat.or_default, PyFloat.truthy.
  destruct c as [s | s | | s m e]; simpl; try (left; reflexivity).
  right. reflexivity.
Qed.

(** C7. [get_current_price] always returns a float (it has no raising
    outcome).  On a fetched price it returns that price and caches it;
    on a failure it leaves the cache alone and returns the cached price
    (as a number: a cached [-0.0] comes back as [0]), or [0] when
    nothing is cached; two failing calls in a row return the same
    value. *)
Theorem get_current_price_never_raises tr r :
  (forall x, r = Ok (Tracker.Num x) ->
     Tracker.get_current_price tr r = (x, Tracker.set_price tr x)
     /\ Tracker.current_price (Tracker.get_current_price tr r).2 = Some x)
  /\ (fetch_failed r ->
      (Tracker.get_current_price tr r).2 = tr
      /\ (forall c, Tracker.current_price tr = Some c ->
            same_number (Tracker.get_current_price tr r).1 c)
      /\ (Tracker.current_price tr = None ->
            (Tracker.get_current_price tr r).1 = S754_zero false)
      /\ (forall r2, fetch_failed r2 ->
            (Tracker.get_current_price (Tracker.get_current_price tr r).2 r2).1
            = (Tracker.get_current_price tr r).1)).
Proof.
  split.
  - intros x ->. split; reflexivity.
  - intros Hf. rewrite (get_current_price_failed tr r Hf). simpl.
    split; [reflexivity|]. split; [|split].
    + intros c ->. apply or_default_same_number.
    + intros ->. reflexivity.
    + intros r2 Hf2. rewrite (get_current_price_failed tr r2 Hf2). reflexivity.
Qed.

End CurrentPrice.

(** The theorem at a failing fetch on a tracker that has cached 0.65. *)
Lemma get_current_price_never_raises_witness :
  fetch_failed (Raise ApiError)
  /\ (Tracker.get_current_price
        (Tracker.set_price (@Tracker.init unit) Settings.BUY_PRICE) (Raise ApiError)).1
     = Settings.BUY_PRICE.
Proof.
  split; [reflexivity|].
  pose proof (get_current_price_never_raises
                (Tracker.set_price (@Tracker.init unit) Settings.BUY_PRICE)
                (Raise ApiError)) as [_ H].
  destruct (H eq_refl) as (_ & Hc & _).
  destruct (Hc Settings.BUY_PRICE eq_refl) as [E | E]; [exact E | reflexivity].
Defined.

(** ** [PriceTracker.get_price_history] *)

(** The most recent [n] entries of [l] (all of [l] when it has fewer). *)
Definition most_recent {A} (n : nat) (l : list A) : list A :=
  skipn (length l - n) l.

Lemma most_recent_length {A} (n : nat) (l : list A) :
  length (most_recent n l) = Nat.min n (length l).
Proof. unfold most_recent. rewrite length_skipn. lia. Qed.

Section PriceHistory.
Context {W : Type}.
Implicit Types (tr : Tracker.t W).

Lemma slice_from_negative {A} (k : Z) (l : list A) :
  0 < k -> k < Z.of_nat (length l) ->
  Tracker.slice_from (- k) l = most_recent (Z.to_nat k) l.
Proof.
  intros Hk Hlt. unfold Tracker.slice_from, most_recent.
  destruct (Z.ltb_spec (- k) 0) as [_ | Hge]; [|lia].
  f_equal. lia.
Qed.

(** C8, amended.  For a positive [limit], [get_price_history] returns
    the most recent [limit] samples (the whole history when it holds
    fewer); it returns the whole history when [limit] is missing or is
    zero. *)
Theorem get_price_history_positive_limit tr :
  Tracker.get_price_history tr None = Tracker.price_history tr
  /\ Tracker.get_price_history tr (Some 0) = Tracker.price_history tr
  /\ forall limit : Z, 0 < limit ->
       Tracker.get_price_history tr (Some limit)
       = most_recent (Z.to_nat limit) (Tracker.price_history tr).
Proof.
  split; [reflexivity|]. split; [reflexivity|].
  intros limit Hpos. unfold Tracker.get_price_history.
  destruct (Z.eqb_spec limit 0) as [-> | _]; [lia|]. simpl.
  destruct (Z.ltb_spec limit (Z.of_nat (length (Tracker.price_history tr)))) as [Hlt | Hge].
  - apply slice_from_negative; assumption.
  - unfold most_recent.
    replace (length (Tracker.price_history tr) - Z.to_nat limit)%nat with O by lia.
    reflexivity.
Qed.

(** A negative [limit] is not a count: [-k] drops the [k] oldest samples. *)
Lemma get_price_history_negative_limit tr (k : Z) :
  0 < k ->
  Tracker.get_price_history tr (Some (- k))
  = skipn (Z.to_nat k) (Tracker.price_history tr).
Proof.
  intros Hk. unfold Tracker.get_price_history.
  destruct (Z.eqb_spec (- k) 0) as [E | _]; [lia|]. simpl.
  destruct (Z.ltb_spec (- k) (Z.of_nat (length (Tracker.price_history tr)))) as [_ | Hge]; [|lia].
  unfold Tracker.slice_from. rewrite Z.opp_involutive.
  destruct (Z.ltb_spec k 0) as [Hlt | _]; [lia|].
  destruct (Z.min_spec k (Z.of_nat (length (Tracker.price_history tr)))) as [[_ ->] | [Hle ->]].
  - reflexivity.
  - rewrite Nat2Z.id. rewrite !skipn_all2 by lia. reflexivity.
Qed.

End PriceHistory.

Definition sample_a : Tracker.PriceSample :=
  {| Tracker.timestamp := 1700000000; Tracker.price := PyFloat.of_ratio 70 100 |}.
Definition sample_b : Tracker.PriceSample :=
  {| Tracker.timestamp := 1700000060; Tracker.price := PyFloat.of_ratio 72 100 |}.

(** C8 as stated fails at [limit = 0]: the most recent zero samples are
    none, yet the whole history comes back. *)
Lemma get_price_history_limit_zero :
  let tr := Tracker.set_history (@Tracker.init unit) [sample_a; sample_b] in
  most_recent (Z.to_nat 0) (Tracker.price_history tr) = []
  /\ Tracker.get_price_history tr (Some 0) = [sample_a; sample_b]
  /\ Tracker.get_price_history tr (Some 0)
     <> most_recent (Z.to_nat 0) (Tracker.price_history tr).
Proof.
  simpl. split; [reflexivity|]. split; [reflexivity|]. discriminate.
Qed.

(** The amended statement at [limit = 1]. *)
Lemma get_price_history_positive_limit_witness :
  0 < 1
  /\ Tracker.get_price_history
       (Tracker.set_history (@Tracker.init unit) [sample_a; sample_b]) (Some 1)
     = [sample_b].
Proof.
  split; [lia|].
  destruct (get_price_history_positive_limit
              (Tracker.set_history (@Tracker.init unit) [sample_a; sample_b]))
    as (_ & _ & H).
  rewrite (H 1 ltac:(lia)). reflexivity.
Defined.

(** ** The bounded history of [PriceTracker.start_tracking] *)

Section History.
Context {W : Type}.
Implicit Types (tr : Tracker.t W) (h : list Tracker.PriceSample).

Lemma tl_skipn {A} (n : nat) (l : list A) : tl (skipn n l) = skipn (S n) l.
Proof.
  revert l. induction n as [|n IH]; intros [|x l]; try reflexivity.
  change (tl (skipn n l) = skipn (S n) l). apply IH.
Qed.

Lemma append_sample_window h (s : Tracker.PriceSample) :
  Tracker.append_sample (skipn (length h - 1000) h) s
  = skipn (length (h ++ [s]) - 1000) (h ++ [s]).
Proof.
  unfold Tracker.append_sample.
  rewrite !length_app, length_skipn. simpl length.
  destruct (Z.ltb_spec 1000 (Z.of_nat (length h - (length h - 1000) + 1))) as [Hgt | Hle].
  - assert (Hlen : (1000 <= length h)%nat) by lia.
    replace (length h + 1 - 1000)%nat with (S (length h - 1000)) by lia.
    rewrite <- (drop_app_le h [s]) by lia.
    apply tl_skipn.
  - replace (length h - 1000)%nat with O by lia.
    replace (length h + 1 - 1000)%nat with O by lia.
    reflexivity.
Qed.

Lemma sorted_skipn (n : nat) (l : list Z) : Sorted Z.le l -> Sorted Z.le (skipn n l).
Proof.
  revert l. induction n as [|n IH]; intros l Hs; [exact Hs|].
  destruct l as [|x l]; [constructor|]. simpl. apply IH.
  apply Sorted_inv in Hs. tauto.
Qed.

(** What the tracker holds after [cycles], as a window over everything
    appended so far. *)
Lemma start_tracking_history tr (w : W) cycles :
  forall all_before,
    Tracker.price_history tr = skipn (length all_before - 1000) all_before ->
    exists samples,
      Tracker.timestamp <$> samples = cycles.*2
      /\ Tracker.price_history (Tracker.start_tracking tr w cycles).1.1
         = skipn (length (all_before ++ samples) - 1000) (all_before ++ samples).
Proof.
  revert tr w. induction cycles as [|[r clock] rest IH]; intros tr w all_before Hh.
  - exists []. rewrite app_nil_r. split; [reflexivity | exact Hh].
  - simpl. unfold Tracker.tracking_cycle.
    destruct (Tracker.get_current_price tr r) as [p tr1] eqn:Eg.
    set (s := {| Tracker.timestamp := clock; Tracker.price := p |}).
    set (tr2 := Tracker.set_history tr1 (Tracker.append_sample (Tracker.price_history tr1) s)).
    destruct (Tracker.run_callbacks (Tracker.callbacks tr2) p w) as [w1 evs1].
    assert (Hh1 : Tracker.price_history tr1 = Tracker.price_history tr).
    { unfold Tracker.get_current_price in Eg.
      destruct (Tracker.fetched_price r); inversion Eg; reflexivity. }
    destruct (IH tr2 w1 (all_before ++ [s])) as (samples & Hts & Hwin).
    { unfold tr2. simpl. rewrite Hh1, Hh. apply append_sample_window. }
    destruct (Tracker.start_tracking tr2 w1 rest) as [[tr3 w3] evs3].
    exists (s :: samples). split.
    + simpl. f_equal. exact Hts.
    + simpl in *. rewrite Hwin, <- app_assoc. reflexivity.
Qed.

(** C6, amended.  Over any number of tracking cycles the history is the
    window of the last 1000 samples of everything appended, in the order
    of appending: it never holds more than 1000 samples, and after 1001
    appends to an empty history the first sample is gone and the others,
    up to the 1001st, are all there.  The timestamps are the readings of
    the clock, one per cycle, as they were read: from an empty history
    they are, for up to 1000 cycles, exactly the list of the readings.
    They are non-decreasing when the readings, after the timestamps
    already in the history, never step back; the loop itself does nothing
    to order them. *)
Theorem price_history_bounded_fifo tr (w : W) cycles :
  (length (Tracker.price_history tr) <= 1000)%nat ->
  exists samples,
    let all := Tracker.price_history tr ++ samples in
    let h := Tracker.price_history (Tracker.start_tracking tr w cycles).1.1 in
    Tracker.timestamp <$> samples = cycles.*2
    /\ h = skipn (length all - 1000) all
    /\ (length h <= 1000)%nat
    /\ (Sorted Z.le ((Tracker.timestamp <$> Tracker.price_history tr) ++ cycles.*2) ->
        Sorted Z.le (Tracker.timestamp <$> h))
    /\ (Tracker.price_history tr = [] -> (length cycles <= 1000)%nat ->
        Tracker.timestamp <$> h = cycles.*2)
    /\ (Tracker.price_history tr = [] -> length cycles = 1001%nat ->
        h = tl samples /\ last h = last samples /\ length h = 1000%nat).
Proof.
  intros Hlen.
  destruct (start_tracking_history tr w cycles (Tracker.price_history tr)) as (samples & Hts & Hwin).
  { replace (length (Tracker.price_history tr) - 1000)%nat with O by lia. reflexivity. }
  exists samples. cbv zeta. split; [exact Hts|]. split; [exact Hwin|].
  assert (Hsamples : length samples = length cycles).
  { rewrite <- (length_fmap Tracker.timestamp samples), Hts, length_fmap. reflexivity. }
  split; [|split; [|split]].
  - rewrite Hwin, length_skipn. lia.
  - intros Hs. rewrite Hwin. rewrite fmap_drop. apply sorted_skipn.
    rewrite fmap_app, Hts. exact Hs.
  - intros Hnil Hn. rewrite Hwin, Hnil. simpl app.
    replace (length samples - 1000)%nat with O by lia. exact Hts.
  - intros Hnil Hn. rewrite Hwin, Hnil. simpl app.
    assert (Hls : length samples = 1001%nat).
    { rewrite <- Hn, <- (length_fmap Tracker.timestamp samples), Hts, length_fmap.
      reflexivity. }
    rewrite Hls. change (1001 - 1000)%nat with 1%nat.
    destruct samples as [|s0 rest]; [discriminate|].
    rewrite length_cons in Hls. change (skipn 1 (s0 :: rest)) with rest.
    split; [reflexivity|]. split.
    + destruct rest; [simpl in Hls; lia | reflexivity].
    + lia.
Qed.

End History.

(** A fresh tracker run for two cycles, the first of which fails, with
    clock readings a minute apart. *)
Lemma price_history_bounded_fifo_witness :
  (length (Tracker.price_history (@Tracker.init unit)) <= 1000)%nat
  /\ (length (Tracker.price_history
               (Tracker.start_tracking (@Tracker.init unit) tt
                  [(Raise ApiError, 1700000000%Z);
                   (Ok (Tracker.Num Settings.BUY_PRICE), 1700000060%Z)]).1.1) <= 1000)%nat
  /\ Sorted Z.le
       (Tracker.timestamp <$>
          Tracker.price_history
            (Tracker.start_tracking (@Tracker.init unit) tt
               [(Raise ApiError, 1700000000%Z);
                (Ok (Tracker.Num Settings.BUY_PRICE), 1700000060%Z)]).1.1).
Proof.
  assert (H0 : (length (Tracker.price_history (@Tracker.init unit)) <= 1000)%nat)
    by (simpl; lia).
  split; [exact H0|].
  destruct (price_history_bounded_fifo (@Tracker.init unit) tt
              [(Raise ApiError, 1700000000%Z);
               (Ok (Tracker.Num Settings.BUY_PRICE), 1700000060%Z)] H0)
    as (samples & _ & _ & H & Hs & _).
  split; [exact H|]. apply Hs. cbn.
  apply Sorted_cons; [apply Sorted_cons; [apply Sorted_nil | apply HdRel_nil]|].
  apply HdRel_cons. lia.
Defined.

(** C6 as stated fails when the clock steps back between two cycles: the
    second sample of the history is then older than the first. *)
Lemma price_history_clock_steps_back :
  let h := Tracker.price_history
             (Tracker.start_tracking (@Tracker.init unit) tt
                [(Ok (Tracker.Num Settings.BUY_PRICE), 1700000120%Z);
                 (Ok (Tracker.Num Settings.BUY_PRICE), 1700000090%Z)]).1.1 in
  Tracker.timestamp <$> h = [1700000120%Z; 1700000090%Z]
  /\ ~ Sorted Z.le (Tracker.timestamp <$> h).
Proof.
  cbv zeta. split; [reflexivity|].
  intros Hs. change (Sorted Z.le [1700000120%Z; 1700000090%Z]) in Hs.
  apply Sorted_inv in Hs. destruct Hs as [_ Hhd]. inversion Hhd; subst. lia.
Qed.

(** ** The status poll of [AutoTrader.check_price_and_trade] *)

(** The exchange orders among the events of a run. *)
Definition orders_in (evs : list event) : list event :=
List.filter is_exchange_order evs.

(** The records the engine's trader tracks. *)
Definition tracked (a : AutoTrader.t) : gmap string Trader.OrderRecord :=
Trader.active_orders (AutoTrader.trader a).

(** The engine after its trader has written the polled status into the
    record of order [id]. *)
Definition with_status (a : AutoTrader.t) (id : string) (st : option string) : AutoTrader.t :=
AutoTrader.set_trader a
  {| Trader.active_orders := alter (Trader.set_status st) id (tracked a) |}.

Section StatusPoll.
Implicit Types (a : AutoTrader.t) (ex : replies) (st : option string).

Lemma poll_order_answered a ex id st :
  AutoTrader.current_order_id a = Some id ->
  truthy_id (Some id) = true ->
  status_reply ex = Ok st ->
  AutoTrader.poll_order a ex
  = ((AutoTrader.resolve (with_status a id st) st).1,
     (AutoTrader.resolve (with_status a id st) st).2,
     AutoTrader.status_is st "open" || AutoTrader.status_is st "partially_filled").
Proof.
  intros Hid Ht Hst. unfold AutoTrader.poll_order, Trader.get_order_status.
  rewrite Hid, Ht, Hst. unfold with_status, tracked.
  destruct (AutoTrader.resolve _ st) as [a' evs']. reflexivity.
Qed.

Lemma poll_order_raised a ex id e :
  AutoTrader.current_order_id a = Some id ->
  truthy_id (Some id) = true ->
  status_reply ex = Raise e ->
  AutoTrader.poll_order a ex
  = (a, [ErrorLogged TraderStatus; ErrorLogged EngineStatus], false).
Proof.
  intros Hid Ht Hst. unfold AutoTrader.poll_order, Trader.get_order_status.
  rewrite Hid, Ht, Hst, set_trader_same. reflexivity.
Qed.

Lemma poll_order_idle a ex :
  truthy_id (AutoTrader.current_order_id a) = false ->
  AutoTrader.poll_order a ex = (a, [], false).
Proof.
  intros Ht. unfold AutoTrader.poll_order.
  destruct (AutoTrader.current_order_id a); [rewrite Ht|]; reflexivity.
Qed.

Lemma place_order_pending a ex p :
  truthy_id (AutoTrader.current_order_id a) = true ->
  AutoTrader.place_order a ex p = (a, []).
Proof.
  intros Ht. unfold AutoTrader.place_order. rewrite Ht.
  rewrite !andb_false_r. reflexivity.
Qed.

(** C4. With a pending order id and an answered status poll:
    [filled] while not in position sets [in_position] and clears the id
    (BUY_PENDING to LONG); [filled] while in position clears both
    (SELL_PENDING to FLAT); [cancelled] clears the id and keeps
    [in_position] (back to FLAT or LONG); [open] and [partially_filled]
    end the cycle there: no order is placed and nothing of the engine
    changes but the status written into the tracked record.  In the first
    three cases the order-placement logic of the same cycle then runs on
    the state so resolved. *)
Theorem poll_resolves_pending_order a ex id st (p : spec_float) :
  AutoTrader.current_order_id a = Some id ->
  truthy_id (Some id) = true ->
  status_reply ex = Ok st ->
  let polled := AutoTrader.poll_order a ex in
  (st = Some "filled"%string -> AutoTrader.in_position a = false ->
     AutoTrader.state_of a = AutoTrader.BUY_PENDING
     /\ AutoTrader.in_position polled.1.1 = true
     /\ AutoTrader.current_order_id polled.1.1 = None
     /\ AutoTrader.state_of polled.1.1 = AutoTrader.LONG)
  /\ (st = Some "filled"%string -> AutoTrader.in_position a = true ->
     AutoTrader.state_of a = AutoTrader.SELL_PENDING
     /\ AutoTrader.in_position polled.1.1 = false
     /\ AutoTrader.current_order_id polled.1.1 = None
     /\ AutoTrader.state_of polled.1.1 = AutoTrader.FLAT)
  /\ (st = Some "cancelled"%string ->
     AutoTrader.in_position polled.1.1 = AutoTrader.in_position a
     /\ AutoTrader.current_order_id polled.1.1 = None
     /\ AutoTrader.state_of polled.1.1
        = (if AutoTrader.in_position a then AutoTrader.LONG else AutoTrader.FLAT))
  /\ (st = Some "open"%string \/ st = Some "partially_filled"%string ->
     AutoTrader.check_price_and_trade a ex p = (with_status a id st, [])
     /\ AutoTrader.state_of (with_status a id st) = AutoTrader.state_of a)
  /\ (st <> Some "open"%string -> st <> Some "partially_filled"%string ->
     AutoTrader.check_price_and_trade a ex p
     = ((AutoTrader.place_order polled.1.1 ex p).1,
        polled.1.2 ++ (AutoTrader.place_order polled.1.1 ex p).2)).
Proof.
  intros Hid Ht Hst polled.
  assert (Hp : polled = ((AutoTrader.resolve (with_status a id st) st).1,
                         (AutoTrader.resolve (with_status a id st) st).2,
                         AutoTrader.status_is st "open"
                         || AutoTrader.status_is st "partially_filled"))
    by (apply poll_order_answered; assumption).
  assert (Hstate : forall b, AutoTrader.in_position a = b ->
            AutoTrader.state_of a
            = if b then AutoTrader.SELL_PENDING else AutoTrader.BUY_PENDING).
  { intros b Hb. unfold AutoTrader.state_of. rewrite Hb, Hid, Ht. reflexivity. }
  split; [|split; [|split; [|split]]].
  - intros -> Hpos. rewrite Hp. unfold AutoTrader.resolve. simpl.
    rewrite Hpos. simpl. rewrite (Hstate false Hpos). repeat split; reflexivity.
  - intros -> Hpos. rewrite Hp. unfold AutoTrader.resolve. simpl.
    rewrite Hpos. simpl. rewrite (Hstate true Hpos). repeat split; reflexivity.
  - intros ->. rewrite Hp. unfold AutoTrader.resolve. simpl.
    split; [reflexivity|]. split; [reflexivity|].
    unfold AutoTrader.state_of. simpl. destruct (AutoTrader.in_position a); reflexivity.
  - intros Hopen. unfold AutoTrader.check_price_and_trade. fold polled. rewrite Hp.
    assert (Hres : AutoTrader.resolve (with_status a id st) st = (with_status a id st, [])).
    { destruct Hopen as [-> | ->]; reflexivity. }
    rewrite Hres. simpl.
    replace (AutoTrader.status_is st "open" || AutoTrader.status_is st "partially_filled")
      with true by (destruct Hopen as [-> | ->]; reflexivity).
    split; [reflexivity|]. unfold AutoTrader.state_of. reflexivity.
  - intros Hno Hnp. unfold AutoTrader.check_price_and_trade. fold polled. rewrite Hp.
    simpl.
    assert (Hstop : AutoTrader.status_is st "open"
                    || AutoTrader.status_is st "partially_filled" = false).
    { destruct st as [s|]; [|reflexivity]. simpl. apply orb_false_iff. split.
      - destruct (String.eqb_spec s "open"); [subst; congruence | reflexivity].
      - destruct (String.eqb_spec s "partially_filled"); [subst; congruence | reflexivity]. }
    rewrite Hstop.
    destruct (AutoTrader.place_order _ ex p) as [a2 evs2]. reflexivity.
Qed.

End StatusPoll.

(** An engine waiting on the buy order ["o1"], and replies that report it
    filled. *)
Definition pending_buy : AutoTrader.t :=
AutoTrader.set_order_id (AutoTrader.init None None) (Some "o1"%string).

Definition reply_filled : replies :=
{| status_reply := Ok (Some "filled"%string);
   balance_reply := Raise ApiError;
   order_reply := Raise ApiError;
   now := 1700000000 |}.

Lemma poll_resolves_pending_order_witness :
  AutoTrader.state_of pending_buy = AutoTrader.BUY_PENDING
  /\ AutoTrader.state_of (AutoTrader.poll_order pending_buy reply_filled).1.1
     = AutoTrader.LONG.
Proof.
  destruct (poll_resolves_pending_order pending_buy reply_filled "o1"
              (Some "filled"%string) Settings.BUY_PRICE eq_refl eq_refl eq_refl)
    as (Hbuy & _).
  destruct (Hbuy eq_refl eq_refl) as (H1 & _ & _ & H2).
  split; [exact H1 | exact H2].
Defined.

(** ** Exceptions inside a cycle *)

Section Failures.
Implicit Types (a : AutoTrader.t) (ex : replies) (p : spec_float).

(** With more than 10 to spend and a zero price the quantity cannot be
    computed: the division of decimals raises. *)
Lemma buy_quantity_zero_price (total p : spec_float) :
  PyFloat.fgt total AutoTrader.c10 = true ->
  PyFloat.is_zero p = true ->
  exists e, Trader.buy_quantity total p = Raise e.
Proof.
  intros Hgt Hz. destruct p as [sp | | |]; try discriminate.
  unfold Trader.buy_quantity.
  destruct total as [s | s | | s m e]; try discriminate.
  - simpl. eexists; reflexivity.
  - simpl. destruct (0 <=? e); simpl;
      match goal with |- context [?c =? 0] => destruct (c =? 0) end;
      eexists; reflexivity.
Qed.

Lemma truediv_ok_or_zero (x y : spec_float) :
  PyFloat.is_zero y = false -> PyFloat.truediv x y = Ok (PyFloat.fdiv_ieee x y).
Proof. intros H. unfold PyFloat.truediv. rewrite H. reflexivity. Qed.

Definition is_status_error (e : event) : bool :=
  match e with ErrorLogged EngineStatus => true | _ => false end.

Lemma filter_nonempty_elem {A} (f : A -> bool) (x : A) (l : list A) :
  x ∈ l -> f x = true -> List.filter f l <> [].
Proof.
  induction l as [|y l IH]; intros Hin Hf.
  - apply elem_of_nil in Hin. contradiction.
  - apply elem_of_cons in Hin. simpl. destruct Hin as [<- | Hin].
    + rewrite Hf. discriminate.
    + destruct (f y); [discriminate | apply IH; assumption].
Qed.

(** What one attempt to place an order comes to: at most one call of the
    exchange; and either the state it began with, or an order accepted
    after an answered balance fetch, with no error logged. *)
Definition attempt_outcome (a : AutoTrader.t) (ex : replies)
    (r : AutoTrader.t * list event) : Prop :=
  (length (orders_in r.2) <= 1)%nat
  /\ List.filter is_status_error r.2 = []
  /\ (is_ok (balance_reply ex) = false -> orders_in r.2 = [])
  /\ (r.1 = a
      \/ (List.filter is_error r.2 = []
          /\ is_ok (balance_reply ex) = true /\ is_ok (order_reply ex) = true)).

Lemma attempt_outcome_same a ex (evs : list event) :
  orders_in evs = [] -> List.filter is_status_error evs = [] ->
  attempt_outcome a ex (a, evs).
Proof.
  intros H H'. unfold attempt_outcome. simpl. rewrite H. simpl.
  split; [lia|]. split; [exact H'|]. split; [reflexivity | left; reflexivity].
Qed.

Lemma try_buy_outcome a ex p : attempt_outcome a ex (AutoTrader.try_buy a ex p).
Proof.
  unfold AutoTrader.try_buy, Trader.get_account_balance.
  destruct (balance_reply ex) as [bal | e] eqn:Hbal; simpl.
  2: { apply attempt_outcome_same; reflexivity. }
  destruct (PyFloat.fgt (AutoTrader.spend (fiat_available bal)) AutoTrader.c10) eqn:Hgt; simpl.
  2: { apply attempt_outcome_same; reflexivity. }
  unfold Trader.place_buy_order.
  destruct (Trader.buy_quantity (AutoTrader.spend (fiat_available bal)) p) as [q | e] eqn:Hq; simpl.
  2: { rewrite set_trader_same. apply attempt_outcome_same; reflexivity. }
  unfold Trader.submit. destruct (order_reply ex) as [id | e] eqn:Hord; simpl.
  2: { rewrite set_trader_same. unfold attempt_outcome. rewrite Hbal. simpl.
       split; [lia|]. split; [reflexivity|]. split; [discriminate | left; reflexivity]. }
  destruct (PyFloat.is_zero p) eqn:Hz.
  { destruct (buy_quantity_zero_price _ p Hgt Hz) as [e He]. congruence. }
  rewrite (truediv_ok_or_zero _ p Hz). unfold attempt_outcome. rewrite Hbal, Hord. simpl.
  split; [lia|]. split; [reflexivity|]. split; [discriminate | right; repeat split; reflexivity].
Qed.

Lemma try_sell_outcome a ex p : attempt_outcome a ex (AutoTrader.try_sell a ex p).
Proof.
  unfold AutoTrader.try_sell, Trader.get_account_balance.
  destruct (balance_reply ex) as [bal | e] eqn:Hbal; simpl.
  2: { apply attempt_outcome_same; reflexivity. }
  destruct (PyFloat.fgt (crypto_available bal) AutoTrader.c0); simpl.
  2: { apply attempt_outcome_same; reflexivity. }
  unfold Trader.place_sell_order, Trader.submit.
  destruct (order_reply ex) as [id | e] eqn:Hord; simpl.
  - unfold attempt_outcome. rewrite Hbal, Hord. simpl.
    split; [lia|]. split; [reflexivity|]. split; [discriminate | right; repeat split; reflexivity].
  - rewrite set_trader_same. unfold attempt_outcome. rewrite Hbal. simpl.
    split; [lia|]. split; [reflexivity|]. split; [discriminate | left; reflexivity].
Qed.

Lemma place_order_outcome a ex p : attempt_outcome a ex (AutoTrader.place_order a ex p).
Proof.
  unfold AutoTrader.place_order.
  destruct (negb (AutoTrader.in_position a) && negb (truthy_id (AutoTrader.current_order_id a))).
  - destruct (PyFloat.fle p (AutoTrader.buy_price a)).
    + apply try_buy_outcome.
    + apply attempt_outcome_same; reflexivity.
  - destruct (AutoTrader.in_position a && negb (truthy_id (AutoTrader.current_order_id a))).
    + destruct (PyFloat.fge p (AutoTrader.sell_price a)).
      * apply try_sell_outcome.
      * apply attempt_outcome_same; reflexivity.
    + apply attempt_outcome_same; reflexivity.
Qed.

(** The status poll places no order, and logs an error only when the poll
    raised, in which case it changes nothing. *)
Lemma poll_order_outcome a ex :
  let polled := AutoTrader.poll_order a ex in
  orders_in polled.1.2 = []
  /\ (List.filter is_error polled.1.2 = []
      \/ (polled = (a, [ErrorLogged TraderStatus; ErrorLogged EngineStatus], false)
          /\ truthy_id (AutoTrader.current_order_id a) = true
          /\ is_ok (status_reply ex) = false)).
Proof.
  destruct (truthy_id (AutoTrader.current_order_id a)) eqn:Ht.
  2: { rewrite (poll_order_idle a ex Ht). simpl. split; [|left]; reflexivity. }
  destruct (AutoTrader.current_order_id a) as [id|] eqn:Hid; [|discriminate].
  destruct (status_reply ex) as [st | e] eqn:Hst.
  - rewrite (poll_order_answered a ex id st Hid Ht Hst). simpl.
    unfold AutoTrader.resolve.
    destruct (AutoTrader.status_is st "filled");
      [destruct (negb (AutoTrader.in_position (with_status a id st)))
      | destruct (AutoTrader.status_is st "cancelled")];
      simpl; (split; [|left]; reflexivity).
  - rewrite (poll_order_raised a ex id e Hid Ht Hst). simpl.
    split; [reflexivity|]. right. repeat split; reflexivity.
Qed.

Lemma filter_error_elem (evs : list event) (w : site) :
  ErrorLogged w ∈ evs -> List.filter is_error evs <> [].
Proof. intros Hin. apply (filter_nonempty_elem _ _ _ Hin). reflexivity. Qed.

(** C5. Whatever is raised inside one cycle leaves the engine where it was
    before the failing call.  A status poll that raises leaves the state
    of the start of the cycle and places no order.  An exception caught in
    the buy or sell block (balance fetch, quantity, exchange order)
    leaves the state the status poll produced: position, pending id and
    tracked records are the same and no order is recorded.  No cycle
    calls the exchange for more than one order. *)
Theorem failed_call_keeps_state a ex p :
  let polled := AutoTrader.poll_order a ex in
  let r := AutoTrader.check_price_and_trade a ex p in
  (truthy_id (AutoTrader.current_order_id a) = true ->
   is_ok (status_reply ex) = false ->
     r = (a, [ErrorLogged TraderStatus; ErrorLogged EngineStatus]))
  /\ (ErrorLogged EngineStatus ∈ r.2 -> r.1 = a /\ orders_in r.2 = [])
  /\ (ErrorLogged EngineBuy ∈ r.2 \/ ErrorLogged EngineSell ∈ r.2 ->
        r.1 = polled.1.1 /\ tracked r.1 = tracked polled.1.1)
  /\ (is_ok (balance_reply ex) = false -> r.1 = polled.1.1 /\ orders_in r.2 = [])
  /\ (is_ok (order_reply ex) = false -> r.1 = polled.1.1)
  /\ (length (orders_in r.2) <= 1)%nat.
Proof.
  intros polled r.
  destruct (poll_order_outcome a ex) as (Hpo & Hpe). fold polled in Hpo, Hpe.
  assert (Hraised : polled = (a, [ErrorLogged TraderStatus; ErrorLogged EngineStatus], false) ->
            truthy_id (AutoTrader.current_order_id a) = true ->
            r = (a, [ErrorLogged TraderStatus; ErrorLogged EngineStatus])).
  { intros Hp Ht. unfold r, AutoTrader.check_price_and_trade. fold polled. rewrite Hp.
    rewrite (place_order_pending a ex p Ht). reflexivity. }
  assert (Hr : r = (polled.1.1, polled.1.2)
               \/ r = ((AutoTrader.place_order polled.1.1 ex p).1,
                       polled.1.2 ++ (AutoTrader.place_order polled.1.1 ex p).2)).
  { unfold r, AutoTrader.check_price_and_trade. fold polled.
    destruct polled as [[a1 evs1] stop]. simpl. destruct stop; [left; reflexivity|].
    right. destruct (AutoTrader.place_order a1 ex p). reflexivity. }
  destruct (place_order_outcome polled.1.1 ex p) as (Hn & Hns & Hnb & Hs).
  split; [|split; [|split; [|split; [|split]]]].
  - intros Ht Hst. apply Hraised; [|exact Ht].
    destruct (AutoTrader.current_order_id a) as [id|] eqn:Hid; [|discriminate].
    destruct (status_reply ex) as [st | e] eqn:Hse; [discriminate|].
    apply (poll_order_raised a ex id e Hid Ht Hse).
  - intros Hin.
    destruct Hpe as [Hpe | (Hp & Ht & _)].
    + exfalso. destruct Hr as [Hr | Hr]; rewrite Hr in Hin; simpl in Hin.
      * apply filter_error_elem in Hin. contradiction.
      * apply elem_of_app in Hin. destruct Hin as [Hin | Hin].
        { apply filter_error_elem in Hin. contradiction. }
        { apply (filter_nonempty_elem is_status_error) in Hin; [contradiction | reflexivity]. }
    + rewrite (Hraised Hp Ht). simpl. split; reflexivity.
  - intros Hin.
    destruct Hpe as [Hpe | (Hp & Ht & _)].
    2: { rewrite (Hraised Hp Ht), Hp. simpl. split; reflexivity. }
    destruct Hr as [Hr | Hr]; rewrite Hr; simpl; [split; reflexivity|].
    destruct Hs as [Hs | (Hs & _)]; [rewrite Hs; split; reflexivity|].
    exfalso. rewrite Hr in Hin. simpl in Hin.
    destruct Hin as [Hin | Hin]; apply elem_of_app in Hin;
      destruct Hin as [Hin | Hin]; apply filter_error_elem in Hin; contradiction.
  - intros Hbal.
    destruct Hr as [Hr | Hr]; rewrite Hr; simpl; [split; [reflexivity | exact Hpo]|].
    split.
    + destruct Hs as [Hs | (_ & Hb & _)]; [exact Hs | congruence].
    + unfold orders_in in *. rewrite List.filter_app, Hpo. simpl. apply Hnb, Hbal.
  - intros Hord.
    destruct Hr as [Hr | Hr]; rewrite Hr; simpl; [reflexivity|].
    destruct Hs as [Hs | (_ & _ & Ho)]; [exact Hs | congruence].
  - destruct Hr as [Hr | Hr]; rewrite Hr; simpl.
    + rewrite Hpo. simpl. lia.
    + unfold orders_in in *. rewrite List.filter_app, Hpo. simpl. exact Hn.
Qed.

End Failures.

(** An engine whose status poll raises while the buy order ["o1"] is
    pending: the cycle leaves it as it was. *)
Definition reply_down : replies :=
{| status_reply := Raise ApiError;
   balance_reply := Raise ApiError;
   order_reply := Raise ApiError;
   now := 1700000000 |}.

Lemma failed_call_keeps_state_witness :
  truthy_id (AutoTrader.current_order_id pending_buy) = true
  /\ is_ok (status_reply reply_down) = false
  /\ AutoTrader.check_price_and_trade pending_buy reply_down Settings.BUY_PRICE
     = (pending_buy, [ErrorLogged TraderStatus; ErrorLogged EngineStatus]).
Proof.
  split; [reflexivity|]. split; [reflexivity|].
  destruct (failed_call_keeps_state pending_buy reply_down Settings.BUY_PRICE) as (H & _).
  exact (H eq_refl eq_refl).
Defined.

(** ** At most one outstanding order *)

Section Outstanding.
Implicit Types (a : AutoTrader.t) (ex : replies) (p : spec_float) (r : Trader.OrderRecord).

(** A record is terminal once its status is [filled] or [cancelled]. *)
Definition terminal r : Prop := Trader.terminal_status (Trader.o_status r) = true.

(** Every tracked record is terminal. *)
Definition all_terminal a : Prop :=
  forall id r, tracked a !! id = Some r -> terminal r.

(** The invariant of the engine: a tracked record that is not terminal is
    the record of the pending order. *)
Definition one_outstanding a : Prop :=
  forall id r, tracked a !! id = Some r -> ~ terminal r ->
    AutoTrader.current_order_id a = Some id /\ truthy_id (Some id) = true.

Lemma one_outstanding_init (buy sell : option spec_float) :
  one_outstanding (AutoTrader.init buy sell).
Proof. intros id r H. unfold tracked in H. simpl in H. rewrite lookup_empty in H. discriminate. Qed.

Lemma one_outstanding_idle a :
  one_outstanding a -> truthy_id (AutoTrader.current_order_id a) = false -> all_terminal a.
Proof.
  intros Hinv Hf id r Hl. unfold terminal.
  destruct (Trader.terminal_status (Trader.o_status r)) eqn:Ht; [reflexivity|].
  destruct (Hinv id r Hl) as [Hc Htr]; [unfold terminal; congruence|].
  rewrite Hc, Htr in Hf. discriminate.
Qed.

Lemma terminal_status_is (st : option string) :
  Trader.terminal_status st
  = AutoTrader.status_is st "filled" || AutoTrader.status_is st "cancelled".
Proof. destruct st; reflexivity. Qed.

Lemma resolve_tracked a (st : option string) :
  tracked (AutoTrader.resolve a st).1 = tracked a.
Proof.
  unfold AutoTrader.resolve.
  destruct (AutoTrader.status_is st "filled");
    [destruct (negb (AutoTrader.in_position a)) | destruct (AutoTrader.status_is st "cancelled")];
    reflexivity.
Qed.

Lemma resolve_open a (st : option string) :
  Trader.terminal_status st = false -> AutoTrader.resolve a st = (a, []).
Proof.
  rewrite terminal_status_is. intros H. apply orb_false_iff in H. destruct H as [H1 H2].
  unfold AutoTrader.resolve. rewrite H1, H2. reflexivity.
Qed.

Lemma poll_order_invariant a ex :
  one_outstanding a -> one_outstanding (AutoTrader.poll_order a ex).1.1.
Proof.
  intros Hinv.
  destruct (truthy_id (AutoTrader.current_order_id a)) eqn:Ht.
  2: { rewrite (poll_order_idle a ex Ht). exact Hinv. }
  destruct (AutoTrader.current_order_id a) as [id0|] eqn:Hid; [|discriminate].
  destruct (status_reply ex) as [st | e] eqn:Hst.
  2: { rewrite (poll_order_raised a ex id0 e Hid Ht Hst). exact Hinv. }
  rewrite (poll_order_answered a ex id0 st Hid Ht Hst). simpl.
  intros id r Hl Hopen. rewrite resolve_tracked in Hl.
  unfold with_status, tracked in Hl. simpl in Hl.
  destruct (decide (id0 = id)) as [<- | Hne].
  - rewrite lookup_alter_eq in Hl.
    destruct (Trader.active_orders (AutoTrader.trader a) !! id0) as [r0|]; [|discriminate].
    simpl in Hl. injection Hl as <-.
    assert (Hs : Trader.terminal_status st = false).
    { unfold terminal in Hopen. simpl in Hopen.
      destruct (Trader.terminal_status st); [contradiction | reflexivity]. }
    rewrite (resolve_open _ st Hs). simpl. split; [exact Hid | exact Ht].
  - rewrite lookup_alter_ne in Hl by exact Hne.
    destruct (Hinv id r Hl Hopen) as [Hc _]. congruence.
Qed.

(** The engine after an accepted order: the trader has stored the record
    under the returned id, which is the new pending id. *)
Definition placed (a a' : AutoTrader.t) : Prop :=
  exists (id : option string) (rec : Trader.OrderRecord),
    tracked a' = Trader.active_orders (Trader.store_order (AutoTrader.trader a) id rec)
    /\ AutoTrader.current_order_id a' = id.

Lemma placed_invariant a a' : all_terminal a -> placed a a' -> one_outstanding a'.
Proof.
  intros Hall (id & rec & Htr & Hcur) k r Hl Hopen. rewrite Htr in Hl.
  unfold Trader.store_order in Hl.
  destruct id as [k0|].
  - destruct (truthy_id (Some k0)) eqn:Ht.
    + simpl in Hl. destruct (decide (k0 = k)) as [<- | Hne].
      * split; [exact Hcur | exact Ht].
      * rewrite lookup_insert_ne in Hl by exact Hne.
        exfalso. apply Hopen. apply (Hall k r Hl).
    + exfalso. apply Hopen. apply (Hall k r Hl).
  - exfalso. apply Hopen. apply (Hall k r Hl).
Qed.

Lemma try_buy_state a ex p :
  (AutoTrader.try_buy a ex p).1 = a \/ placed a (AutoTrader.try_buy a ex p).1.
Proof.
  unfold AutoTrader.try_buy, Trader.get_account_balance.
  destruct (balance_reply ex) as [bal | e]; simpl; [|left; reflexivity].
  destruct (PyFloat.fgt _ _); simpl; [|left; reflexivity].
  unfold Trader.place_buy_order.
  destruct (Trader.buy_quantity _ p) as [q | e]; simpl;
    [|left; apply set_trader_same].
  unfold Trader.submit. destruct (order_reply ex) as [id | e]; simpl;
    [|left; apply set_trader_same].
  right. destruct (PyFloat.truediv _ p); simpl; eexists _, _; split; reflexivity.
Qed.

Lemma try_sell_state a ex p :
  (AutoTrader.try_sell a ex p).1 = a \/ placed a (AutoTrader.try_sell a ex p).1.
Proof.
  unfold AutoTrader.try_sell, Trader.get_account_balance.
  destruct (balance_reply ex) as [bal | e]; simpl; [|left; reflexivity].
  destruct (PyFloat.fgt _ _); simpl; [|left; reflexivity].
  unfold Trader.place_sell_order, Trader.submit.
  destruct (order_reply ex) as [id | e]; simpl; [|left; apply set_trader_same].
  right. eexists _, _; split; reflexivity.
Qed.

Lemma place_order_state a ex p :
  (AutoTrader.place_order a ex p).1 = a
  \/ (truthy_id (AutoTrader.current_order_id a) = false
      /\ placed a (AutoTrader.place_order a ex p).1).
Proof.
  unfold AutoTrader.place_order.
  destruct (truthy_id (AutoTrader.current_order_id a)) eqn:Ht.
  { rewrite !andb_false_r. left; reflexivity. }
  destruct (negb (AutoTrader.in_position a) && negb false).
  - destruct (PyFloat.fle _ _); [|left; reflexivity].
    destruct (try_buy_state a ex p) as [H | H]; [left | right]; auto.
  - destruct (AutoTrader.in_position a && negb false); [|left; reflexivity].
    destruct (PyFloat.fge _ _); [|left; reflexivity].
    destruct (try_sell_state a ex p) as [H | H]; [left | right]; auto.
Qed.

Lemma place_order_invariant a ex p :
  one_outstanding a -> one_outstanding (AutoTrader.place_order a ex p).1.
Proof.
  intros Hinv. destruct (place_order_state a ex p) as [-> | [Hf Hp]]; [exact Hinv|].
  apply (placed_invariant a); [|exact Hp]. apply one_outstanding_idle; assumption.
Qed.

Lemma check_price_and_trade_split a ex p :
  let polled := AutoTrader.poll_order a ex in
  AutoTrader.check_price_and_trade a ex p = (polled.1.1, polled.1.2)
  \/ AutoTrader.check_price_and_trade a ex p
     = ((AutoTrader.place_order polled.1.1 ex p).1,
        polled.1.2 ++ (AutoTrader.place_order polled.1.1 ex p).2).
Proof.
  unfold AutoTrader.check_price_and_trade.
  destruct (AutoTrader.poll_order a ex) as [[a1 evs1] stop]. simpl.
  destruct stop; [left; reflexivity|].
  right. destruct (AutoTrader.place_order a1 ex p). reflexivity.
Qed.

Lemma check_price_and_trade_invariant a ex p :
  one_outstanding a -> one_outstanding (AutoTrader.check_price_and_trade a ex p).1.
Proof.
  intros Hinv. pose proof (poll_order_invariant a ex Hinv) as Hp.
  destruct (check_price_and_trade_split a ex p) as [-> | ->]; simpl; [exact Hp|].
  apply place_order_invariant. exact Hp.
Qed.

Lemma run_invariant a (cycles : list (spec_float * replies)) :
  one_outstanding a -> one_outstanding (AutoTrader.run a cycles).1.
Proof.
  revert a. induction cycles as [|[p ex] rest IH]; intros a Hinv; [exact Hinv|].
  simpl. pose proof (check_price_and_trade_invariant a ex p Hinv) as H1.
  destruct (AutoTrader.check_price_and_trade a ex p) as [a1 evs1].
  specialize (IH a1 H1). destruct (AutoTrader.run a1 rest) as [a2 evs2]. exact IH.
Qed.

(** The loop of [start_trading] is a run on the prices its tracker
    returns. *)
Lemma trading_loop_as_run (cycles : list (result Tracker.last_price * replies)) :
  forall (tr : Tracker.t unit) a,
    exists prices : list spec_float,
      length prices = length cycles
      /\ ((AutoTrader.trading_loop tr a cycles).1.2, (AutoTrader.trading_loop tr a cycles).2)
         = AutoTrader.run a (zip prices (cycles.*2)).
Proof.
  induction cycles as [|[tk ex] rest IH]; intros tr a.
  - exists []. split; reflexivity.
  - simpl. destruct (Tracker.get_current_price tr tk) as [p tr1].
    destruct (AutoTrader.check_price_and_trade a ex p) as [a1 evs1] eqn:Hc.
    destruct (IH tr1 a1) as (prices & Hlen & Hrun).
    exists (p :: prices). split; [simpl; rewrite Hlen; reflexivity|].
    destruct (AutoTrader.trading_loop tr1 a1 rest) as [[tr2 a2] evs2].
    simpl in Hrun. simpl. rewrite Hc.
    change (list_fmap _ _ snd rest) with (rest.*2). rewrite <- Hrun. reflexivity.
Qed.

Lemma filter_snd_none {V} (P : V -> bool) (l : list (string * V)) :
  (forall k v, (k, v) ∈ l -> P v = false) -> List.filter P (l.*2) = [].
Proof.
  induction l as [|[k v] l IH]; intros H; [reflexivity|].
  simpl. rewrite (H k v) by (apply elem_of_cons; left; reflexivity).
  apply IH. intros k' v' Hin. apply (H k' v'). apply elem_of_cons; right; exact Hin.
Qed.

Lemma filter_snd_unique_key {V} (P : V -> bool) (k0 : string) (l : list (string * V)) :
  NoDup (l.*1) ->
  (forall k v, (k, v) ∈ l -> P v = true -> k = k0) ->
  (length (List.filter P (l.*2)) <= 1)%nat.
Proof.
  induction l as [|[k v] l IH]; intros Hnd H; [simpl; lia|].
  simpl in Hnd. apply NoDup_cons in Hnd. destruct Hnd as [Hk Hnd].
  simpl. destruct (P v) eqn:HP.
  - assert (k = k0) by (apply (H k v); [apply elem_of_cons; left; reflexivity | exact HP]). subst k.
    rewrite filter_snd_none; [simpl; lia|].
    intros k' v' Hin. destruct (P v') eqn:HP'; [|reflexivity].
    exfalso. apply Hk.
    assert (k' = k0) by (apply (H k' v'); [apply elem_of_cons; right; exact Hin | exact HP']).
    subst k'. apply list_elem_of_fmap. exists (k0, v'). split; [reflexivity | exact Hin].
  - apply IH; [exact Hnd|].
    intros k' v' Hin. apply (H k' v'). apply elem_of_cons; right; exact Hin.
Qed.

Lemma one_outstanding_active a :
  one_outstanding a ->
  (length (Trader.get_active_orders (AutoTrader.trader a)) <= 1)%nat.
Proof.
  intros Hinv. unfold Trader.get_active_orders.
  destruct (AutoTrader.current_order_id a) as [id0|] eqn:Hid.
  - apply (filter_snd_unique_key _ id0); [apply NoDup_fst_map_to_list|].
    intros k r Hin Hopen. apply elem_of_map_to_list in Hin.
    destruct (Hinv k r Hin) as [Hc _]; [|congruence].
    unfold terminal. apply negb_true_iff in Hopen. congruence.
  - rewrite filter_snd_none; [simpl; lia|].
    intros k r Hin. apply elem_of_map_to_list in Hin.
    destruct (Trader.terminal_status (Trader.o_status r)) eqn:Ht; [reflexivity|].
    destruct (Hinv k r Hin) as [Hc _]; [unfold terminal; congruence | congruence].
Qed.

(** C1. In every state the engine reaches from its initial state, by any
    sequence of cycles (prices and replies of the exchange), no two
    tracked records are both non-terminal, so [get_active_orders] lists at
    most one order; and a cycle calls the exchange for a new order only
    when every record tracked at that point is [filled] or [cancelled]. *)
Theorem one_outstanding_order (buy sell : option spec_float)
    (cycles : list (spec_float * replies)) :
  let a := (AutoTrader.run (AutoTrader.init buy sell) cycles).1 in
  (forall id1 id2 r1 r2,
      tracked a !! id1 = Some r1 -> tracked a !! id2 = Some r2 ->
      ~ terminal r1 -> ~ terminal r2 -> id1 = id2)
  /\ (length (Trader.get_active_orders (AutoTrader.trader a)) <= 1)%nat
  /\ (forall p ex,
        orders_in (AutoTrader.check_price_and_trade a ex p).2 <> [] ->
        all_terminal (AutoTrader.poll_order a ex).1.1).
Proof.
  intros a.
  assert (Hinv : one_outstanding a)
    by (apply run_invariant, one_outstanding_init).
  split; [|split].
  - intros id1 id2 r1 r2 H1 H2 Ho1 Ho2.
    destruct (Hinv id1 r1 H1 Ho1) as [Hc1 _].
    destruct (Hinv id2 r2 H2 Ho2) as [Hc2 _]. congruence.
  - apply one_outstanding_active, Hinv.
  - intros p ex Hplaced.
    pose proof (poll_order_invariant a ex Hinv) as Hp.
    destruct (poll_order_outcome a ex) as [Hpo _].
    apply one_outstanding_idle; [exact Hp|].
    destruct (truthy_id (AutoTrader.current_order_id (AutoTrader.poll_order a ex).1.1)) eqn:Ht;
      [|reflexivity].
    exfalso. apply Hplaced.
    destruct (check_price_and_trade_split a ex p) as [-> | ->]; simpl; [exact Hpo|].
    rewrite (place_order_pending _ ex p Ht). simpl. rewrite app_nil_r. exact Hpo.
Qed.

End Outstanding.

(** ** Alerts fire once per excursion *)

Section Hysteresis.
Implicit Types (a : Alerts.t) (al : Alerts.alert) (id : Alerts.alert_id)
  (acc : list Alerts.alert * gset Alerts.alert_id).

(** The identifier an alert was triggered under. *)
Definition alert_key al : Alerts.alert_id := (Alerts.a_type al, Alerts.a_threshold al).

(** The list [tr] returned by [check_alerts] holds an alert for the
    threshold [th] of kind [ty]. *)
Definition fires (ty : string) (th : spec_float) (tr : list Alerts.alert) : Prop :=
  exists al, al ∈ tr /\ alert_key al = (ty, th).

(** What holds of the accumulator all along the loop of [check_alerts]
    over a set [S0] of alerts triggered before the call. *)
Definition scan_inv (cfg : list (string * spec_float)) (price : spec_float)
    (S0 : gset Alerts.alert_id) acc : Prop :=
  (forall al, al ∈ acc.1 ->
     Alerts.a_current_price al = price
     /\ alert_key al ∈ cfg
     /\ Alerts.crosses (Alerts.a_type al) (Alerts.a_threshold al) price = true
     /\ (alert_key al ∉ S0) /\ (alert_key al ∈ acc.2))
  /\ (forall id, id ∈ S0 -> id ∉ acc.2 ->
       id ∈ cfg
       /\ Alerts.rearms id.1 id.2 price = true /\ Alerts.crosses id.1 id.2 price = false)
  /\ (forall id, id ∈ acc.2 -> id ∉ S0 -> Alerts.crosses id.1 id.2 price = true)
  /\ NoDup (alert_key <$> acc.1).

Lemma scan_inv_start (cfg : list (string * spec_float)) (price : spec_float)
    (S0 : gset Alerts.alert_id) :
  scan_inv cfg price S0 ([], S0).
Proof.
  split; [|split; [|split]]; simpl.
  - intros al Hal. apply elem_of_nil in Hal. contradiction.
  - intros id Hin Hnot. contradiction.
  - intros id Hin Hnot. contradiction.
  - constructor.
Qed.

Lemma scan_inv_fire cfg price S0 acc (ty : string) (th : spec_float) :
  (ty, th) ∈ cfg ->
  Alerts.crosses ty th price = true ->
  scan_inv cfg price S0 acc -> scan_inv cfg price S0 (Alerts.fire ty th price acc).
Proof.
  intros Hcfg Hc Hinv. unfold Alerts.fire.
  destruct (decide ((ty, th) ∈ acc.2)) as [Hin | Hnin]; [exact Hinv|].
  destruct Hinv as (Ha & Hb & Hcr & Hnd).
  assert (Hfresh : (ty, th) ∉ S0).
  { intros HS. destruct (Hb _ HS Hnin) as (_ & _ & Hx). simpl in Hx. congruence. }
  split; [|split; [|split]]; simpl.
  - intros al Hal. apply elem_of_app in Hal. destruct Hal as [Hal | Hal].
    + destruct (Ha al Hal) as (H1 & H0 & H2 & H3 & H4). repeat split; try assumption.
      apply elem_of_union. left. exact H4.
    + apply list_elem_of_singleton in Hal. subst al. unfold alert_key. simpl.
      repeat split; try assumption.
      apply elem_of_union. right. apply elem_of_singleton. reflexivity.
  - intros id HS Hn. apply Hb; [exact HS|].
    intros Hid. apply Hn. apply elem_of_union. left. exact Hid.
  - intros id Hin HS. apply elem_of_union in Hin. destruct Hin as [Hin | Hin].
    + apply Hcr; assumption.
    + apply elem_of_singleton in Hin. subst id. exact Hc.
  - rewrite fmap_app. apply NoDup_app. split; [exact Hnd|]. split.
    + intros k Hk Hk'. simpl in Hk'. apply list_elem_of_singleton in Hk'.
      apply list_elem_of_fmap in Hk. destruct Hk as (al & -> & Hal).
      destruct (Ha al Hal) as (_ & _ & _ & _ & H4).
      rewrite Hk' in H4. contradiction.
    + simpl. apply NoDup_singleton.
Qed.

Lemma scan_inv_step cfg price S0 acc (item : string * spec_float) :
  item ∈ cfg ->
  scan_inv cfg price S0 acc -> scan_inv cfg price S0 (Alerts.check_item price acc item).
Proof.
  intros Hcfg Hinv. destruct item as [ty th]. unfold Alerts.check_item.
  destruct (Alerts.is_high ty && PyFloat.fge price th) eqn:H1.
  { apply scan_inv_fire; [exact Hcfg | | exact Hinv].
    unfold Alerts.crosses. rewrite H1. reflexivity. }
  destruct (Alerts.is_low ty && PyFloat.fle price th) eqn:H2.
  { apply scan_inv_fire; [exact Hcfg | | exact Hinv].
    unfold Alerts.crosses. rewrite H1, H2. reflexivity. }
  assert (Hc : Alerts.crosses ty th price = false)
    by (unfold Alerts.crosses; rewrite H1, H2; reflexivity).
  destruct (Alerts.rearms ty th price) eqn:Hr; [|exact Hinv].
  destruct (decide ((ty, th) ∈ acc.2)) as [Hin | Hnin]; [|exact Hinv].
  destruct Hinv as (Ha & Hb & Hcr & Hnd).
  split; [|split; [|split]]; simpl.
  - intros al Hal. destruct (Ha al Hal) as (H3 & H0 & H4 & H5 & H6).
    repeat split; try assumption.
    apply elem_of_difference. split; [exact H6|].
    intros Hk. apply elem_of_singleton in Hk. unfold alert_key in Hk.
    injection Hk as E1 E2. rewrite E1, E2 in H4. congruence.
  - intros id HS Hn.
    destruct (decide (id = (ty, th))) as [-> | Hne]; [simpl; repeat split; assumption|].
    apply Hb; [exact HS|].
    intros Hid. apply Hn. apply elem_of_difference. split; [exact Hid|].
    intros E. apply elem_of_singleton in E. contradiction.
  - intros id Hid HS. apply elem_of_difference in Hid. apply Hcr; [tauto | exact HS].
  - exact Hnd.
Qed.

Lemma scan_inv_fold cfg price S0 (items : list (string * spec_float)) acc :
  (forall item, item ∈ items -> item ∈ cfg) ->
  scan_inv cfg price S0 acc ->
  scan_inv cfg price S0 (fold_left (Alerts.check_item price) items acc).
Proof.
  revert acc. induction items as [|item items IH]; intros acc Hsub Hinv; [exact Hinv|].
  simpl. apply IH.
  - intros it Hit. apply Hsub. apply elem_of_cons. right. exact Hit.
  - apply scan_inv_step; [|exact Hinv]. apply Hsub. apply elem_of_cons. left. reflexivity.
Qed.

(** One call of [check_alerts]: an alert fires only for an identifier that
    was not yet triggered and is triggered afterwards, no identifier fires
    twice, and an identifier is dropped only at a re-arming price. *)
Lemma check_alerts_spec a (price : spec_float) :
  let r := Alerts.check_alerts a price in
  (forall al, al ∈ r.1 ->
      (alert_key al ∉ Alerts.triggered_alerts a)
      /\ (alert_key al ∈ Alerts.triggered_alerts r.2)
      /\ alert_key al ∈ Alerts.thresholds a
      /\ Alerts.a_current_price al = price
      /\ Alerts.crosses (Alerts.a_type al) (Alerts.a_threshold al) price = true)
  /\ (forall id, id ∈ Alerts.triggered_alerts a -> id ∉ Alerts.triggered_alerts r.2 ->
        id ∈ Alerts.thresholds a
        /\ Alerts.rearms id.1 id.2 price = true /\ Alerts.crosses id.1 id.2 price = false)
  /\ NoDup (alert_key <$> r.1)
  /\ Alerts.thresholds r.2 = Alerts.thresholds a.
Proof.
  unfold Alerts.check_alerts.
  pose proof (scan_inv_fold (Alerts.thresholds a) price (Alerts.triggered_alerts a)
                (Alerts.thresholds a) ([], Alerts.triggered_alerts a)
                (fun _ H => H) (scan_inv_start _ _ _)) as Hinv.
  destruct (fold_left _ _ _) as [triggered set]. simpl.
  destruct Hinv as (Ha & Hb & _ & Hnd). simpl in *.
  split; [|split; [|split]]; try assumption; [|reflexivity].
  intros al Hal. destruct (Ha al Hal) as (H1 & H0 & H2 & H3 & H4). auto.
Qed.

Lemma feed_cons a (p : spec_float) (rest : list spec_float) :
  (Alerts.feed a (p :: rest)).1
  = (Alerts.check_alerts a p).1 :: (Alerts.feed (Alerts.check_alerts a p).2 rest).1.
Proof.
  simpl. destruct (Alerts.check_alerts a p) as [tr a1]. simpl.
  destruct (Alerts.feed a1 rest). reflexivity.
Qed.

(** An identifier already triggered fires again only after a re-arming
    price. *)
Lemma refire_needs_rearm (prices : list spec_float) :
  forall a (j : nat) (trj : list Alerts.alert) (ty : string) (th : spec_float),
    (ty, th) ∈ Alerts.triggered_alerts a ->
    (Alerts.feed a prices).1 !! j = Some trj ->
    fires ty th trj ->
    exists (k : nat) (pk : spec_float),
      (k < j)%nat /\ prices !! k = Some pk /\ Alerts.rearms ty th pk = true.
Proof.
  induction prices as [|p rest IH]; intros a j trj ty th Hin Hj Hf; [discriminate|].
  rewrite feed_cons in Hj.
  destruct (check_alerts_spec a p) as (Hnew & Hdrop & _ & _).
  destruct j as [|j]; simpl in Hj.
  - injection Hj as <-. destruct Hf as (al & Hal & Hk).
    destruct (Hnew al Hal) as (Hnot & _). rewrite Hk in Hnot. contradiction.
  - destruct (decide ((ty, th) ∈ Alerts.triggered_alerts (Alerts.check_alerts a p).2))
      as [Hstill | Hgone].
    + destruct (IH _ j trj ty th Hstill Hj Hf) as (k & pk & Hlt & Hk & Hr).
      exists (S k), pk. repeat split; [lia | exact Hk | exact Hr].
    + destruct (Hdrop _ Hin Hgone) as (_ & Hr & _). exists O, p.
      repeat split; [lia | exact Hr].
Qed.

(** The series of the specification: 0.70, 0.72, 0.715, 0.72 against the
    high threshold 0.71. *)
Definition excursion_prices : list spec_float :=
  [PyFloat.of_ratio 70 100; PyFloat.of_ratio 72 100;
   PyFloat.of_ratio 715 1000; PyFloat.of_ratio 72 100].

Definition high_071 : Alerts.t := Alerts.init [("high"%string, PyFloat.of_ratio 71 100)].

Lemma excursion_fires_once :
  (Alerts.feed high_071 excursion_prices).1
  = [[];
     [{| Alerts.a_type := "high"; Alerts.a_threshold := PyFloat.of_ratio 71 100;
         Alerts.a_current_price := PyFloat.of_ratio 72 100 |}];
     []; []].
Proof. vm_compute. reflexivity. Qed.

(** C3. Along any series of prices fed to [check_alerts], whatever the
    thresholds: no call fires the same (kind, threshold) twice; between
    two calls that fire the same (kind, threshold) lies a price that
    re-arms it (below [threshold * 0.98] for a high alert, above
    [threshold * 1.02] for a low one); an identifier leaves the triggered
    set only in a call whose price re-arms it and does not cross it.  The
    series 0.70, 0.72, 0.715, 0.72 against the high threshold 0.71 fires
    once, at the first 0.72. *)
Theorem alert_fires_once_per_excursion a (prices : list spec_float) :
  let out := (Alerts.feed a prices).1 in
  (forall (i : nat) tr, out !! i = Some tr -> NoDup (alert_key <$> tr))
  /\ (forall (i j : nat) tri trj (ty : string) (th : spec_float),
        (i < j)%nat -> out !! i = Some tri -> out !! j = Some trj ->
        fires ty th tri -> fires ty th trj ->
        exists (k : nat) (pk : spec_float),
          (i < k < j)%nat /\ prices !! k = Some pk
          /\ ((Alerts.is_high ty = true
               /\ PyFloat.flt pk (PyFloat.fmul th Alerts.c098) = true)
              \/ (Alerts.is_low ty = true
                  /\ PyFloat.fgt pk (PyFloat.fmul th Alerts.c102) = true)))
  /\ (forall (p : spec_float) id,
        id ∈ Alerts.triggered_alerts a ->
        id ∉ Alerts.triggered_alerts (Alerts.check_alerts a p).2 ->
        id ∈ Alerts.thresholds a
        /\ Alerts.rearms id.1 id.2 p = true /\ Alerts.crosses id.1 id.2 p = false)
  /\ (Alerts.feed high_071 excursion_prices).1
     = [[];
        [{| Alerts.a_type := "high"; Alerts.a_threshold := PyFloat.of_ratio 71 100;
            Alerts.a_current_price := PyFloat.of_ratio 72 100 |}];
        []; []].
Proof.
  intros out. split; [|split; [|split]].
  - subst out. revert a. induction prices as [|p rest IH]; intros a i tr Hi; [discriminate|].
    rewrite feed_cons in Hi. destruct i as [|i]; simpl in Hi.
    + injection Hi as <-. apply (check_alerts_spec a p).
    + apply (IH _ i tr Hi).
  - subst out. revert a. induction prices as [|p rest IH];
      intros a i j tri trj ty th Hlt Hi Hj Hfi Hfj; [discriminate|].
    rewrite feed_cons in Hi, Hj.
    destruct j as [|j]; [lia|]. simpl in Hj.
    destruct i as [|i]; simpl in Hi.
    + injection Hi as <-. destruct Hfi as (al & Hal & Hk).
      destruct (check_alerts_spec a p) as (Hnew & _).
      destruct (Hnew al Hal) as (_ & Hin & _). rewrite Hk in Hin.
      destruct (refire_needs_rearm rest _ j trj ty th Hin Hj Hfj) as (k & pk & Hkj & Hpk & Hr).
      exists (S k), pk. split; [lia|]. split; [exact Hpk|].
      unfold Alerts.rearms in Hr. apply orb_true_iff in Hr.
      destruct Hr as [Hr | Hr]; apply andb_true_iff in Hr; [left | right]; exact Hr.
    + destruct (IH _ i j tri trj ty th ltac:(lia) Hi Hj Hfi Hfj) as (k & pk & Hk & Hpk & Hr).
      exists (S k), pk. split; [lia|]. split; [exact Hpk | exact Hr].
  - intros p id Hin Hout. apply (check_alerts_spec a p); assumption.
  - exact excursion_fires_once.
Qed.

End Hysteresis.

(** ** The two ways of running the alert system *)

Section Modes.
Context {W : Type}.
Implicit Types (a : Alerts.t) (cb : Tracker.callback Alerts.t).

(** [price_callback] run on a series of prices, one after the other. *)
Fixpoint callback_series a (prices : list spec_float) : Alerts.t * list event :=
  match prices with
  | [] => (a, [])
  | p :: rest =>
      let '(a1, evs1) := Alerts.price_callback a p in
      let '(a2, evs2) := callback_series a1 rest in
      (a2, evs1 ++ evs2)
  end.

(** The prices [get_current_price] returns along a series of ticker
    replies, from the cached price [cache]. *)
Fixpoint observed (cache : option spec_float) (tickers : list (result Tracker.last_price))
    : list spec_float :=
  match tickers with
  | [] => []
  | r :: rest =>
      match Tracker.fetched_price r with
      | Some p => p :: observed (Some p) rest
      | None => PyFloat.or_default cache (S754_zero false) :: observed cache rest
      end
  end.

Lemma get_current_price_observed {V} (tr : Tracker.t V) (r : result Tracker.last_price) :
  let g := Tracker.get_current_price tr r in
  forall rest,
    observed (Tracker.current_price tr) (r :: rest)
    = g.1 :: observed (Tracker.current_price g.2) rest.
Proof.
  intros g rest. subst g. unfold Tracker.get_current_price. simpl.
  destruct (Tracker.fetched_price r); reflexivity.
Qed.

Lemma get_current_price_callbacks {V} (tr : Tracker.t V) (r : result Tracker.last_price) :
  Tracker.callbacks (Tracker.get_current_price tr r).2 = Tracker.callbacks tr.
Proof. unfold Tracker.get_current_price. destruct (Tracker.fetched_price r); reflexivity. Qed.

Lemma start_tracking_cons {V} (tr : Tracker.t V) (w : V)
    (r : result Tracker.last_price) (clock : Z) rest :
  let c := Tracker.tracking_cycle tr w r clock in
  let s := Tracker.start_tracking c.1.1 c.1.2 rest in
  Tracker.start_tracking tr w ((r, clock) :: rest) = (s.1.1, s.1.2, c.2 ++ s.2).
Proof.
  simpl. destruct (Tracker.tracking_cycle tr w r clock) as [[tr1 w1] evs1]. simpl.
  destruct (Tracker.start_tracking tr1 w1 rest) as [[tr2 w2] evs2]. reflexivity.
Qed.

Lemma as_callback_outcome a (p : spec_float) :
  Tracker.world (Alerts.as_callback p a) = (Alerts.price_callback a p).1
  /\ Tracker.trace (Alerts.as_callback p a) = (Alerts.price_callback a p).2
  /\ Tracker.raised (Alerts.as_callback p a) = false.
Proof.
  unfold Alerts.as_callback. destruct (Alerts.price_callback a p). repeat split; reflexivity.
Qed.

Lemma tracking_cycle_registered (tr : Tracker.t Alerts.t) a
    (r : result Tracker.last_price) (clock : Z) :
  Tracker.callbacks tr = [Alerts.as_callback] ->
  let g := Tracker.get_current_price tr r in
  let c := Tracker.tracking_cycle tr a r clock in
  (c.1.2, c.2) = Alerts.price_callback a g.1
  /\ Tracker.current_price c.1.1 = Tracker.current_price g.2
  /\ Tracker.callbacks c.1.1 = [Alerts.as_callback].
Proof.
  intros Hcb g c. subst g c. unfold Tracker.tracking_cycle.
  pose proof (get_current_price_callbacks tr r) as Hcb1.
  destruct (Tracker.get_current_price tr r) as [p tr1]. simpl in *.
  rewrite Hcb1, Hcb. simpl.
  destruct (as_callback_outcome a p) as (Hw & Ht & Hr).
  rewrite Hw, Ht, Hr. simpl. rewrite app_nil_r.
  split; [destruct (Alerts.price_callback a p); reflexivity|].
  split; [reflexivity | rewrite Hcb1; exact Hcb].
Qed.

Lemma callback_series_cons a (p : spec_float) rest :
  callback_series a (p :: rest)
  = ((callback_series (Alerts.price_callback a p).1 rest).1,
     (Alerts.price_callback a p).2 ++ (callback_series (Alerts.price_callback a p).1 rest).2).
Proof.
  simpl. destruct (Alerts.price_callback a p) as [a1 evs1]. simpl.
  destruct (callback_series a1 rest). reflexivity.
Qed.

(** As a registered callback: [start_tracking] with [price_callback] as
    its only callback feeds it the observed prices in order. *)
Lemma start_tracking_series (cycles : list (result Tracker.last_price * Z)) :
  forall (tr : Tracker.t Alerts.t) a,
    Tracker.callbacks tr = [Alerts.as_callback] ->
    let r := Tracker.start_tracking tr a cycles in
    (r.1.2, r.2) = callback_series a (observed (Tracker.current_price tr) (cycles.*1)).
Proof.
  induction cycles as [|[tk clock] rest IH]; intros tr a Hcb; [reflexivity|].
  cbv zeta. rewrite fmap_cons. cbn [fst].
  rewrite (get_current_price_observed tr tk), callback_series_cons, start_tracking_cons.
  destruct (tracking_cycle_registered tr a tk clock Hcb) as (Hc & Hp & Hcb').
  cbn [fst snd]. rewrite <- Hc, <- Hp. cbn [fst snd].
  specialize (IH _ (Tracker.tracking_cycle tr a tk clock).1.2 Hcb'). cbv zeta in IH.
  rewrite <- IH. reflexivity.
Qed.

Lemma monitor_loop_step {V} (tr : Tracker.t V) cb a (r : result Tracker.last_price) rest :
  let g := Tracker.get_current_price tr r in
  let o := cb g.1 a in
  let s := Alerts.monitor_loop g.2 cb (Tracker.world o) rest in
  Tracker.raised o = false ->
  Alerts.monitor_loop tr cb a (r :: rest) = (s.1.1, s.1.2, Tracker.trace o ++ s.2).
Proof.
  simpl. destruct (Tracker.get_current_price tr r) as [p tr1]. simpl.
  intros ->. destruct (Alerts.monitor_loop tr1 cb _ rest) as [[tr2 a2] evs2].
  reflexivity.
Qed.

Lemma monitor_loop_cons {V} (tr : Tracker.t V) a (r : result Tracker.last_price) rest :
  let g := Tracker.get_current_price tr r in
  let s := Alerts.monitor_loop g.2 Alerts.as_callback (Alerts.price_callback a g.1).1 rest in
  Alerts.monitor_loop tr Alerts.as_callback a (r :: rest)
  = (s.1.1, s.1.2, (Alerts.price_callback a g.1).2 ++ s.2).
Proof.
  intros g s. subst g s.
  destruct (as_callback_outcome a (Tracker.get_current_price tr r).1) as (Hw & Ht & Hr).
  rewrite (monitor_loop_step tr Alerts.as_callback a r rest Hr), Hw, Ht. reflexivity.
Qed.

(** As its own loop: [monitor_loop] feeds [price_callback] the observed
    prices in order. *)
Lemma monitor_loop_series (tickers : list (result Tracker.last_price)) :
  forall (tr : Tracker.t W) a,
    let r := Alerts.monitor_loop tr Alerts.as_callback a tickers in
    (r.1.2, r.2) = callback_series a (observed (Tracker.current_price tr) tickers).
Proof.
  induction tickers as [|tk rest IH]; intros tr a; [reflexivity|].
  cbv zeta.
  rewrite (get_current_price_observed tr tk), callback_series_cons, monitor_loop_cons.
  cbn [fst snd]. specialize (IH (Tracker.get_current_price tr tk).2
                               (Alerts.price_callback a (Tracker.get_current_price tr tk).1).1).
  cbv zeta in IH. rewrite <- IH. reflexivity.
Qed.

(** C9. For the same ticker replies and the same cached price at the
    start, the alert system registered as the tracker's callback and the
    alert system polling in its own loop run [price_callback] on the same
    prices in the same order: the alerts sent and the final alert system
     - thresholds and triggered set - are the same. *)
Theorem alert_modes_agree (shared : Tracker.t Alerts.t) (own : Tracker.t W) a
    (cycles : list (result Tracker.last_price * Z)) :
  Tracker.callbacks shared = [] ->
  Tracker.current_price shared = Tracker.current_price own ->
  let as_registered :=
    Tracker.start_tracking (Tracker.register_callback shared Alerts.as_callback) a cycles in
  let as_loop := Alerts.monitor_loop own Alerts.as_callback a (cycles.*1) in
  as_registered.1.2 = as_loop.1.2
  /\ as_registered.2 = as_loop.2
  /\ (as_loop.1.2, as_loop.2)
     = callback_series a (observed (Tracker.current_price own) (cycles.*1)).
Proof.
  intros Hnone Hcache as_registered as_loop.
  pose proof (start_tracking_series cycles
                (Tracker.register_callback shared Alerts.as_callback) a) as H1.
  cbn in H1. rewrite Hnone in H1. specialize (H1 eq_refl). fold as_registered in H1.
  pose proof (monitor_loop_series (cycles.*1) own a) as H2.
  cbn in H2. fold as_loop in H2.
  rewrite Hcache in H1. rewrite <- H2 in H1.
  injection H1 as E1 E2. repeat split; [exact E1 | exact E2 | exact H2].
Qed.

End Modes.

(** The two modes on a fresh tracker and one fetched price of 0.72. *)
Lemma alert_modes_agree_witness :
  (Tracker.start_tracking
     (Tracker.register_callback Tracker.init Alerts.as_callback) high_071
     [(Ok (Tracker.Num (PyFloat.of_ratio 72 100)), 1700000000)]).2
  = (Alerts.monitor_loop (@Tracker.init unit) Alerts.as_callback high_071
       [Ok (Tracker.Num (PyFloat.of_ratio 72 100))]).2.
Proof.
  destruct (alert_modes_agree (W := unit) Tracker.init Tracker.init high_071
              [(Ok (Tracker.Num (PyFloat.of_ratio 72 100)), 1700000000)]
              eq_refl eq_refl) as (_ & H & _).
  exact H.
Defined.

(** ** Sizing of the buy order *)

Section BuySizing.
Implicit Types (a : AutoTrader.t) (ex : replies) (price total : spec_float).

Lemma c10_value : AutoTrader.c10 = S754_finite false 5629499534213120 (-49).
Proof. vm_compute. reflexivity. Qed.

Lemma c1000_value : AutoTrader.c1000 = S754_finite false 8796093022208000 (-43).
Proof. vm_compute. reflexivity. Qed.

(** More than 10 to spend is a positive finite amount. *)
Lemma spend_finite (available_fiat : spec_float) :
  PyFloat.fgt (AutoTrader.spend available_fiat) AutoTrader.c10 = true ->
  exists m e, AutoTrader.spend available_fiat = S754_finite false m e.
Proof.
  unfold AutoTrader.spend, PyFloat.py_min.
  destruct (PyFloat.flt AutoTrader.c1000 _) eqn:Hlt.
  - intros _. rewrite c1000_value. eauto.
  - rewrite c10_value. rewrite c1000_value in Hlt.
    destruct (PyFloat.fmul available_fiat AutoTrader.c095) as [s | s | | s m e];
      try discriminate.
    + destruct s; discriminate.
    + destruct s; [discriminate | eauto].
Qed.

(** [Decimal(x)] of a finite non-zero float: coefficient and exponent. *)
Definition dec_coef (m : positive) (e : Z) : Z :=
  if 0 <=? e then Zpos m * 2 ^ e else Zpos m * 5 ^ (- e).

Definition dec_exp (e : Z) : Z := if 0 <=? e then 0 else e.

Lemma of_float_finite (s : bool) (m : positive) (e : Z) :
  PyDecimal.of_float (S754_finite s m e) = PyDecimal.DFin s (dec_coef m e) (dec_exp e).
Proof. unfold PyDecimal.of_float, dec_coef, dec_exp. destruct (0 <=? e); reflexivity. Qed.

Lemma dec_coef_pos (m : positive) (e : Z) : 0 < dec_coef m e.
Proof.
  unfold dec_coef. destruct (Z.leb_spec 0 e).
  - apply Z.mul_pos_pos; [lia | apply Z.pow_pos_nonneg; lia].
  - apply Z.mul_pos_pos; [lia | apply Z.pow_pos_nonneg; lia].
Qed.

(** The quotient of the two decimals, as [Decimal.__truediv__] rounds it
    to 28 significant digits. *)
Definition decimal_quotient (ms : positive) (es : Z) (mp : positive) (ep : Z) : Z * Z :=
  PyDecimal.div_finite (dec_coef ms es) (dec_exp es) (dec_coef mp ep) (dec_exp ep).

(** The quantity of a buy order, when there is one, is the float nearest
    to the decimal quotient cut after 8 decimal places. *)
Lemma buy_quantity_finite (ss : bool) (ms : positive) (es : Z)
    (sp : bool) (mp : positive) (ep : Z) (q : spec_float) :
  Trader.buy_quantity (S754_finite ss ms es) (S754_finite sp mp ep) = Ok q ->
  let '(c, k) := decimal_quotient ms es mp ep in
  (c = 0 \/ PyDecimal.adjusted c k < 20)
  /\ q = PyDecimal.to_float
           (PyDecimal.DFin (xorb ss sp) (PyDecimal.rescale_down c k (-8)) (-8)).
Proof.
  unfold Trader.buy_quantity, decimal_quotient. rewrite !of_float_finite.
  unfold PyDecimal.div.
  pose proof (dec_coef_pos ms es) as Hs. pose proof (dec_coef_pos mp ep) as Hp.
  destruct (Z.eqb_spec (dec_coef mp ep) 0) as [E | _]; [lia|].
  destruct (Z.eqb_spec (dec_coef ms es) 0) as [E | _]; [lia|].
  destruct (PyDecimal.div_finite _ _ _ _) as [c k].
  unfold PyDecimal.quantize_down8.
  destruct (Z.eqb_spec c 0) as [-> | Hc].
  - intros H. injection H as <-. split; [left; reflexivity|].
    unfold PyDecimal.rescale_down. destruct (-8 <=? k); reflexivity.
  - destruct (Z.ltb_spec PyDecimal.context_prec (PyDecimal.adjusted c k + 8 + 1)) as [Hbig | Hok];
      [discriminate|].
    intros H. injection H as <-. split; [right; unfold PyDecimal.context_prec in Hok; lia|].
    reflexivity.
Qed.

(** Cutting after 8 places never goes above the decimal it cuts, and
    stays within one unit of the 8th place. *)
Lemma rescale_down_bounds (c k : Z) :
  0 <= c ->
  let t := PyDecimal.rescale_down c k (-8) in
  0 <= t
  /\ (-8 <= k -> t = c * 10 ^ (k + 8))
  /\ (k < -8 -> t * 10 ^ (- 8 - k) <= c < (t + 1) * 10 ^ (- 8 - k)).
Proof.
  intros Hc. unfold PyDecimal.rescale_down.
  destruct (Z.leb_spec (-8) k) as [Hle | Hlt].
  - replace (k - -8) with (k + 8) by lia.
    split; [|split; [reflexivity | lia]].
    apply Z.mul_nonneg_nonneg; [lia | apply Z.pow_nonneg; lia].
  - assert (Hpow : 0 < 10 ^ (-8 - k)) by (apply Z.pow_pos_nonneg; lia).
    split; [apply Z.div_pos; lia|]. split; [lia|]. intros _.
    pose proof (Z.mul_div_le c _ Hpow).
    pose proof (Z.mul_succ_div_gt c _ Hpow). lia.
Qed.

(** The rounded quotient is within half a unit of the exact one. *)
Lemma div_half_even_bounds (n d : Z) :
  0 <= n -> 0 < d ->
  let c := PyDecimal.div_half_even n d in
  - d <= 2 * (c * d - n) <= d.
Proof.
  intros Hn Hd. unfold PyDecimal.div_half_even.
  pose proof (Z.div_mod n d ltac:(lia)) as Hdm.
  pose proof (Z.mod_pos_bound n d Hd) as Hr.
  destruct (Z.compare_spec (2 * (n mod d)) d) as [E | E | E].
  - destruct (Z.even (n / d)); nia.
  - nia.
  - nia.
Qed.

(** *** The digits of the quotient *)

Lemma digits10_fuel_spec (f : nat) (n : Z) :
  1 <= n < 10 ^ Z.of_nat f ->
  1 <= PyDecimal.digits10_fuel f n
  /\ 10 ^ (PyDecimal.digits10_fuel f n - 1) <= n < 10 ^ PyDecimal.digits10_fuel f n.
Proof.
  revert n. induction f as [|f IH]; intros n Hn.
  - simpl in Hn. lia.
  - cbn [PyDecimal.digits10_fuel]. destruct (Z.ltb_spec n 10) as [Hlt | Hge].
    + split; [lia|]. change (10 ^ (1 - 1)) with 1. change (10 ^ 1) with 10. lia.
    + assert (Hdiv : 1 <= n / 10 < 10 ^ Z.of_nat f).
      { split.
        - apply Z.div_le_lower_bound; lia.
        - apply Z.div_lt_upper_bound; [lia|].
          rewrite Nat2Z.inj_succ, Z.pow_succ_r in Hn by lia. lia. }
      destruct (IH _ Hdiv) as (Hd & Hlo & Hhi).
      set (d := PyDecimal.digits10_fuel f (n / 10)) in *.
      split; [lia|].
      replace (1 + d - 1) with (Z.succ (d - 1)) by lia.
      replace (1 + d) with (Z.succ d) by lia.
      rewrite !Z.pow_succ_r by lia.
      pose proof (Z.mul_div_le n 10 ltac:(lia)).
      pose proof (Z.mul_succ_div_gt n 10 ltac:(lia)). lia.
Qed.

(** [digits10 n] is the number of decimal digits of [n]. *)
Lemma digits10_spec (n : Z) :
  1 <= n ->
  1 <= PyDecimal.digits10 n
  /\ 10 ^ (PyDecimal.digits10 n - 1) <= n < 10 ^ PyDecimal.digits10 n.
Proof.
  intros Hn. unfold PyDecimal.digits10. apply digits10_fuel_spec.
  split; [exact Hn|].
  pose proof (Z.log2_spec n ltac:(lia)) as [_ Hlog].
  pose proof (Z.log2_nonneg n) as Hnn.
  rewrite Nat2Z.inj_succ, Z2Nat.id by exact Hnn.
  apply Z.lt_le_trans with (1 := Hlog).
  apply Z.pow_le_mono_l. lia.
Qed.

(** Comparing [x * 10^e] with [y], for an exponent of any sign, at a
    common scale [10^M]. *)
Lemma scale_le (x y e M : Z) :
  0 <= M + e -> 0 <= M - e ->
  x * 10 ^ Z.max e 0 <= y * 10 ^ Z.max (- e) 0 <-> x * 10 ^ (M + e) <= y * 10 ^ M.
Proof.
  intros H1 H2. destruct (Z.le_ge_cases 0 e) as [He | He].
  - rewrite (Z.max_l e 0), (Z.max_r (- e) 0) by lia.
    rewrite Z.pow_0_r, Z.mul_1_r.
    replace (M + e) with (e + M) by lia. rewrite Z.pow_add_r by lia.
    rewrite Z.mul_assoc. apply Z.mul_le_mono_pos_r.
    apply Z.pow_pos_nonneg; lia.
  - rewrite (Z.max_r e 0), (Z.max_l (- e) 0) by lia.
    rewrite Z.pow_0_r, Z.mul_1_r.
    replace (10 ^ M) with (10 ^ (- e) * 10 ^ (M + e))
      by (rewrite <- Z.pow_add_r by lia; f_equal; lia).
    rewrite Z.mul_assoc. apply Z.mul_le_mono_pos_r.
    apply Z.pow_pos_nonneg; lia.
Qed.

Lemma scale_lt (x y e M : Z) :
  0 <= M + e -> 0 <= M - e ->
  y * 10 ^ Z.max (- e) 0 < x * 10 ^ Z.max e 0 <-> y * 10 ^ M < x * 10 ^ (M + e).
Proof.
  intros H1 H2. pose proof (scale_le x y e M H1 H2) as H. lia.
Qed.

(** The shift of the division: the quotient of the coefficients, taken
    at that exponent, has 28 digits. *)
Lemma quotient_shift_spec (n d : Z) :
  1 <= n -> 1 <= d ->
  let k := PyDecimal.quotient_shift n d in
  d * 10 ^ 27 * 10 ^ Z.max k 0 <= n * 10 ^ Z.max (- k) 0
  /\ n * 10 ^ Z.max (- k) 0 < d * 10 ^ 28 * 10 ^ Z.max k 0.
Proof.
  intros Hn Hd.
  destruct (digits10_spec n Hn) as (Hdn & Hnlo & Hnhi).
  destruct (digits10_spec d Hd) as (Hdd & Hdlo & Hdhi).
  unfold PyDecimal.quotient_shift, PyDecimal.context_prec.
  set (dn := PyDecimal.digits10 n) in *. set (dd := PyDecimal.digits10 d) in *.
  set (M := dn + dd + 28).
  assert (HM : 0 < 10 ^ M) by (apply Z.pow_pos_nonneg; lia).
  assert (Hbounds : forall lead,
            - (dn + dd) <= lead <= dn + dd ->
            d * 10 ^ (M + lead) <= n * 10 ^ M ->
            n * 10 ^ M < d * 10 ^ (M + lead + 1) ->
            d * 10 ^ 27 * 10 ^ Z.max (lead - 27) 0 <= n * 10 ^ Z.max (- (lead - 27)) 0
            /\ n * 10 ^ Z.max (- (lead - 27)) 0 < d * 10 ^ 28 * 10 ^ Z.max (lead - 27) 0).
  { intros lead Hlead Hlo Hhi. split.
    - apply (scale_le (d * 10 ^ 27) n (lead - 27) M); [lia | lia|].
      rewrite <- Z.mul_assoc, <- Z.pow_add_r by lia.
      replace (27 + (M + (lead - 27))) with (M + lead) by lia. exact Hlo.
    - apply (scale_lt (d * 10 ^ 28) n (lead - 27) M); [lia | lia|].
      rewrite <- Z.mul_assoc, <- Z.pow_add_r by lia.
      replace (28 + (M + (lead - 27))) with (M + lead + 1) by lia. exact Hhi. }
  assert (Etop : 10 ^ (M + dn) = 10 ^ dn * 10 ^ M)
    by (rewrite <- Z.pow_add_r by lia; f_equal; lia).
  assert (Ebot : 10 ^ (M + dn - 1) = 10 ^ (dn - 1) * 10 ^ M)
    by (rewrite <- Z.pow_add_r by lia; f_equal; lia).
  destruct (Z.leb_spec (d * 10 ^ Z.max (dn - dd) 0) (n * 10 ^ Z.max (- (dn - dd)) 0))
    as [Htest | Htest].
  - apply (scale_le d n (dn - dd) M) in Htest; [|lia|lia].
    apply (Hbounds (dn - dd)); [lia | exact Htest|].
    assert (E : 10 ^ (M + dn) = 10 ^ (dd - 1) * 10 ^ (M + (dn - dd) + 1))
      by (rewrite <- Z.pow_add_r by lia; f_equal; lia).
    assert (0 < 10 ^ (M + (dn - dd) + 1)) by (apply Z.pow_pos_nonneg; lia).
    nia.
  - assert (Htest' : n * 10 ^ M < d * 10 ^ (M + (dn - dd))).
    { apply (scale_lt d n (dn - dd) M); [lia | lia | exact Htest]. }
    replace (dn - dd - 1 - (28 - 1)) with (dn - dd - 1 - 27) by lia.
    apply (Hbounds (dn - dd - 1)); [lia | |].
    + assert (E : 10 ^ (M + dn - 1) = 10 ^ dd * 10 ^ (M + (dn - dd - 1)))
        by (rewrite <- Z.pow_add_r by lia; f_equal; lia).
      assert (0 < 10 ^ (M + (dn - dd - 1))) by (apply Z.pow_pos_nonneg; lia).
      nia.
    + replace (M + (dn - dd - 1) + 1) with (M + (dn - dd)) by lia. exact Htest'.
Qed.

(** [Decimal(x)] is [x]: the decimal [c * 10^e] of the float [m * 2^e2]. *)
Lemma of_float_exact (m : positive) (e2 : Z) :
  dec_coef m e2 * 2 ^ Z.max (- e2) 0 = Zpos m * 2 ^ Z.max e2 0 * 10 ^ (- dec_exp e2)
  /\ dec_exp e2 <= 0.
Proof.
  unfold dec_coef, dec_exp. destruct (Z.leb_spec 0 e2) as [He | He].
  - rewrite (Z.max_r (- e2) 0), (Z.max_l e2 0) by lia. simpl. split; lia.
  - rewrite (Z.max_l (- e2) 0), (Z.max_r e2 0) by lia.
    replace 10 with (2 * 5) by reflexivity. rewrite Z.pow_mul_l.
    rewrite Z.pow_0_r. split; lia.
Qed.

(** Equal fractions have the same integer part. *)
Lemma div_cross (x y x' y' : Z) :
  0 < y -> 0 < y' -> x * y' = x' * y -> x / y = x' / y'.
Proof.
  intros Hy Hy' E.
  rewrite <- (Z.div_mul_cancel_r x y y') by lia.
  rewrite <- (Z.div_mul_cancel_r x' y' y) by lia.
  rewrite E. f_equal. lia.
Qed.

(** Rounding [a / b] to the nearest integer [c] and then cutting [w]
    digits gives the integer part [T] of [a / (b * 10^w)], or [T + 1]
    when [a / b] is within a half below [(T + 1) * 10^w]. *)
Lemma round_then_cut (a b c w T : Z) :
  0 < b -> 0 <= w ->
  - b <= 2 * (c * b - a) <= b ->
  T = a / (b * 10 ^ w) ->
  c / 10 ^ w = T
  \/ (c / 10 ^ w = T + 1 /\ 2 * ((T + 1) * 10 ^ w * b - a) <= b).
Proof.
  intros Hb Hw Hc HT.
  assert (HP : 0 < 10 ^ w) by (apply Z.pow_pos_nonneg; lia).
  set (P := 10 ^ w) in *.
  assert (HbP : 0 < b * P) by lia.
  pose proof (Z.mul_div_le a (b * P) HbP) as Hlo.
  pose proof (Z.mul_succ_div_gt a (b * P) HbP) as Hhi.
  rewrite <- HT in Hlo, Hhi.
  assert (H1 : T * P <= c) by nia.
  assert (H2 : c <= (T + 1) * P) by nia.
  destruct (Z.eq_dec c ((T + 1) * P)) as [E | NE].
  - right. split.
    + rewrite E. apply Z.div_mul. lia.
    + rewrite <- E. lia.
  - left. symmetry. apply Z.div_unique with (r := c - T * P); lia.
Qed.

(** The exact quotient of the float [ms * 2^es] by the float of mantissa
    [mp] and exponent [ep], times [10^8], as a fraction of integers. *)
Definition quotient8_num (ms : positive) (es ep : Z) : Z :=
  Zpos ms * 2 ^ Z.max es 0 * 2 ^ Z.max (- ep) 0 * 10 ^ 8.

Definition quotient8_den (mp : positive) (es ep : Z) : Z :=
  Zpos mp * 2 ^ Z.max ep 0 * 2 ^ Z.max (- es) 0.

(** The quotient [spend / price] of two finite floats cut after 8 decimal
    places: the quantity as the specification words it. *)
Definition truncated_quotient8 (spend price : spec_float) : option PyDecimal.decimal :=
  match spend, price with
  | S754_finite ss ms es, S754_finite sp mp ep =>
      Some (PyDecimal.DFin (xorb ss sp)
              (quotient8_num ms es ep / quotient8_den mp es ep) (-8))
  | _, _ => None
  end.

(** The fraction [N / D] lies within half a unit of its 28th significant
    digit below the integer [T + 1]; [10^-w] is that unit. *)
Definition within_half_unit_below (N D T : Z) : Prop :=
  exists w, 0 <= w
            /\ D * 10 ^ 27 <= N * 10 ^ w < D * 10 ^ 28
            /\ 2 * ((T + 1) * D - N) * 10 ^ w <= D.

(** The quantity of a buy order is the exact quotient cut after 8 decimal
    places, unless that quotient is within half a unit of its 28th digit
    below the next multiple of [10^-8]. *)
Lemma buy_quantity_truncates (ms : positive) (es : Z) (sp : bool) (mp : positive) (ep : Z)
    (q : spec_float) :
  Trader.buy_quantity (S754_finite false ms es) (S754_finite sp mp ep) = Ok q ->
  let N := quotient8_num ms es ep in
  let D := quotient8_den mp es ep in
  N / D < 10 ^ 28
  /\ (q = PyDecimal.to_float (PyDecimal.DFin sp (N / D) (-8))
      \/ within_half_unit_below N D (N / D)).
Proof.
  intros Hq N D. apply buy_quantity_finite in Hq.
  destruct (decimal_quotient ms es mp ep) as [c kt] eqn:Hdq.
  destruct Hq as [Hadj Hq]. cbn [xorb] in Hq.
  unfold decimal_quotient, PyDecimal.div_finite in Hdq.
  set (cx := dec_coef ms es) in *. set (cy := dec_coef mp ep) in *.
  set (k := PyDecimal.quotient_shift cx cy) in *.
  set (K := 10 ^ Z.max k 0) in *. set (K' := 10 ^ Z.max (- k) 0) in *.
  injection Hdq as Hc Hkt.
  pose proof (dec_coef_pos ms es) as Hcx. pose proof (dec_coef_pos mp ep) as Hcy.
  fold cx in Hcx. fold cy in Hcy.
  assert (HK : 0 < K) by (apply Z.pow_pos_nonneg; lia).
  assert (HK' : 0 < K') by (apply Z.pow_pos_nonneg; lia).
  destruct (quotient_shift_spec cx cy ltac:(lia) ltac:(lia)) as [Hlo Hhi].
  fold k K K' in Hlo, Hhi.
  set (a := cx * K') in *. set (b := cy * K) in *.
  assert (Hb : 0 < b) by (unfold b; lia).
  assert (Ha : 0 <= a) by (unfold a; lia).
  pose proof (div_half_even_bounds a b Ha Hb) as Hround. cbv zeta in Hround.
  rewrite Hc in Hround.
  assert (Hlo' : b * 10 ^ 27 <= a) by (unfold a, b; lia).
  assert (Hhi' : a < b * 10 ^ 28) by (unfold a, b; lia).
  clear Hlo Hhi.
  assert (Hc27 : 10 ^ 27 <= c).
  { destruct (Z.le_gt_cases (10 ^ 27) c) as [H | H]; [exact H | exfalso].
    assert (c * b <= (10 ^ 27 - 1) * b) by (apply Z.mul_le_mono_nonneg_r; lia).
    lia. }
  destruct (digits10_spec c ltac:(lia)) as (_ & _ & Hdig).
  assert (Hd28 : 28 <= PyDecimal.digits10 c).
  { destruct (Z.le_gt_cases 28 (PyDecimal.digits10 c)) as [H | H]; [exact H|].
    assert (10 ^ PyDecimal.digits10 c <= 10 ^ 27) by (apply Z.pow_le_mono_r; lia). lia. }
  assert (Hkt8 : kt <= -8).
  { destruct Hadj as [H0 | H]; [lia|]. unfold PyDecimal.adjusted in H. lia. }
  set (w := - 8 - kt).
  assert (Hw : 0 <= w) by (unfold w; lia).
  set (P := 10 ^ w).
  assert (HP : 0 < P) by (apply Z.pow_pos_nonneg; lia).
  assert (Hcut : PyDecimal.rescale_down c kt (-8) = c / P).
  { unfold PyDecimal.rescale_down, P, w. destruct (Z.leb_spec (-8) kt) as [H | H].
    - replace kt with (-8) by lia. simpl. rewrite Z.mul_1_r, Z.div_1_r. reflexivity.
    - reflexivity. }
  (* the decimal fraction [a / (b * P)] is the exact fraction [N / D] *)
  destruct (of_float_exact ms es) as [E1 Hex]. destruct (of_float_exact mp ep) as [E2 Hey].
  fold cx in E1. fold cy in E2.
  set (ex := dec_exp es) in *. set (ey := dec_exp ep) in *.
  assert (E3 : 10 ^ (- ey) * 10 ^ 8 * P * K = K' * 10 ^ (- ex)).
  { assert (Ew : w = - 8 - (k + (ex - ey))) by (unfold w; lia).
    unfold P, K, K'. rewrite Ew. rewrite Ew in Hw.
    destruct (Z.le_ge_cases 0 k) as [Hk | Hk].
    - rewrite (Z.max_l k 0), (Z.max_r (- k) 0) by lia.
      rewrite <- !Z.pow_add_r by lia. f_equal. lia.
    - rewrite (Z.max_r k 0), (Z.max_l (- k) 0) by lia.
      rewrite <- !Z.pow_add_r by lia. f_equal. lia. }
  assert (HD : 0 < D).
  { unfold D, quotient8_den.
    apply Z.mul_pos_pos; [apply Z.mul_pos_pos; [lia|]|]; apply Z.pow_pos_nonneg; lia. }
  assert (F1 : N * P * b = a * D).
  { assert (HX : 0 < 10 ^ (- ex)) by (apply Z.pow_pos_nonneg; lia).
    apply (Z.mul_reg_r _ _ (10 ^ (- ex))); [lia|].
    unfold N, D, quotient8_num, quotient8_den, a, b.
    transitivity ((Zpos ms * 2 ^ Z.max es 0 * 10 ^ (- ex)) * (cy * 2 ^ Z.max (- ep) 0)
                  * (10 ^ 8 * P * K)); [ring|].
    rewrite <- E1, E2.
    transitivity (cx * 2 ^ Z.max (- es) 0 * (Zpos mp * 2 ^ Z.max ep 0)
                  * (10 ^ (- ey) * 10 ^ 8 * P * K)); [ring|].
    rewrite E3. ring. }
  assert (Hbounds : D * 10 ^ 27 <= N * P < D * 10 ^ 28).
  { split.
    - apply (Z.mul_le_mono_pos_r _ _ b); [exact Hb|]. rewrite F1.
      pose proof (Z.mul_le_mono_nonneg_r _ _ D ltac:(lia) Hlo'). lia.
    - apply (Z.mul_lt_mono_pos_r b); [exact Hb|]. rewrite F1.
      pose proof (proj1 (Z.mul_lt_mono_pos_r D _ _ HD) Hhi'). lia. }
  assert (HN : 0 <= N).
  { unfold N, quotient8_num.
    repeat apply Z.mul_nonneg_nonneg; try lia; apply Z.pow_nonneg; lia. }
  split.
  - apply Z.div_lt_upper_bound; [exact HD|].
    assert (N * 1 <= N * P) by (apply Z.mul_le_mono_nonneg_l; lia). lia.
  - assert (HT : N / D = a / (b * P)).
    { apply div_cross; [exact HD | lia | lia]. }
    destruct (round_then_cut a b c w (N / D) Hb Hw Hround HT) as [Hsame | [Hup Hzone]].
    + left. rewrite Hq, Hcut. fold P in Hsame. rewrite Hsame. reflexivity.
    + right. exists w. split; [exact Hw|]. split; [exact Hbounds|].
      fold P in Hzone |- *. set (T := N / D) in *.
      apply (Z.mul_le_mono_pos_l _ _ b); [exact Hb|].
      pose proof (Z.mul_le_mono_nonneg_r _ _ D ltac:(lia) Hzone). lia.
Qed.

Lemma state_flat a :
  AutoTrader.state_of a = AutoTrader.FLAT ->
  AutoTrader.in_position a = false /\ truthy_id (AutoTrader.current_order_id a) = false.
Proof.
  unfold AutoTrader.state_of.
  destruct (AutoTrader.in_position a), (truthy_id (AutoTrader.current_order_id a));
    intros H; try discriminate; split; reflexivity.
Qed.

(** A cycle of a FLAT engine at a buying price, once the balances are
    known: it comes to the [try] block of the buy side. *)
Lemma flat_cycle_is_try_buy a ex price :
  AutoTrader.state_of a = AutoTrader.FLAT ->
  PyFloat.fle price (AutoTrader.buy_price a) = true ->
  AutoTrader.check_price_and_trade a ex price = AutoTrader.try_buy a ex price.
Proof.
  intros Hflat Hle. destruct (state_flat a Hflat) as [Hpos Hid].
  unfold AutoTrader.check_price_and_trade. rewrite (poll_order_idle a ex Hid).
  unfold AutoTrader.place_order. rewrite Hpos, Hid, Hle. simpl.
  destruct (AutoTrader.try_buy a ex price). reflexivity.
Qed.

(** A fresh engine with the settings' prices, and replies of an exchange
    that reports [fiat] available and accepts an order as ["o1"]. *)
Definition fresh : AutoTrader.t := AutoTrader.init None None.

Definition replies_with_fiat (fiat : spec_float) : replies :=
  {| status_reply := Raise ApiError;
     balance_reply := Ok {| crypto_available := S754_zero false; fiat_available := fiat |};
     order_reply := Ok (Some "o1"%string);
     now := 1700000000 |}.

(** Available fiat 2000 at 0.65: spend 1000, quantity 1538.46153846. *)
Lemma sizing_2000_at_065 :
  AutoTrader.spend (PyFloat.of_Z 2000) = PyFloat.of_Z 1000
  /\ orders_in (AutoTrader.check_price_and_trade fresh
                 (replies_with_fiat (PyFloat.of_Z 2000)) (PyFloat.of_ratio 65 100)).2
     = [ExchangeOrder Buy (PyFloat.of_ratio 65 100)
          (PyFloat.of_ratio 153846153846 100000000)]
  /\ AutoTrader.state_of (AutoTrader.check_price_and_trade fresh
                 (replies_with_fiat (PyFloat.of_Z 2000)) (PyFloat.of_ratio 65 100)).1
     = AutoTrader.BUY_PENDING.
Proof. vm_compute. repeat split; reflexivity. Qed.

(** Available fiat 5 at 0.65: spend 4.75, no order, still FLAT. *)
Lemma sizing_5_at_065 :
  AutoTrader.spend (PyFloat.of_Z 5) = PyFloat.of_ratio 475 100
  /\ AutoTrader.check_price_and_trade fresh
       (replies_with_fiat (PyFloat.of_Z 5)) (PyFloat.of_ratio 65 100)
     = (fresh, [Warned Buy])
  /\ AutoTrader.state_of fresh = AutoTrader.FLAT.
Proof.
  split; [vm_compute; reflexivity|]. split; [|reflexivity].
  rewrite flat_cycle_is_try_buy by (vm_compute; reflexivity).
  unfold AutoTrader.try_buy. simpl.
  replace (PyFloat.fgt (AutoTrader.spend (PyFloat.of_Z 5)) AutoTrader.c10) with false
    by (vm_compute; reflexivity).
  reflexivity.
Qed.

(** C2, amended.  A FLAT engine at a price not above [buy_price], the
    balances fetched, computes [spend = min(available_fiat * 0.95, 1000)].
    When [spend > 10] and the quantity can be computed and the exchange
    accepts the order, it calls the exchange once, for a limit buy at the
    current price, records the order and takes its id as the pending one.
    The quantity can be computed only for a quotient [spend / price] below
    [10^20], and not at a zero price; when it cannot, no order is placed
    and nothing changes.  At a finite price the quantity is that quotient
    cut after 8 decimal places, toward zero, as the nearest float; nothing
    is said of the quantity where the quotient lies within half a unit of
    its 28th significant digit below a multiple of [10^-8].  When
    [spend > 10] does not hold, no order is placed and the engine is
    unchanged.  Available fiat 2000 at 0.65 gives spend 1000 and quantity
    1538.46153846; available fiat 5 gives spend 4.75 and no order. *)
Theorem buy_order_sizing a ex price (bal : Balance) :
  AutoTrader.state_of a = AutoTrader.FLAT ->
  PyFloat.fle price (AutoTrader.buy_price a) = true ->
  balance_reply ex = Ok bal ->
  let total := AutoTrader.spend (fiat_available bal) in
  let r := AutoTrader.check_price_and_trade a ex price in
  (PyFloat.fgt total AutoTrader.c10 = true ->
     (forall q id, Trader.buy_quantity total price = Ok q -> order_reply ex = Ok id ->
        orders_in r.2 = [ExchangeOrder Buy price q]
        /\ AutoTrader.current_order_id r.1 = id
        /\ AutoTrader.in_position r.1 = false
        /\ tracked r.1
           = Trader.active_orders
               (Trader.store_order (AutoTrader.trader a) id
                  (Trader.new_record Buy price q (now ex))))
     /\ (forall e, Trader.buy_quantity total price = Raise e ->
           r.1 = a /\ orders_in r.2 = [])
     /\ (PyFloat.is_zero price = true ->
           exists e, Trader.buy_quantity total price = Raise e)
     /\ (forall sp mp ep q,
           price = S754_finite sp mp ep -> Trader.buy_quantity total price = Ok q ->
           exists ms es T,
             total = S754_finite false ms es
             /\ truncated_quotient8 total price = Some (PyDecimal.DFin sp T (-8))
             /\ T < 10 ^ 28
             /\ (q = PyDecimal.to_float (PyDecimal.DFin sp T (-8))
                 \/ within_half_unit_below
                      (quotient8_num ms es ep) (quotient8_den mp es ep) T)))
  /\ (PyFloat.fgt total AutoTrader.c10 = false -> r = (a, [Warned Buy]))
  /\ (AutoTrader.spend (PyFloat.of_Z 2000) = PyFloat.of_Z 1000
      /\ orders_in (AutoTrader.check_price_and_trade fresh
                      (replies_with_fiat (PyFloat.of_Z 2000)) (PyFloat.of_ratio 65 100)).2
         = [ExchangeOrder Buy (PyFloat.of_ratio 65 100)
              (PyFloat.of_ratio 153846153846 100000000)])
  /\ (AutoTrader.spend (PyFloat.of_Z 5) = PyFloat.of_ratio 475 100
      /\ AutoTrader.check_price_and_trade fresh
           (replies_with_fiat (PyFloat.of_Z 5)) (PyFloat.of_ratio 65 100)
         = (fresh, [Warned Buy])).
Proof.
  intros Hflat Hle Hbal total r.
  assert (Hr : r = AutoTrader.try_buy a ex price)
    by (apply flat_cycle_is_try_buy; assumption).
  assert (Htry : AutoTrader.try_buy a ex price
                 = if PyFloat.fgt total AutoTrader.c10 then
                     match Trader.place_buy_order (AutoTrader.trader a) ex price None (Some total) with
                     | (Raise _, tr, evs') =>
                         (AutoTrader.set_trader a tr, evs' ++ [ErrorLogged EngineBuy])
                     | (Ok id, tr, evs') =>
                         let a1 := AutoTrader.set_buy_order_price
                                     (AutoTrader.set_order_id (AutoTrader.set_trader a tr) id)
                                     (Some price) in
                         match PyFloat.truediv total price with
                         | Raise _ => (a1, evs' ++ [ErrorLogged EngineBuy])
                         | Ok q' =>
                             (AutoTrader.set_buy_order_quantity a1 (Some q'),
                              evs' ++ [Message (PlacedBuy price)])
                         end
                     end
                   else (a, [Warned Buy])).
  { unfold AutoTrader.try_buy, Trader.get_account_balance. rewrite Hbal. reflexivity. }
  split; [|split; [|split]].
  - intros Hgt. rewrite Hgt in Htry.
    pose proof (buy_quantity_zero_price total price Hgt) as Hzero.
    split; [|split; [|split]].
    + intros q id Hq Hord. rewrite Hr, Htry.
      unfold Trader.place_buy_order, Trader.submit. rewrite Hq, Hord.
      destruct (PyFloat.is_zero price) eqn:Hz.
      { destruct (Hzero eq_refl) as [e He]. congruence. }
      rewrite (truediv_ok_or_zero total price Hz). simpl.
      repeat split; try reflexivity. apply (state_flat a Hflat).
    + intros e Hq. rewrite Hr, Htry. unfold Trader.place_buy_order. rewrite Hq.
      rewrite set_trader_same. split; reflexivity.
    + exact Hzero.
    + intros sp mp ep q -> Hq.
      destruct (spend_finite _ Hgt) as (ms & es & Hs). fold total in Hs.
      rewrite Hs in Hq |- *.
      destruct (buy_quantity_truncates ms es sp mp ep q Hq) as [Hsmall Hcut].
      exists ms, es, (quotient8_num ms es ep / quotient8_den mp es ep).
      split; [reflexivity|]. split; [reflexivity|]. split; [exact Hsmall | exact Hcut].
  - intros Hgt. rewrite Hgt in Htry. rewrite Hr, Htry. reflexivity.
  - destruct sizing_2000_at_065 as (H1 & H2 & _). split; assumption.
  - destruct sizing_5_at_065 as (H1 & H2 & _). split; assumption.
Qed.

End BuySizing.

(** The statement at the fresh engine, 2000 available, price 0.65. *)
Lemma buy_order_sizing_witness :
  AutoTrader.state_of fresh = AutoTrader.FLAT
  /\ PyFloat.fle (PyFloat.of_ratio 65 100) (AutoTrader.buy_price fresh) = true
  /\ (PyFloat.fgt (AutoTrader.spend (PyFloat.of_Z 2000)) AutoTrader.c10 = true ->
      forall q,
        Trader.buy_quantity (AutoTrader.spend (PyFloat.of_Z 2000)) (PyFloat.of_ratio 65 100)
        = Ok q ->
        orders_in (AutoTrader.check_price_and_trade fresh
                     (replies_with_fiat (PyFloat.of_Z 2000)) (PyFloat.of_ratio 65 100)).2
        = [ExchangeOrder Buy (PyFloat.of_ratio 65 100) q]).
Proof.
  assert (H1 : AutoTrader.state_of fresh = AutoTrader.FLAT) by reflexivity.
  assert (H2 : PyFloat.fle (PyFloat.of_ratio 65 100) (AutoTrader.buy_price fresh) = true)
    by (vm_compute; reflexivity).
  split; [exact H1|]. split; [exact H2|].
  intros Hgt q Hq.
  destruct (buy_order_sizing fresh (replies_with_fiat (PyFloat.of_Z 2000))
              (PyFloat.of_ratio 65 100)
              {| crypto_available := S754_zero false; fiat_available := PyFloat.of_Z 2000 |}
              H1 H2 eq_refl) as (Hbuy & _).
  destruct (Hbuy Hgt) as (Hplaced & _).
  destruct (Hplaced q (Some "o1"%string) Hq eq_refl) as (Ho & _).
  exact Ho.
Defined.

(** *** Where no order is placed, and where the quantity is rounded up *)

(** On the example of the specification the two agree. *)
Lemma truncated_quotient8_example :
  truncated_quotient8 (PyFloat.of_Z 1000) (PyFloat.of_ratio 65 100)
  = Some (PyDecimal.DFin false 153846153846 (-8)).
Proof. vm_compute. reflexivity. Qed.

(** The price [0.0] that [get_current_price] returns when the first fetch
    fails, the price [1e-18], and the price [1.234e-05] with
    [131.89806831737718] available. *)
Definition price_1e_18 : spec_float := PyFloat.of_ratio 1 1000000000000000000.
Definition price_1234e_8 : spec_float := PyFloat.of_ratio 1234 100000000.
Definition fiat_131 : spec_float := PyFloat.of_ratio 13189806831737718 100000000000000.

(** C2 as stated fails where the quantity cannot be computed, with the
    fresh engine (FLAT, buy price 0.65), balances fetched and an exchange
    that accepts orders: at price 0.0 and at price 1e-18, with 2000
    available, the spend is 1000, above 10, and yet no order is placed. *)
Lemma buy_order_sizing_quantity_not_computable :
  (AutoTrader.state_of fresh = AutoTrader.FLAT
   /\ PyFloat.fle (S754_zero false) (AutoTrader.buy_price fresh) = true
   /\ PyFloat.fgt (AutoTrader.spend (PyFloat.of_Z 2000)) AutoTrader.c10 = true
   /\ orders_in (AutoTrader.check_price_and_trade fresh
                   (replies_with_fiat (PyFloat.of_Z 2000)) (S754_zero false)).2 = []
   /\ AutoTrader.state_of (AutoTrader.check_price_and_trade fresh
                   (replies_with_fiat (PyFloat.of_Z 2000)) (S754_zero false)).1
      = AutoTrader.FLAT)
  /\ (PyFloat.fle price_1e_18 (AutoTrader.buy_price fresh) = true
      /\ orders_in (AutoTrader.check_price_and_trade fresh
                      (replies_with_fiat (PyFloat.of_Z 2000)) price_1e_18).2 = []
      /\ AutoTrader.state_of (AutoTrader.check_price_and_trade fresh
                      (replies_with_fiat (PyFloat.of_Z 2000)) price_1e_18).1
         = AutoTrader.FLAT).
Proof.
  split.
  - vm_compute. repeat split; reflexivity.
  - vm_compute. repeat split; reflexivity.
Qed.

(** Where the code goes against its own [ROUND_DOWN].  At price 1.234e-05
    with 131.89806831737718 available the order is placed for
    10154227.3015809, while the quotient cut after 8 places is
    10154227.30158089: the division of the decimals has already rounded
    the quotient up to the next multiple of [10^-8], which it lies within
    half a unit of its 28th digit of.  The amended C2 says nothing of
    such a quotient. *)
Lemma buy_quantity_rounded_up :
  PyFloat.fle price_1234e_8 (AutoTrader.buy_price fresh) = true
  /\ PyFloat.fgt (AutoTrader.spend fiat_131) AutoTrader.c10 = true
  /\ orders_in (AutoTrader.check_price_and_trade fresh
                  (replies_with_fiat fiat_131) price_1234e_8).2
     = [ExchangeOrder Buy price_1234e_8 (PyFloat.of_ratio 1015422730158090 100000000)]
  /\ truncated_quotient8 (AutoTrader.spend fiat_131) price_1234e_8
     = Some (PyDecimal.DFin false 1015422730158089 (-8))
  /\ PyDecimal.to_float (PyDecimal.DFin false 1015422730158089 (-8))
     <> PyFloat.of_ratio 1015422730158090 100000000
  /\ (exists ms es mp ep,
        AutoTrader.spend fiat_131 = S754_finite false ms es
        /\ price_1234e_8 = S754_finite false mp ep
        /\ within_half_unit_below (quotient8_num ms es ep) (quotient8_den mp es ep)
             1015422730158089).
Proof.
  split; [vm_compute; reflexivity|]. split; [vm_compute; reflexivity|].
  split; [vm_compute; reflexivity|]. split; [vm_compute; reflexivity|].
  split; [vm_compute; discriminate|].
  eexists _, _, _, _. split; [vm_compute; reflexivity|]. split; [vm_compute; reflexivity|].
  exists 12. split; [lia|]. split; [split|].
  - apply Z.leb_le. vm_compute. reflexivity.
  - apply Z.ltb_lt. vm_compute. reflexivity.
  - apply Z.leb_le. vm_compute. reflexivity.
Qed.

(** The zero price is one the engine meets: a trading loop whose first
    ticker fetch fails passes 0 to [check_price_and_trade]. *)
Lemma first_fetch_failed_price :
  (Tracker.get_current_price (@Tracker.init unit) (Raise ApiError)).1 = S754_zero false.
Proof. reflexivity. Qed.

(** * Further properties of the code *)

(** ** [check_alerts]: exactly what fires and what stays triggered *)

Section AlertsExact.
Implicit Types (a : Alerts.t) (id : Alerts.alert_id) (p : spec_float)
  (acc : list Alerts.alert * gset Alerts.alert_id).

(** The price is at or beyond the threshold of [id]. *)
Definition crossing p id : Prop := Alerts.crosses id.1 id.2 p = true.

(** The price is back beyond the band of [id], and not at its threshold. *)
Definition dropping p id : Prop :=
  Alerts.crosses id.1 id.2 p = false /\ Alerts.rearms id.1 id.2 p = true.

(** The accumulator of the loop of [check_alerts] once the items [seen]
    are done, from the set [S0] of the start. *)
Definition scan_exact p (S0 : gset Alerts.alert_id) (seen : list (string * spec_float)) acc
    : Prop :=
  (forall id, id ∈ acc.2 <->
     (id ∈ S0 /\ ~ (id ∈ seen /\ dropping p id)) \/ (id ∈ seen /\ crossing p id))
  /\ (forall id, (exists al, al ∈ acc.1 /\ alert_key al = id) <->
        (id ∈ seen /\ crossing p id /\ id ∉ S0)).

Lemma scan_exact_start p (S0 : gset Alerts.alert_id) : scan_exact p S0 [] ([], S0).
Proof.
  split; simpl; intros id; split.
  - intros H. left. split; [exact H|]. intros [Hin _]. apply elem_of_nil in Hin. exact Hin.
  - intros [[H _] | [Hin _]]; [exact H | apply elem_of_nil in Hin; contradiction].
  - intros (al & Hal & _). apply elem_of_nil in Hal. contradiction.
  - intros (Hin & _). apply elem_of_nil in Hin. contradiction.
Qed.

Lemma scan_exact_skip p S0 seen acc (x : string * spec_float) :
  ~ crossing p x -> ~ dropping p x ->
  scan_exact p S0 seen acc -> scan_exact p S0 (seen ++ [x]) acc.
Proof.
  intros Hnc Hnd [Hset Hal]. split; intros id.
  - rewrite (Hset id), elem_of_app, list_elem_of_singleton. split.
    + intros [[H0 Hn] | [Hs Hc]]; [left | right; tauto].
      split; [exact H0|]. intros [[Hs | ->] Hd]; [apply Hn; tauto | contradiction].
    + intros [[H0 Hn] | [[Hs | ->] Hc]]; [left | right; tauto | contradiction].
      split; [exact H0|]. intros [Hs Hd]. apply Hn. tauto.
  - rewrite (Hal id), elem_of_app, list_elem_of_singleton. split.
    + intros (Hs & Hc & H0). tauto.
    + intros ([Hs | ->] & Hc & H0); [tauto | contradiction].
Qed.

Lemma scan_exact_fire p S0 seen acc (ty : string) (th : spec_float) :
  crossing p (ty, th) ->
  scan_exact p S0 seen acc ->
  scan_exact p S0 (seen ++ [(ty, th)]) (Alerts.fire ty th p acc).
Proof.
  intros Hc [Hset Hal]. unfold Alerts.fire.
  assert (Hnd : ~ dropping p (ty, th)).
  { intros [Hd _]. unfold crossing in Hc. congruence. }
  destruct (decide ((ty, th) ∈ acc.2)) as [Hin | Hnin].
  - split; intros id.
    + rewrite elem_of_app, list_elem_of_singleton. split.
      * intros H. apply Hset in H. destruct H as [[H0 Hn] | [Hs Hcr]]; [left | right; tauto].
        split; [exact H0|]. intros [[Hs | ->] Hd]; [apply Hn; tauto | contradiction].
      * intros [[H0 Hn] | [[Hs | ->] Hcr]].
        { apply Hset. left. split; [exact H0|]. intros [Hs Hd]. apply Hn. tauto. }
        { apply Hset. right. tauto. }
        { exact Hin. }
    + rewrite elem_of_app, list_elem_of_singleton. split.
      * intros H. apply Hal in H. tauto.
      * intros ([Hs | ->] & Hcr & H0); [apply Hal; tauto|].
        apply Hal. apply Hset in Hin. destruct Hin as [[HS _] | [Hs _]]; [contradiction | tauto].
  - assert (Hfresh : (ty, th) ∉ S0).
    { intros HS. apply Hnin, Hset. left. split; [exact HS|]. intros [_ Hd]. contradiction. }
    split; intros id; simpl.
    + rewrite elem_of_union, elem_of_singleton, elem_of_app, list_elem_of_singleton. split.
      * intros [H | ->]; [|right; tauto].
        apply Hset in H. destruct H as [[H0 Hn] | [Hs Hcr]]; [left | right; tauto].
        split; [exact H0|]. intros [[Hs | ->] Hd]; [apply Hn; tauto | contradiction].
      * intros [[H0 Hn] | [[Hs | ->] Hcr]].
        { left. apply Hset. left. split; [exact H0|]. intros [Hs Hd]. apply Hn. tauto. }
        { left. apply Hset. right. tauto. }
        { right. reflexivity. }
    + rewrite elem_of_app, list_elem_of_singleton. split.
      * intros (al & Hin & Hk). apply elem_of_app in Hin. destruct Hin as [Hin | Hin].
        { assert (H : exists al, al ∈ acc.1 /\ alert_key al = id) by eauto.
          apply Hal in H. tauto. }
        { apply list_elem_of_singleton in Hin. subst al. unfold alert_key in Hk. simpl in Hk.
          subst id. tauto. }
      * intros ([Hs | ->] & Hcr & H0).
        { assert (H : exists al, al ∈ acc.1 /\ alert_key al = id) by (apply Hal; tauto).
          destruct H as (al & Hin & Hk). exists al. split; [|exact Hk].
          apply elem_of_app. left. exact Hin. }
        { eexists. split; [apply elem_of_app; right; apply list_elem_of_singleton; reflexivity|].
          reflexivity. }
Qed.

Lemma scan_exact_drop p S0 seen acc (x : string * spec_float) :
  dropping p x ->
  scan_exact p S0 seen acc ->
  scan_exact p S0 (seen ++ [x])
    (if decide (x ∈ acc.2) then (acc.1, acc.2 ∖ {[x]}) else acc).
Proof.
  intros Hd [Hset Hal].
  assert (Hnc : ~ crossing p x).
  { destruct Hd as [Hd _]. unfold crossing. congruence. }
  assert (Hseen : forall id, (exists al, al ∈ acc.1 /\ alert_key al = id) <->
                    ((id ∈ seen \/ id = x) /\ crossing p id /\ id ∉ S0)).
  { intros id. rewrite (Hal id). split; [tauto|].
    intros ([Hs | ->] & Hc & H0); [tauto | contradiction]. }
  destruct (decide (x ∈ acc.2)) as [Hin | Hnin]; split; intros id; simpl;
    rewrite ?elem_of_app, ?list_elem_of_singleton; try apply Hseen.
  - rewrite elem_of_difference, elem_of_singleton, (Hset id). split.
    + intros [[[H0 Hn] | [Hs Hc]] Hne]; [left | right; tauto].
      split; [exact H0|]. intros [[Hs | ->] Hd']; [apply Hn; tauto | contradiction].
    + intros [[H0 Hn] | [[Hs | ->] Hc]]; [| |contradiction].
      * split; [left; split; [exact H0|]; intros [Hs Hd']; apply Hn; tauto|].
        intros ->. apply Hn. tauto.
      * split; [right; tauto|]. intros ->. contradiction.
  - rewrite (Hset id). split.
    + intros [[H0 Hn] | [Hs Hc]]; [left | right; tauto].
      split; [exact H0|]. intros [[Hs | ->] Hd']; [apply Hn; tauto|].
      apply Hnin, Hset. left. split; [exact H0|]. exact Hn.
    + intros [[H0 Hn] | [[Hs | ->] Hc]]; [left | right; tauto | contradiction].
      split; [exact H0|]. intros [Hs Hd']. apply Hn. tauto.
Qed.

Lemma scan_exact_step p S0 seen acc (x : string * spec_float) :
  scan_exact p S0 seen acc ->
  scan_exact p S0 (seen ++ [x]) (Alerts.check_item p acc x).
Proof.
  intros Hinv. destruct x as [ty th]. unfold Alerts.check_item.
  destruct (Alerts.is_high ty && PyFloat.fge p th) eqn:H1.
  { apply scan_exact_fire; [|exact Hinv]. unfold crossing, Alerts.crosses. simpl.
    rewrite H1. reflexivity. }
  destruct (Alerts.is_low ty && PyFloat.fle p th) eqn:H2.
  { apply scan_exact_fire; [|exact Hinv]. unfold crossing, Alerts.crosses. simpl.
    rewrite H1, H2. reflexivity. }
  assert (Hc : Alerts.crosses ty th p = false)
    by (unfold Alerts.crosses; rewrite H1, H2; reflexivity).
  destruct (Alerts.rearms ty th p) eqn:Hr.
  - apply (scan_exact_drop p S0 seen acc (ty, th)); [|exact Hinv]. split; assumption.
  - apply scan_exact_skip; [| |exact Hinv].
    + unfold crossing. simpl. congruence.
    + unfold dropping. simpl. intros [_ H]. congruence.
Qed.

Lemma scan_exact_fold p S0 (items : list (string * spec_float)) :
  forall seen acc,
    scan_exact p S0 seen acc ->
    scan_exact p S0 (seen ++ items) (fold_left (Alerts.check_item p) items acc).
Proof.
  induction items as [|x items IH]; intros seen acc Hinv.
  - rewrite app_nil_r. exact Hinv.
  - simpl. replace (seen ++ x :: items) with ((seen ++ [x]) ++ items)
      by (rewrite <- app_assoc; reflexivity).
    apply IH, scan_exact_step, Hinv.
Qed.

(** The end of the loop of [check_alerts], from the start of the call. *)
Lemma check_alerts_scan a p :
  scan_exact p (Alerts.triggered_alerts a) (Alerts.thresholds a)
    ((Alerts.check_alerts a p).1, Alerts.triggered_alerts (Alerts.check_alerts a p).2).
Proof.
  unfold Alerts.check_alerts.
  pose proof (scan_exact_fold p (Alerts.triggered_alerts a) (Alerts.thresholds a) []
                ([], Alerts.triggered_alerts a) (scan_exact_start _ _)) as H.
  destruct (fold_left _ _ _) as [triggered set]. exact H.
Qed.

(** What one call of [check_alerts] fires. *)
Lemma check_alerts_fires a p (ty : string) (th : spec_float) :
  fires ty th (Alerts.check_alerts a p).1 <->
  ((ty, th) ∈ Alerts.thresholds a /\ Alerts.crosses ty th p = true
   /\ (ty, th) ∉ Alerts.triggered_alerts a).
Proof. destruct (check_alerts_scan a p) as [_ Hal]. apply (Hal (ty, th)). Qed.

(** What one call of [check_alerts] leaves triggered. *)
Lemma check_alerts_triggered a p id :
  id ∈ Alerts.triggered_alerts (Alerts.check_alerts a p).2 <->
  (id ∈ Alerts.triggered_alerts a /\ ~ (id ∈ Alerts.thresholds a /\ dropping p id))
  \/ (id ∈ Alerts.thresholds a /\ crossing p id).
Proof. destruct (check_alerts_scan a p) as [Hset _]. apply (Hset id). Qed.

(** X1. One call of [check_alerts] fires exactly the configured thresholds
    that the price is at or beyond and that were not triggered; the
    triggered set afterwards holds what it held, less the configured
    thresholds the price re-arms, plus the configured thresholds the price
    is at or beyond. *)
Theorem check_alerts_exact a p :
  let r := Alerts.check_alerts a p in
  (forall (ty : string) (th : spec_float),
      fires ty th r.1 <->
      ((ty, th) ∈ Alerts.thresholds a /\ Alerts.crosses ty th p = true
       /\ (ty, th) ∉ Alerts.triggered_alerts a))
  /\ (forall id,
        id ∈ Alerts.triggered_alerts r.2 <->
        (id ∈ Alerts.triggered_alerts a
         /\ ~ (id ∈ Alerts.thresholds a /\ dropping p id))
        \/ (id ∈ Alerts.thresholds a /\ crossing p id)).
Proof.
  cbv zeta. split.
  - intros ty th. apply check_alerts_fires.
  - intros id. apply check_alerts_triggered.
Qed.

End AlertsExact.

Section AlertsRepeat.
Implicit Types (a : Alerts.t) (id : Alerts.alert_id) (p : spec_float).

Lemma check_alerts_thresholds a p :
  Alerts.thresholds (Alerts.check_alerts a p).2 = Alerts.thresholds a.
Proof. apply (check_alerts_spec a p). Qed.

Lemma no_fires_nil (tr : list Alerts.alert) :
  (forall (ty : string) (th : spec_float), ~ fires ty th tr) -> tr = [].
Proof.
  destruct tr as [|al tr]; [reflexivity|]. intros H. exfalso.
  apply (H (Alerts.a_type al) (Alerts.a_threshold al)).
  exists al. split; [apply elem_of_cons; left; reflexivity | reflexivity].
Qed.

(** A price that is at or beyond no untriggered threshold and re-arms no
    triggered one changes nothing. *)
Lemma check_alerts_inert a p :
  (forall id, id ∈ Alerts.thresholds a -> crossing p id -> id ∈ Alerts.triggered_alerts a) ->
  (forall id, id ∈ Alerts.thresholds a -> dropping p id -> id ∉ Alerts.triggered_alerts a) ->
  Alerts.check_alerts a p = ([], a).
Proof.
  intros Hc Hd. pose proof (check_alerts_fires a p) as Hf. pose proof (check_alerts_triggered a p) as Hs.
  pose proof (check_alerts_thresholds a p) as Ht.
  destruct (Alerts.check_alerts a p) as [tr a'] eqn:E. simpl in *.
  assert (Htr : tr = []).
  { apply no_fires_nil. intros ty th H. apply Hf in H. destruct H as (Hin & Hcr & Hn).
    apply Hn. apply (Hc (ty, th)); assumption. }
  assert (Hset : Alerts.triggered_alerts a' = Alerts.triggered_alerts a).
  { apply set_eq. intros id. rewrite (Hs id). split.
    - intros [[H _] | [Hin Hcr]]; [exact H | apply Hc; assumption].
    - intros H. left. split; [exact H|]. intros [Hin Hdr]. apply (Hd id Hin Hdr H). }
  subst tr. destruct a', a. simpl in *. subst. reflexivity.
Qed.

(** X2. Checking the same price again fires nothing and changes nothing:
    whatever the thresholds and the triggered set, a second
    [check_alerts] at the price of the first returns no alert and leaves
    the alert system as the first call left it. *)
Theorem check_alerts_same_price_again a p :
  Alerts.check_alerts (Alerts.check_alerts a p).2 p = ([], (Alerts.check_alerts a p).2).
Proof.
  pose proof (check_alerts_triggered a p) as Hs.
  pose proof (check_alerts_thresholds a p) as Ht.
  apply check_alerts_inert; rewrite Ht; intros id Hin H.
  - apply Hs. right. split; assumption.
  - intros Hmem. apply Hs in Hmem. destruct Hmem as [[_ Hn] | [_ Hc]].
    + apply Hn. split; assumption.
    + destruct H as [H _]. unfold crossing in Hc. congruence.
Qed.

Lemma nan_compares_false (x : spec_float) :
  PyFloat.fge S754_nan x = false /\ PyFloat.fle S754_nan x = false
  /\ PyFloat.flt S754_nan x = false /\ PyFloat.fgt S754_nan x = false.
Proof. destruct x; repeat split; reflexivity. Qed.

(** X3. A price that is not a number, and a threshold whose name is
    neither "high" nor "low" in any letter case, are inert: at a NaN price
    [check_alerts] returns no alert and leaves the alert system as it was,
    and so it does at any price when no threshold is named high or low. *)
Theorem check_alerts_nan_or_unknown_kind a p :
  p = S754_nan
  \/ (forall (ty : string) (th : spec_float),
        (ty, th) ∈ Alerts.thresholds a -> Alerts.is_high ty = false /\ Alerts.is_low ty = false) ->
  Alerts.check_alerts a p = ([], a).
Proof.
  intros H.
  assert (Hinert : forall id, id ∈ Alerts.thresholds a ->
            Alerts.crosses id.1 id.2 p = false /\ Alerts.rearms id.1 id.2 p = false).
  { intros [ty th] Hin. unfold Alerts.crosses, Alerts.rearms. simpl.
    destruct H as [-> | H].
    - destruct (nan_compares_false th) as (-> & -> & _).
      destruct (nan_compares_false (PyFloat.fmul th Alerts.c098)) as (_ & _ & -> & _).
      destruct (nan_compares_false (PyFloat.fmul th Alerts.c102)) as (_ & _ & _ & ->).
      rewrite !andb_false_r. split; reflexivity.
    - destruct (H ty th Hin) as [-> ->]. split; reflexivity. }
  apply check_alerts_inert; intros id Hin Hx; destruct (Hinert id Hin) as [Hc Hr].
  - unfold crossing in Hx. congruence.
  - destruct Hx as [_ Hx]. congruence.
Qed.

(** X4. An identifier in the triggered set whose threshold is not, or no
    longer, among the configured ones is never dropped: it is still in the
    set after any series of prices. *)
Theorem stale_alert_is_never_dropped a (prices : list spec_float) id :
  id ∈ Alerts.triggered_alerts a ->
  id ∉ Alerts.thresholds a ->
  id ∈ Alerts.triggered_alerts (Alerts.feed a prices).2.
Proof.
  revert a. induction prices as [|p rest IH]; intros a Hin Hout; [exact Hin|].
  simpl. pose proof (check_alerts_triggered a p) as Hs.
  pose proof (check_alerts_thresholds a p) as Ht.
  destruct (Alerts.check_alerts a p) as [tr a1]. simpl in *.
  specialize (IH a1). destruct (Alerts.feed a1 rest) as [trs a2]. simpl in *.
  apply IH.
  - apply Hs. left. split; [exact Hin|]. intros [H _]. contradiction.
  - rewrite Ht. exact Hout.
Qed.

(** X5. What [price_callback] does with the price of a failed first
    fetch: [get_current_price] on a tracker that has cached nothing
    returns 0 when the fetch fails, and at that price every configured low
    alert with a threshold of 0 or more that is not yet triggered is sent,
    carrying the price 0. *)
Theorem failed_first_fetch_fires_low_alerts {W} (tr : Tracker.t W) a
    (r : result Tracker.last_price) (ty : string) (th : spec_float) :
  Tracker.current_price tr = None ->
  fetch_failed r ->
  (ty, th) ∈ Alerts.thresholds a ->
  Alerts.is_low ty = true ->
  PyFloat.fle (S754_zero false) th = true ->
  (ty, th) ∉ Alerts.triggered_alerts a ->
  PriceAlert (S754_zero false) ty th
  ∈ (Alerts.price_callback a (Tracker.get_current_price tr r).1).2.
Proof.
  intros Hnone Hfail Hin Hlow Hle Hnew.
  rewrite (get_current_price_failed tr r Hfail), Hnone. simpl.
  unfold Alerts.price_callback.
  pose proof (check_alerts_fires a (S754_zero false)) as Hf.
  destruct (check_alerts_spec a (S754_zero false)) as (Hsp & _).
  destruct (Alerts.check_alerts a (S754_zero false)) as [alerts a']. simpl in *.
  assert (Hfire : fires ty th alerts).
  { apply Hf. split; [exact Hin|]. split; [|exact Hnew].
    unfold Alerts.crosses. rewrite Hlow, Hle. apply orb_true_r. }
  destruct Hfire as (al & Hal & Hk).
  destruct (Hsp al Hal) as (_ & _ & _ & Hp & _).
  apply list_elem_of_fmap. exists al. split; [|exact Hal].
  unfold Alerts.notification. unfold alert_key in Hk. injection Hk as -> ->.
  rewrite Hp. reflexivity.
Qed.

End AlertsRepeat.

(** The inert prices at a NaN price against the high threshold 0.71. *)
Lemma check_alerts_nan_or_unknown_kind_witness :
  Alerts.check_alerts high_071 S754_nan = ([], high_071).
Proof.
  apply (check_alerts_nan_or_unknown_kind high_071 S754_nan). left. reflexivity.
Defined.

(** An alert system that holds the identifier of a threshold removed
    since. *)
Definition stale_071 : Alerts.t :=
{| Alerts.thresholds := [];
   Alerts.triggered_alerts := {[ ("high"%string, PyFloat.of_ratio 71 100) ]} |}.

Lemma stale_alert_is_never_dropped_witness :
  ("high"%string, PyFloat.of_ratio 71 100)
  ∈ Alerts.triggered_alerts (Alerts.feed stale_071 excursion_prices).2.
Proof.
  apply (stale_alert_is_never_dropped stale_071 excursion_prices).
  - cbn [stale_071 Alerts.triggered_alerts]. apply elem_of_singleton. reflexivity.
  - cbn [stale_071 Alerts.thresholds]. apply not_elem_of_nil.
Defined.

Lemma failed_first_fetch_fires_low_alerts_witness :
  PriceAlert (S754_zero false) "low" (PyFloat.of_ratio 64 100)
  ∈ (Alerts.price_callback (Alerts.init Settings.PRICE_ALERT_THRESHOLDS)
       (Tracker.get_current_price (@Tracker.init unit) (Raise ApiError)).1).2.
Proof.
  apply (failed_first_fetch_fires_low_alerts (@Tracker.init unit)
           (Alerts.init Settings.PRICE_ALERT_THRESHOLDS) (Raise ApiError)
           "low" (PyFloat.of_ratio 64 100)).
  - reflexivity.
  - reflexivity.
  - apply elem_of_cons. left. reflexivity.
  - reflexivity.
  - vm_compute. reflexivity.
  - apply not_elem_of_empty.
Defined.

(** ** [add_threshold] and [remove_threshold] *)

Section Thresholds.
Implicit Types (a : Alerts.t) (d : list (string * spec_float)) (k : string) (v : spec_float).

Lemma assign_keys k v d :
  (Alerts.assign k v d).*1 = if decide (k ∈ d.*1) then d.*1 else d.*1 ++ [k].
Proof.
  induction d as [|[k' v'] d IH].
  - cbn [Alerts.assign]. rewrite decide_False by apply not_elem_of_nil. reflexivity.
  - cbn [Alerts.assign]. destruct (String.eqb_spec k' k) as [-> | Hne].
    + rewrite !fmap_cons. cbn [fst].
      rewrite decide_True by (apply elem_of_cons; left; reflexivity). reflexivity.
    + rewrite !fmap_cons. cbn [fst]. rewrite IH.
      destruct (decide (k ∈ d.*1)) as [Hin | Hnin].
      * rewrite decide_True by (apply elem_of_cons; right; exact Hin). reflexivity.
      * rewrite decide_False; [reflexivity|].
        intros H. apply elem_of_cons in H. destruct H as [-> | H]; contradiction.
Qed.

Lemma key_elem d k v : (k, v) ∈ d -> k ∈ d.*1.
Proof. intros H. apply list_elem_of_fmap. exists (k, v). split; [reflexivity | exact H]. Qed.

(** On a dict - keys all different - assignment sets the value of [k]
    and leaves the other items. *)
Lemma assign_elem k v d (k0 : string) (v0 : spec_float) :
  NoDup (d.*1) ->
  (k0, v0) ∈ Alerts.assign k v d <->
  (k0 = k /\ v0 = v) \/ (k0 <> k /\ (k0, v0) ∈ d).
Proof.
  induction d as [|[k' v'] d IH]; simpl; intros Hnd.
  - rewrite list_elem_of_singleton. split.
    + intros H. injection H as -> ->. left. split; reflexivity.
    + intros [[-> ->] | [_ H]]; [reflexivity | apply elem_of_nil in H; contradiction].
  - apply NoDup_cons in Hnd. destruct Hnd as [Hk' Hnd].
    destruct (String.eqb_spec k' k) as [-> | Hne]; rewrite !elem_of_cons.
    + split.
      * intros [H | H]; [injection H as -> ->; left; split; reflexivity|].
        right. split; [|right; exact H].
        intros ->. apply Hk'. apply (key_elem d k v0 H).
      * intros [[-> ->] | [Hk [H | H]]];
          [left; reflexivity | injection H as -> ->; contradiction | right; exact H].
    + rewrite (IH Hnd). split.
      * intros [H | [[-> ->] | [Hk H]]].
        { injection H as -> ->. right. split; [exact Hne | left; reflexivity]. }
        { left. split; reflexivity. }
        { right. split; [exact Hk | right; exact H]. }
      * intros [[-> ->] | [Hk [H | H]]].
        { right. left. split; reflexivity. }
        { left. exact H. }
        { right. right. split; assumption. }
Qed.

Lemma remove_key_elem k d (k0 : string) (v0 : spec_float) :
  (k0, v0) ∈ Alerts.remove_key k d <-> (k0 <> k /\ (k0, v0) ∈ d).
Proof.
  unfold Alerts.remove_key. rewrite !list_elem_of_In, filter_In. simpl.
  destruct (String.eqb_spec k0 k) as [-> | Hne]; simpl; split.
  - intros [_ H]. discriminate.
  - intros [H _]. contradiction.
  - intros [H _]. split; assumption.
  - intros [_ H]. split; [exact H | reflexivity].
Qed.

Lemma remove_key_absent k d : k ∉ d.*1 -> Alerts.remove_key k d = d.
Proof.
  induction d as [|[k' v'] d IH]; intros H; [reflexivity|].
  simpl in *. apply not_elem_of_cons in H. destruct H as [Hne Hd].
  destruct (String.eqb_spec k' k) as [-> | _]; [contradiction|]. simpl.
  rewrite (IH Hd). reflexivity.
Qed.

Lemma remove_key_assign k v d : k ∉ d.*1 -> Alerts.remove_key k (Alerts.assign k v d) = d.
Proof.
  induction d as [|[k' v'] d IH]; intros H; simpl.
  - rewrite String.eqb_refl. reflexivity.
  - simpl in H. apply not_elem_of_cons in H. destruct H as [Hne Hd].
    destruct (String.eqb_spec k' k) as [-> | Hk]; [contradiction|]. simpl.
    destruct (String.eqb_spec k' k) as [-> | _]; [contradiction|]. simpl.
    rewrite (IH Hd). reflexivity.
Qed.

(** X6. The thresholds behave as a dict with the triggered set left
    alone.  With all names different, [add_threshold] sets the price of
    its name, leaves every other threshold, keeps the names different and
    in their order - a new name goes last - and does not touch the
    triggered set; [remove_threshold] leaves no threshold of its name and
    keeps the others; and removing a name just added, that was not there
    before, gives back the alert system. *)
Theorem thresholds_are_a_dict a k v :
  NoDup ((Alerts.thresholds a).*1) ->
  let added := Alerts.add_threshold a k v in
  let removed := Alerts.remove_threshold a k in
  (forall (k0 : string) (v0 : spec_float),
      (k0, v0) ∈ Alerts.thresholds added <->
      (k0 = k /\ v0 = v) \/ (k0 <> k /\ (k0, v0) ∈ Alerts.thresholds a))
  /\ NoDup ((Alerts.thresholds added).*1)
  /\ (Alerts.thresholds added).*1
     = (if decide (k ∈ (Alerts.thresholds a).*1) then (Alerts.thresholds a).*1
        else (Alerts.thresholds a).*1 ++ [k])
  /\ Alerts.triggered_alerts added = Alerts.triggered_alerts a
  /\ (forall (k0 : string) (v0 : spec_float),
        (k0, v0) ∈ Alerts.thresholds removed <->
        (k0 <> k /\ (k0, v0) ∈ Alerts.thresholds a))
  /\ Alerts.triggered_alerts removed = Alerts.triggered_alerts a
  /\ (k ∉ (Alerts.thresholds a).*1 -> Alerts.remove_threshold added k = a).
Proof.
  intros Hnd added removed. subst added removed. simpl.
  split; [intros k0 v0; apply assign_elem, Hnd|].
  split; [|split; [apply assign_keys|split; [reflexivity|split; [|split; [reflexivity|]]]]].
  - rewrite assign_keys. destruct (decide (k ∈ (Alerts.thresholds a).*1)) as [_ | Hn];
      [exact Hnd|].
    apply NoDup_app. split; [exact Hnd|]. split; [|apply NoDup_singleton].
    intros x Hx Hx'. apply list_elem_of_singleton in Hx'. subst x. contradiction.
  - intros k0 v0. apply remove_key_elem.
  - intros Hn. unfold Alerts.remove_threshold. simpl.
    rewrite (remove_key_assign k v _ Hn). destruct a; reflexivity.
Qed.

End Thresholds.

Lemma thresholds_are_a_dict_witness :
  Alerts.thresholds (Alerts.add_threshold high_071 "high" (PyFloat.of_ratio 72 100))
  = [("high"%string, PyFloat.of_ratio 72 100)]
  /\ Alerts.remove_threshold
       (Alerts.add_threshold high_071 "low" (PyFloat.of_ratio 64 100)) "low"
     = high_071.
Proof.
  split; [reflexivity|].
  assert (Hnd : NoDup ((Alerts.thresholds high_071).*1)).
  { cbn. apply NoDup_singleton. }
  destruct (thresholds_are_a_dict high_071 "low" (PyFloat.of_ratio 64 100) Hnd)
    as (_ & _ & _ & _ & _ & _ & H).
  apply H. cbn. intros Hin. apply list_elem_of_singleton in Hin. discriminate.
Defined.

(** ** [api/coindcx.py]: requests with retries, the ticker of a market *)

Module Api.

(** [MAX_RETRIES] of [config/settings.py]. *)
Definition MAX_RETRIES : nat := 3.

(** What one [requests.get] or [requests.post] with [raise_for_status]
    and [response.json()] comes to: a decoded body, a
    [RequestException], or another exception. *)
Inductive attempt (J : Type) : Type :=
| Answer (body : J)
| RequestFailed
| Crashed (e : exn).
Arguments Answer {J} body.
Arguments RequestFailed {J}.
Arguments Crashed {J} e.

(** What [_make_request] does to the outside: the attempt sent,
    [time.sleep(RETRY_DELAY)]. *)
Inductive io : Set :=
| Sent (attempt_no : nat)
| Slept.

Definition is_sent (e : io) : bool := match e with Sent _ => true | Slept => false end.
Definition is_slept (e : io) : bool := match e with Slept => true | Sent _ => false end.

(** [method.lower()] is ["get"] or ["post"]. *)
Definition supported (method : string) : bool :=
  String.eqb (Alerts.lower method) "get" || String.eqb (Alerts.lower method) "post".

(** The [for attempt in range(max_retries)] loop from attempt [i] on, with
    [remaining] attempts left; [net i] is what attempt [i] meets.  The
    loop that runs out returns [None]. *)
Fixpoint request_loop {J} (net : nat -> attempt J) (max_retries i remaining : nat)
    : result (option J) * list io :=
  match remaining with
  | O => (Ok None, [])
  | S k =>
      match net i with
      | Answer body => (Ok (Some body), [Sent i])
      | Crashed e => (Raise e, [Sent i])
      | RequestFailed =>
          if (Nat.ltb (S i) max_retries) then
            let '(r, t) := request_loop net max_retries (S i) k in
            (r, Sent i :: Slept :: t)
          else (Raise ApiError, [Sent i])
      end
  end.

(** [_make_request]: an unsupported method raises [ValueError] in the
    first pass of the loop, before anything is sent. *)
Definition make_request {J} (net : nat -> attempt J) (max_retries : nat) (method : string)
    : result (option J) * list io :=
  if supported method then request_loop net max_retries 0 max_retries
  else match max_retries with
       | O => (Ok None, [])
       | S _ => (Raise ValueError, [])
       end.

(** An entry of the reply of [/v1/ticker]; each number is what
    [float(ticker.get(key, 0))] meets. *)
Record ticker : Set := {
  t_market : option string;
  t_last_price : Tracker.last_price;
  t_change_24h : Tracker.last_price;
  t_high_24h : Tracker.last_price;
  t_low_24h : Tracker.last_price;
  t_volume_24h : Tracker.last_price
}.

Definition is_market (market : string) (t : ticker) : bool :=
  match t_market t with
  | Some m => String.eqb m market
  | None => false
  end.

(** The loop of [get_ticker] over a decoded reply. *)
Definition find_ticker (response : list ticker) (market : string) : result ticker :=
  match List.find (is_market market) response with
  | Some t => Ok t
  | None => Raise ValueError
  end.

(** [get_ticker(market)]: a GET of the tickers, then the first entry of
    the market.  A reply of [None] cannot be iterated. *)
Definition get_ticker (net : nat -> attempt (list ticker)) (max_retries : nat)
    (market : string) : result ticker * list io :=
  match make_request net max_retries "GET" with
  | (Ok (Some response), t) => (find_ticker response market, t)
  | (Ok None, t) => (Raise ApiError, t)
  | (Raise e, t) => (Raise e, t)
  end.

(** What [PriceTracker.get_current_price] reads in the outcome of
    [get_ticker]. *)
Definition last_price_of (r : result ticker) : result Tracker.last_price :=
  match r with
  | Ok t => Ok (t_last_price t)
  | Raise e => Raise e
  end.

End Api.

(** ** [PriceTracker.get_price_change_24h] *)

Module Change24h.

Record summary : Set := {
  price : spec_float;
  change_24h : spec_float;
  high_24h : spec_float;
  low_24h : spec_float;
  volume_24h : spec_float
}.

(** [float(ticker.get(key, 0))]: [None] when it raises. *)
Definition number (f : Tracker.last_price) : option spec_float :=
  Tracker.fetched_price (Ok f).

(** The dict of the [except] branch. *)
Definition fallback {W} (tr : Tracker.t W) : summary :=
  {| price := PyFloat.or_default (Tracker.current_price tr) (S754_zero false);
     change_24h := S754_zero false;
     high_24h := S754_zero false;
     low_24h := S754_zero false;
     volume_24h := S754_zero false |}.

Definition get_price_change_24h {W} (tr : Tracker.t W) (r : result Api.ticker) : summary :=
  match r with
  | Ok t =>
      match number (Api.t_last_price t), number (Api.t_change_24h t),
            number (Api.t_high_24h t), number (Api.t_low_24h t),
            number (Api.t_volume_24h t) with
      | Some p, Some c, Some h, Some l, Some v =>
          {| price := p; change_24h := c; high_24h := h; low_24h := l; volume_24h := v |}
      | _, _, _, _, _ => fallback tr
      end
  | Raise _ => fallback tr
  end.

End Change24h.

(** ** Retries of [_make_request] *)

Section Retries.
Context {J : Type}.
Implicit Types (net : nat -> Api.attempt J) (i k n : nat).

(** The trace of [n] attempts from attempt [i] on, a sleep between two. *)
Fixpoint attempts_trace (i n : nat) : list Api.io :=
  match n with
  | O => []
  | S O => [Api.Sent i]
  | S m => Api.Sent i :: Api.Slept :: attempts_trace (S i) m
  end.

Lemma attempts_trace_S i n :
  attempts_trace i (S (S n)) = Api.Sent i :: Api.Slept :: attempts_trace (S i) (S n).
Proof. reflexivity. Qed.

Lemma attempts_trace_counts i n :
  length (List.filter Api.is_sent (attempts_trace i n)) = n
  /\ length (List.filter Api.is_slept (attempts_trace i n)) = Nat.pred n.
Proof.
  revert i. induction n as [|n IH]; intros i; [split; reflexivity|].
  destruct n as [|n]; [split; reflexivity|].
  rewrite attempts_trace_S. destruct (IH (S i)) as [H1 H2]. simpl in *.
  rewrite H1, H2. split; reflexivity.
Qed.

(** The loop from attempt [i], when the attempts before attempt [i + k]
    fail and that one does not. *)
Lemma request_loop_settles net (max_retries : nat) k :
  forall i remaining,
    (i + remaining = max_retries)%nat -> (k < remaining)%nat ->
    (forall j, (i <= j < i + k)%nat -> net j = Api.RequestFailed) ->
    Api.request_loop net max_retries i remaining
    = (match net (i + k)%nat with
       | Api.Answer body => Ok (Some body)
       | Api.Crashed e => Raise e
       | Api.RequestFailed => if Nat.ltb (S (i + k)) max_retries
                              then (Api.request_loop net max_retries (S (i + k))
                                      (remaining - S k)).1
                              else Raise ApiError
       end,
       attempts_trace i (S k)
       ++ match net (i + k)%nat with
          | Api.RequestFailed =>
              if Nat.ltb (S (i + k)) max_retries
              then Api.Slept :: (Api.request_loop net max_retries (S (i + k))
                                   (remaining - S k)).2
              else []
          | _ => []
          end).
Proof.
  induction k as [|k IH]; intros i remaining Hsum Hlt Hfail.
  - destruct remaining as [|r]; [lia|]. rewrite Nat.add_0_r. simpl.
    rewrite Nat.sub_0_r.
    destruct (net i); try reflexivity.
    destruct (Nat.ltb (S i) max_retries); [|reflexivity].
    destruct (Api.request_loop net max_retries (S i) r). reflexivity.
  - destruct remaining as [|r]; [lia|]. cbn [Api.request_loop].
    rewrite (Hfail i) by lia.
    destruct (Nat.ltb_spec (S i) max_retries) as [_ | Hge]; [|lia].
    rewrite (IH (S i) r) by (try lia; intros j Hj; apply Hfail; lia).
    replace (S i + k)%nat with (i + S k)%nat by lia.
    replace (S r - S (S k))%nat with (r - S k)%nat by lia.
    rewrite attempts_trace_S. reflexivity.
Qed.

(** The first attempt that does not fail with a [RequestException] is
    answered. *)
Lemma make_request_answered net (max_retries : nat) (method : string) k body :
  Api.supported method = true ->
  (k < max_retries)%nat -> (forall j, (j < k)%nat -> net j = Api.RequestFailed) ->
  net k = Api.Answer body ->
  Api.make_request net max_retries method = (Ok (Some body), attempts_trace 0 (S k)).
Proof.
  intros Hsup Hk Hfail Hans. unfold Api.make_request. rewrite Hsup.
  rewrite (request_loop_settles net max_retries k 0 max_retries)
    by (try lia; intros; apply Hfail; lia).
  simpl. rewrite Hans. rewrite app_nil_r. reflexivity.
Qed.

(** The first attempt that does not fail with a [RequestException] raises
    something else. *)
Lemma make_request_crashed net (max_retries : nat) (method : string) k e :
  Api.supported method = true ->
  (k < max_retries)%nat -> (forall j, (j < k)%nat -> net j = Api.RequestFailed) ->
  net k = Api.Crashed e ->
  Api.make_request net max_retries method = (Raise e, attempts_trace 0 (S k)).
Proof.
  intros Hsup Hk Hfail Hans. unfold Api.make_request. rewrite Hsup.
  rewrite (request_loop_settles net max_retries k 0 max_retries)
    by (try lia; intros; apply Hfail; lia).
  simpl. rewrite Hans. rewrite app_nil_r. reflexivity.
Qed.

(** Every attempt fails with a [RequestException]. *)
Lemma make_request_exhausted net (max_retries : nat) (method : string) :
  Api.supported method = true ->
  (0 < max_retries)%nat ->
  (forall j, (j < max_retries)%nat -> net j = Api.RequestFailed) ->
  Api.make_request net max_retries method = (Raise ApiError, attempts_trace 0 max_retries).
Proof.
  intros Hsup Hpos Hfail. unfold Api.make_request. rewrite Hsup.
  destruct max_retries as [|m]; [lia|].
  rewrite (request_loop_settles net (S m) m 0 (S m)) by (try lia; intros; apply Hfail; lia).
  simpl. rewrite (Hfail m) by lia.
  destruct (Nat.ltb_spec (S m) (S m)) as [H | _]; [lia|].
  rewrite app_nil_r. reflexivity.
Qed.

(** X7. [_make_request] with a supported method returns the first answer
    it gets, after one attempt per failure before it and a sleep between
    two attempts; an exception that is not a [RequestException] is let
    through at once; and when the first [max_retries] attempts all fail it
    raises after exactly [max_retries] attempts, without sleeping after
    the last. *)
Theorem make_request_retries net (max_retries : nat) (method : string) :
  Api.supported method = true ->
  (forall k body,
      (k < max_retries)%nat -> (forall j, (j < k)%nat -> net j = Api.RequestFailed) ->
      net k = Api.Answer body ->
      Api.make_request net max_retries method = (Ok (Some body), attempts_trace 0 (S k)))
  /\ (forall k e,
        (k < max_retries)%nat -> (forall j, (j < k)%nat -> net j = Api.RequestFailed) ->
        net k = Api.Crashed e ->
        Api.make_request net max_retries method = (Raise e, attempts_trace 0 (S k)))
  /\ ((0 < max_retries)%nat ->
      (forall j, (j < max_retries)%nat -> net j = Api.RequestFailed) ->
      Api.make_request net max_retries method
      = (Raise ApiError, attempts_trace 0 max_retries)
      /\ length (List.filter Api.is_sent (attempts_trace 0 max_retries)) = max_retries
      /\ length (List.filter Api.is_slept (attempts_trace 0 max_retries))
         = Nat.pred max_retries).
Proof.
  intros Hsup. split; [|split].
  - intros k body Hk Hfail Hans. apply make_request_answered; assumption.
  - intros k e Hk Hfail Hans. apply make_request_crashed; assumption.
  - intros Hpos Hfail. split; [|apply attempts_trace_counts].
    apply make_request_exhausted; assumption.
Qed.

Lemma request_loop_bounds net (max_retries : nat) :
  forall remaining i,
    (i + remaining = max_retries)%nat ->
    let t := (Api.request_loop net max_retries i remaining).2 in
    (length (List.filter Api.is_sent t) <= remaining)%nat
    /\ ((0 < remaining)%nat -> (1 <= length (List.filter Api.is_sent t))%nat)
    /\ length (List.filter Api.is_slept t) = Nat.pred (length (List.filter Api.is_sent t)).
Proof.
  induction remaining as [|r IH]; intros i Hsum;
    [split; [|split]; simpl; [lia | lia | reflexivity]|].
  cbn [Api.request_loop].
  destruct (net i); try (split; [|split]; simpl; [lia | lia | reflexivity]).
  destruct (Nat.ltb_spec (S i) max_retries) as [Hlt | Hge];
    [|split; [|split]; simpl; [lia | lia | reflexivity]].
  specialize (IH (S i) ltac:(lia)).
  destruct (Api.request_loop net max_retries (S i) r) as [res t].
  simpl in *. destruct IH as (H1 & H2 & H3). split; [lia|]. split; [lia|].
  rewrite H3. specialize (H2 ltac:(lia)). lia.
Qed.

(** X8. Whatever the network does, [_make_request] sends at most
    [max_retries] requests and sleeps only between two of them, one sleep
    less than requests; with an unsupported method it sends nothing. *)
Theorem make_request_bounded net (max_retries : nat) (method : string) :
  let t := (Api.make_request net max_retries method).2 in
  (length (List.filter Api.is_sent t) <= max_retries)%nat
  /\ length (List.filter Api.is_slept t) = Nat.pred (length (List.filter Api.is_sent t))
  /\ (Api.supported method = false -> t = []).
Proof.
  unfold Api.make_request. destruct (Api.supported method).
  - destruct (request_loop_bounds net max_retries max_retries 0 eq_refl) as (H1 & _ & H3).
    split; [exact H1|]. split; [exact H3 | discriminate].
  - destruct max_retries; simpl; (split; [lia|]; split; reflexivity).
Qed.

End Retries.

Lemma make_request_retries_witness :
  Api.make_request
    (fun j => match j with 2%nat => Api.Answer 7%nat | _ => Api.RequestFailed end)
    Api.MAX_RETRIES "GET"
  = (Ok (Some 7%nat),
     [Api.Sent 0; Api.Slept; Api.Sent 1; Api.Slept; Api.Sent 2]).
Proof.
  destruct (make_request_retries
              (fun j => match j with 2%nat => Api.Answer 7%nat | _ => Api.RequestFailed end)
              Api.MAX_RETRIES "GET" eq_refl) as (H & _).
  apply (H 2%nat 7%nat).
  - unfold Api.MAX_RETRIES. lia.
  - intros j Hj. destruct j as [|[|j]]; [reflexivity | reflexivity | lia].
  - reflexivity.
Defined.

(** ** The price of a market, from the network to the tracker *)

Section ThroughApi.
Context {W : Type}.
Implicit Types (tr : Tracker.t W) (net : nat -> Api.attempt (list Api.ticker))
  (market : string).

Lemma find_first {A} (f : A -> bool) (pre post : list A) (x : A) :
  (forall y, y ∈ pre -> f y = false) -> f x = true ->
  List.find f (pre ++ x :: post) = Some x.
Proof.
  induction pre as [|y pre IH]; intros Hpre Hx; simpl.
  - rewrite Hx. reflexivity.
  - rewrite (Hpre y) by (apply elem_of_cons; left; reflexivity).
    apply IH; [|exact Hx]. intros z Hz. apply Hpre. apply elem_of_cons. right. exact Hz.
Qed.

Lemma find_none {A} (f : A -> bool) (l : list A) :
  (forall y, y ∈ l -> f y = false) -> List.find f l = None.
Proof.
  induction l as [|y l IH]; intros H; [reflexivity|]. simpl.
  rewrite (H y) by (apply elem_of_cons; left; reflexivity).
  apply IH. intros z Hz. apply H. apply elem_of_cons. right. exact Hz.
Qed.

(** X9. [get_current_price] over [get_ticker] over [_make_request].  When
    an attempt within the retries is answered, the price is the
    [last_price] of the first entry of the market in the answer, and it is
    cached; when the answer has no entry of the market, and when every
    attempt fails, the tracker is left as it was and the price is the
    cached one, or 0. *)
Theorem price_through_api tr net (max_retries : nat) market :
  let g := Tracker.get_current_price tr
             (Api.last_price_of (Api.get_ticker net max_retries market).1) in
  let stale := (PyFloat.or_default (Tracker.current_price tr) (S754_zero false), tr) in
  (forall k response pre t0 post x,
      (k < max_retries)%nat -> (forall j, (j < k)%nat -> net j = Api.RequestFailed) ->
      net k = Api.Answer response ->
      response = pre ++ t0 :: post ->
      (forall t, t ∈ pre -> Api.is_market market t = false) ->
      Api.is_market market t0 = true ->
      Api.t_last_price t0 = Tracker.Num x ->
      g = (x, Tracker.set_price tr x))
  /\ (forall k response,
        (k < max_retries)%nat -> (forall j, (j < k)%nat -> net j = Api.RequestFailed) ->
        net k = Api.Answer response ->
        (forall t, t ∈ response -> Api.is_market market t = false) ->
        g = stale)
  /\ ((0 < max_retries)%nat ->
      (forall j, (j < max_retries)%nat -> net j = Api.RequestFailed) ->
      g = stale).
Proof.
  intros g stale. subst g stale. unfold Api.get_ticker.
  split; [|split].
  - intros k response pre t0 post x Hk Hbefore Hnet -> Hpre Ht0 Hx.
    rewrite (make_request_answered net max_retries "GET" k _ eq_refl Hk Hbefore Hnet).
    unfold Api.find_ticker.
    rewrite (find_first _ pre post t0 Hpre Ht0). simpl.
    unfold Tracker.get_current_price. rewrite Hx. reflexivity.
  - intros k response Hk Hbefore Hnet Hnone.
    rewrite (make_request_answered net max_retries "GET" k _ eq_refl Hk Hbefore Hnet).
    unfold Api.find_ticker.
    rewrite (find_none _ response Hnone). reflexivity.
  - intros Hpos Hall.
    rewrite (make_request_exhausted net max_retries "GET" eq_refl Hpos Hall). reflexivity.
Qed.

(** X10. [get_price_change_24h] is all or nothing: its result is either
    built from the five numbers of the ticker, all read, or the fallback of
    the cached price and four zeros.  Its price is the one
    [get_current_price] returns for the same outcome of [get_ticker],
    except when [last_price] is read and another number is not: then
    [get_current_price] returns the fetched price and the summary the
    cached one. *)
Theorem price_change_24h_all_or_nothing tr (r : result Api.ticker) :
  let s := Change24h.get_price_change_24h tr r in
  let g := Tracker.get_current_price tr (Api.last_price_of r) in
  (s = Change24h.fallback tr
   \/ exists t, r = Ok t
        /\ Change24h.number (Api.t_last_price t) = Some (Change24h.price s)
        /\ Change24h.number (Api.t_change_24h t) = Some (Change24h.change_24h s)
        /\ Change24h.number (Api.t_high_24h t) = Some (Change24h.high_24h s)
        /\ Change24h.number (Api.t_low_24h t) = Some (Change24h.low_24h s)
        /\ Change24h.number (Api.t_volume_24h t) = Some (Change24h.volume_24h s))
  /\ (Change24h.price s = g.1
      \/ exists t x, r = Ok t
           /\ Change24h.number (Api.t_last_price t) = Some x /\ g.1 = x
           /\ s = Change24h.fallback tr
           /\ (Api.t_change_24h t = Tracker.Malformed \/ Api.t_high_24h t = Tracker.Malformed
               \/ Api.t_low_24h t = Tracker.Malformed
               \/ Api.t_volume_24h t = Tracker.Malformed)).
Proof.
  intros s g. subst s g. destruct r as [t | e]; simpl.
  2: { split; left; reflexivity. }
  unfold Change24h.number, Tracker.get_current_price. simpl.
  destruct t as [m lp ch hi lo vol]. simpl.
  destruct lp as [| |x]; simpl; try (split; left; reflexivity);
    destruct ch as [| |c]; simpl;
    try (split; [left; reflexivity | right; eexists _, _; repeat split; auto]);
    destruct hi as [| |h]; simpl;
    try (split; [left; reflexivity | right; eexists _, _; repeat split; auto]);
    destruct lo as [| |l]; simpl;
    try (split; [left; reflexivity | right; eexists _, _; repeat split; auto]);
    destruct vol as [| |v]; simpl;
    try (split; [left; reflexivity | right; eexists _, _; repeat split; auto 6]);
    (split; [right; eexists; repeat split | left; reflexivity]).
Qed.

End ThroughApi.

Definition ely_ticker : Api.ticker :=
  {| Api.t_market := Some "ELYINR"%string;
     Api.t_last_price := Tracker.Num (PyFloat.of_ratio 65 100);
     Api.t_change_24h := Tracker.Absent;
     Api.t_high_24h := Tracker.Absent;
     Api.t_low_24h := Tracker.Absent;
     Api.t_volume_24h := Tracker.Absent |}.

Definition second_attempt_answers (j : nat) : Api.attempt (list Api.ticker) :=
  match j with
  | 1%nat => Api.Answer [ely_ticker]
  | _ => Api.RequestFailed
  end.

Lemma price_through_api_witness :
  Tracker.get_current_price (@Tracker.init unit)
    (Api.last_price_of
       (Api.get_ticker second_attempt_answers Api.MAX_RETRIES "ELYINR").1)
  = (PyFloat.of_ratio 65 100, Tracker.set_price (@Tracker.init unit) (PyFloat.of_ratio 65 100)).
Proof.
  pose proof (price_through_api (@Tracker.init unit) second_attempt_answers
                Api.MAX_RETRIES "ELYINR") as H.
  cbv zeta in H. destruct H as (H & _).
  apply (H 1%nat [ely_ticker] [] ely_ticker [] (PyFloat.of_ratio 65 100)).
  - unfold Api.MAX_RETRIES. lia.
  - intros j Hj. destruct j; [reflexivity | lia].
  - reflexivity.
  - reflexivity.
  - intros t Ht. apply elem_of_nil in Ht. destruct Ht.
  - reflexivity.
  - reflexivity.
Defined.

(** ** [Trader.get_account_balance], [cancel_order], [update_active_orders] *)

Module Account.

(** An entry of the reply of [/v1/balances]. *)
Record raw_balance : Set := {
  rb_currency : option string;
  rb_balance : Tracker.last_price;
  rb_locked_balance : Tracker.last_price
}.

(** The [result] dict of [get_account_balance]. *)
Record t : Set := {
  crypto_currency : string;
  crypto_avail : spec_float;
  crypto_locked : spec_float;
  fiat_currency : string;
  fiat_avail : spec_float;
  fiat_locked : spec_float
}.

(** [trading_pair[:3]] and [trading_pair[3:]]. *)
Definition crypto_code (trading_pair : string) : string := substring 0 3 trading_pair.
Definition fiat_code (trading_pair : string) : string :=
  substring 3 (String.length trading_pair - 3) trading_pair.

Definition empty (trading_pair : string) : t :=
  {| crypto_currency := crypto_code trading_pair;
     crypto_avail := S754_zero false; crypto_locked := S754_zero false;
     fiat_currency := fiat_code trading_pair;
     fiat_avail := S754_zero false; fiat_locked := S754_zero false |}.

Definition is_currency (code : string) (b : raw_balance) : bool :=
  match rb_currency b with
  | Some c => String.eqb c code
  | None => false
  end.

(** The two [float(...)] of a branch of the loop; the first that raises
    ends the call. *)
Definition numbers (b : raw_balance) : option (spec_float * spec_float) :=
  match Tracker.fetched_price (Ok (rb_balance b)) with
  | Some x =>
      match Tracker.fetched_price (Ok (rb_locked_balance b)) with
      | Some y => Some (x, y)
      | None => None
      end
  | None => None
  end.

(** The body of [for balance in balances]. *)
Definition read_entry (acc : result t) (b : raw_balance) : result t :=
  match acc with
  | Raise e => Raise e
  | Ok r =>
      if is_currency (crypto_currency r) b then
        match numbers b with
        | Some (x, y) =>
            Ok {| crypto_currency := crypto_currency r; crypto_avail := x; crypto_locked := y;
                  fiat_currency := fiat_currency r;
                  fiat_avail := fiat_avail r; fiat_locked := fiat_locked r |}
        | None => Raise ValueError
        end
      else if is_currency (fiat_currency r) b then
        match numbers b with
        | Some (x, y) =>
            Ok {| crypto_currency := crypto_currency r;
                  crypto_avail := crypto_avail r; crypto_locked := crypto_locked r;
                  fiat_currency := fiat_currency r; fiat_avail := x; fiat_locked := y |}
        | None => Raise ValueError
        end
      else Ok r
  end.

(** [get_account_balance] on the reply of [api.get_balance()]. *)
Definition get_account_balance (trading_pair : string) (reply : result (list raw_balance))
    : result t :=
  match reply with
  | Raise e => Raise e
  | Ok balances => fold_left read_entry balances (Ok (empty trading_pair))
  end.

(** The part of the result the trading engine reads. *)
Definition to_balance (r : t) : Balance :=
  {| crypto_available := crypto_avail r; fiat_available := fiat_avail r |}.

(** The reply [Trader.get_account_balance] makes of the exchange's. *)
Definition balance_reply_of (trading_pair : string) (reply : result (list raw_balance))
    : result Balance :=
  match get_account_balance trading_pair reply with
  | Ok r => Ok (to_balance r)
  | Raise e => Raise e
  end.

End Account.

Module Orders.

(** [cancel_order(order_id)]: the exchange first, then the record. *)
Definition cancel_order (tr : Trader.t) (reply : result unit) (order_id : string)
    : result unit * Trader.t :=
  match reply with
  | Raise e => (Raise e, tr)
  | Ok _ =>
      (Ok tt,
       {| Trader.active_orders :=
            alter (Trader.set_status (Some "cancelled"%string)) order_id
              (Trader.active_orders tr) |})
  end.

(** The replies of a cycle in which only the status of an order is asked. *)
Definition status_only (r : result (option string)) : replies :=
  {| status_reply := r; balance_reply := Raise ApiError;
     order_reply := Raise ApiError; now := 0 |}.

(** What [update_active_orders] returns, with the ids whose poll raised
    and was logged. *)
Record updated : Type := {
  completed : list Trader.OrderRecord;
  active : list Trader.OrderRecord;
  failed : list string
}.

(** The body of the loop of [update_active_orders] for the item
    [(order_id, order_info)] of the snapshot; [exchange] answers a status
    poll by order id. *)
Definition update_item (exchange : string -> result (option string))
    (acc : Trader.t * updated) (item : string * Trader.OrderRecord) : Trader.t * updated :=
  let '(tr, u) := acc in
  let '(order_id, order_info) := item in
  if negb (Trader.terminal_status (Trader.o_status order_info)) then
    match Trader.get_order_status tr (status_only (exchange order_id)) order_id with
    | (Raise _, tr', _) =>
        (tr', {| completed := completed u; active := active u;
                 failed := failed u ++ [order_id] |})
    | (Ok st, tr', _) =>
        let tr'' := {| Trader.active_orders :=
                         alter (Trader.set_status st) order_id (Trader.active_orders tr') |} in
        let record := Trader.set_status st order_info in
        if Trader.terminal_status st then
          (tr'', {| completed := completed u ++ [record]; active := active u;
                    failed := failed u |})
        else
          (tr'', {| completed := completed u; active := active u ++ [record];
                    failed := failed u |})
    end
  else
    (tr, {| completed := completed u ++ [order_info]; active := active u;
            failed := failed u |}).

(** [update_active_orders], over the items of the snapshot in no
    particular order. *)
Definition update_active_orders (exchange : string -> result (option string))
    (tr : Trader.t) : Trader.t * updated :=
  fold_left (update_item exchange) (map_to_list (Trader.active_orders tr))
    (tr, {| completed := []; active := []; failed := [] |}).

End Orders.

(** ** The account balance read from the exchange's reply *)

Section AccountBalance.
Implicit Types (pair : string) (b : Account.raw_balance) (r : Account.t).

Lemma substring_split (n : nat) (s : string) :
  (substring 0 n s ++ substring n (String.length s - n) s)%string = s.
Proof.
  revert s. induction n as [|n IH]; intros s.
  - simpl. rewrite Nat.sub_0_r.
    assert (H : forall t, substring 0 (String.length t) t = t).
    { induction t as [|c t IHt]; [reflexivity|]. simpl. rewrite IHt. reflexivity. }
    destruct s; [reflexivity|]. rewrite H. reflexivity.
  - destruct s as [|c s]; [reflexivity|].
    change (String c (substring 0 n s ++ substring n (String.length s - n) s)%string
            = String c s).
    f_equal. apply IH.
Qed.

Lemma substring_length (n : nat) (s : string) :
  String.length (substring 0 n s) = Nat.min n (String.length s).
Proof.
  revert s. induction n as [|n IH]; intros s.
  - destruct s; reflexivity.
  - destruct s as [|c s]; [reflexivity|]. simpl. rewrite IH. reflexivity.
Qed.

(** The codes of the result are the two slices of the pair all along. *)
Definition codes_of pair r : Prop :=
  Account.crypto_currency r = Account.crypto_code pair
  /\ Account.fiat_currency r = Account.fiat_code pair.

Lemma read_entry_codes pair r b r' :
  codes_of pair r -> Account.read_entry (Ok r) b = Ok r' -> codes_of pair r'.
Proof.
  intros [Hc Hf]. unfold Account.read_entry.
  destruct (Account.is_currency _ b); [|destruct (Account.is_currency _ b)];
    try destruct (Account.numbers b) as [[x y]|]; intros H; inversion H; subst;
    split; assumption.
Qed.

Lemma fold_read_entry_raise (balances : list Account.raw_balance) (e : exn) :
  fold_left Account.read_entry balances (Raise e) = Raise e.
Proof. induction balances as [|b l IH]; [reflexivity | exact IH]. Qed.

(** A fold that ends well went well at every entry. *)
Lemma fold_read_entry_ok (balances : list Account.raw_balance) :
  forall r0 r,
    fold_left Account.read_entry balances (Ok r0) = Ok r ->
    forall (P : Account.t -> Prop),
      P r0 ->
      (forall r1 b r2, b ∈ balances -> P r1 -> Account.read_entry (Ok r1) b = Ok r2 -> P r2) ->
      P r.
Proof.
  induction balances as [|b l IH]; intros r0 r Hfold P H0 Hstep.
  - injection Hfold as <-. exact H0.
  - cbn [fold_left] in Hfold. destruct (Account.read_entry (Ok r0) b) as [r1 | e] eqn:E.
    + apply (IH r1 r Hfold P).
      * apply (Hstep r0 b r1); [apply elem_of_cons; left; reflexivity | exact H0 | exact E].
      * intros r2 b' r3 Hin. apply Hstep. apply elem_of_cons. right. exact Hin.
    + rewrite fold_read_entry_raise in Hfold. discriminate.
Qed.

Lemma spend_of_nothing :
  PyFloat.fgt (AutoTrader.spend (S754_zero false)) AutoTrader.c10 = false.
Proof. vm_compute. reflexivity. Qed.

(** X11. The pair is cut at a fixed width: the crypto code is its first
    three characters and the fiat code the rest, whatever the pair.  When
    the reply of the exchange has no entry for the fiat code - or the two
    codes are the same, so that an entry is read as crypto - the fiat
    available is 0, and a FLAT engine given that balance places no order
    and stays as it is, at any price. *)
Theorem balance_without_fiat_never_buys pair (balances : list Account.raw_balance) r
    (a : AutoTrader.t) (ex : replies) (p : spec_float) :
  Account.get_account_balance pair (Ok balances) = Ok r ->
  (forall b, b ∈ balances ->
     Account.is_currency (Account.fiat_code pair) b = true ->
     Account.is_currency (Account.crypto_code pair) b = true) ->
  AutoTrader.state_of a = AutoTrader.FLAT ->
  balance_reply ex = Account.balance_reply_of pair (Ok balances) ->
  (Account.crypto_code pair ++ Account.fiat_code pair)%string = pair
  /\ String.length (Account.crypto_code pair) = Nat.min 3 (String.length pair)
  /\ Account.fiat_avail r = S754_zero false
  /\ (AutoTrader.check_price_and_trade a ex p).1 = a
  /\ orders_in (AutoTrader.check_price_and_trade a ex p).2 = [].
Proof.
  intros Hget Hshadow Hflat Hreply.
  split; [apply substring_split|]. split; [apply substring_length|].
  assert (Hfiat : Account.fiat_avail r = S754_zero false).
  { unfold Account.get_account_balance in Hget.
    apply (fold_read_entry_ok balances _ r Hget
             (fun r' => codes_of pair r' /\ Account.fiat_avail r' = S754_zero false)).
    - split; [split; reflexivity | reflexivity].
    - intros r1 b r2 Hin [Hc Hz] Hread. split; [apply (read_entry_codes pair r1 b r2 Hc Hread)|].
      destruct Hc as [Hcc Hfc]. unfold Account.read_entry in Hread. rewrite Hcc, Hfc in Hread.
      destruct (Account.is_currency (Account.crypto_code pair) b) eqn:E1.
      + destruct (Account.numbers b) as [[x y]|]; inversion Hread; subst. exact Hz.
      + destruct (Account.is_currency (Account.fiat_code pair) b) eqn:E2.
        * rewrite (Hshadow b Hin E2) in E1. discriminate.
        * inversion Hread; subst. exact Hz. }
  split; [exact Hfiat|].
  unfold Account.balance_reply_of in Hreply. rewrite Hget in Hreply.
  destruct (state_flat a Hflat) as [Hpos Hid].
  unfold AutoTrader.check_price_and_trade. rewrite (poll_order_idle a ex Hid).
  unfold AutoTrader.place_order. rewrite Hpos, Hid. simpl.
  destruct (PyFloat.fle p (AutoTrader.buy_price a)); [|split; reflexivity].
  unfold AutoTrader.try_buy, Trader.get_account_balance. rewrite Hreply. simpl.
  rewrite Hfiat, spend_of_nothing. split; reflexivity.
Qed.

(** X12. Of several entries for the crypto code the last one counts: when
    every entry is read without an exception, the crypto available and
    locked are the numbers of the last entry whose currency is the crypto
    code. *)
Theorem last_crypto_entry_counts pair (pre post : list Account.raw_balance) b r
    (x y : spec_float) :
  Account.get_account_balance pair (Ok (pre ++ b :: post)) = Ok r ->
  Account.is_currency (Account.crypto_code pair) b = true ->
  Account.numbers b = Some (x, y) ->
  (forall b', b' ∈ post -> Account.is_currency (Account.crypto_code pair) b' = false) ->
  Account.crypto_avail r = x /\ Account.crypto_locked r = y.
Proof.
  intros Hget Hb Hnum Hpost. unfold Account.get_account_balance in Hget.
  rewrite fold_left_app in Hget. cbn [fold_left] in Hget.
  destruct (fold_left Account.read_entry pre (Ok (Account.empty pair))) as [r0 | e] eqn:Epre.
  2: { change (Account.read_entry (Raise e) b) with (@Raise Account.t e) in Hget.
       rewrite fold_read_entry_raise in Hget. discriminate. }
  assert (Hc0 : codes_of pair r0).
  { apply (fold_read_entry_ok pre _ r0 Epre (codes_of pair)); [split; reflexivity|].
    intros r1 b1 r2 _ H1 H2. apply (read_entry_codes pair r1 b1 r2 H1 H2). }
  destruct (Account.read_entry (Ok r0) b) as [r1 | e] eqn:Eb.
  2: { rewrite fold_read_entry_raise in Hget. discriminate. }
  assert (H1 : codes_of pair r1 /\ Account.crypto_avail r1 = x /\ Account.crypto_locked r1 = y).
  { split; [apply (read_entry_codes pair r0 b r1 Hc0 Eb)|].
    unfold Account.read_entry in Eb. destruct Hc0 as [Hcc _]. rewrite Hcc, Hb, Hnum in Eb.
    inversion Eb; subst. split; reflexivity. }
  apply (fold_read_entry_ok post _ r Hget
           (fun r' => codes_of pair r' /\ Account.crypto_avail r' = x
                      /\ Account.crypto_locked r' = y)) in H1; [tauto|].
  intros r2 b' r3 Hin (Hc & Hx & Hy) Hread.
  split; [apply (read_entry_codes pair r2 b' r3 Hc Hread)|].
  unfold Account.read_entry in Hread. destruct Hc as [Hcc Hfc]. rewrite Hcc, Hfc in Hread.
  rewrite (Hpost b' Hin) in Hread.
  destruct (Account.is_currency (Account.fiat_code pair) b');
    [destruct (Account.numbers b') as [[x' y']|]|]; inversion Hread; subst r3; simpl;
    split; assumption.
Qed.

End AccountBalance.

(** ** The order book: [cancel_order] and [update_active_orders] *)

Section OrderBook.
Variable exchange : string -> result (option string).
Implicit Types (tr : Trader.t) (u : Orders.updated) (r : Trader.OrderRecord) (k : string).
Implicit Types (items : list (string * Trader.OrderRecord)).

Definition is_terminal r : bool := Trader.terminal_status (Trader.o_status r).

(** What a pass makes of the record [r] kept under [k]. *)
Definition refreshed k r : Trader.OrderRecord :=
  if is_terminal r then r
  else match exchange k with
       | Ok st => Trader.set_status st r
       | Raise _ => r
       end.

Definition answered (item : string * Trader.OrderRecord) : bool :=
  is_terminal item.2 || is_ok (exchange item.1).

Definition reported items : list Trader.OrderRecord :=
  List.map (fun i => refreshed i.1 i.2) (List.filter answered items).

Definition unanswered items : list string :=
  List.map fst (List.filter (fun i => negb (answered i)) items).

Lemma update_item_report tr u k r :
  (Orders.update_item exchange (tr, u) (k, r)).2
  = {| Orders.completed := Orders.completed u ++ List.filter is_terminal (reported [(k, r)]);
       Orders.active :=
         Orders.active u ++ List.filter (fun x => negb (is_terminal x)) (reported [(k, r)]);
       Orders.failed := Orders.failed u ++ unanswered [(k, r)] |}.
Proof.
  assert (Hset : forall st, is_terminal (Trader.set_status st r) = Trader.terminal_status st)
    by reflexivity.
  unfold Orders.update_item, reported, unanswered, answered, Trader.get_order_status,
    Orders.status_only.
  cbn [List.filter List.map fst snd status_reply]. fold (is_terminal r).
  destruct (is_terminal r) eqn:Et; cbn [negb orb List.map List.filter fst snd].
  - unfold refreshed. rewrite !Et. cbn [negb]. rewrite !app_nil_r. destruct u; reflexivity.
  - destruct (exchange k) as [st | e] eqn:Ex; cbn [is_ok negb List.map List.filter fst snd].
    + unfold refreshed. rewrite !Et, !Ex, !Hset.
      destruct (Trader.terminal_status st); cbn [negb snd]; rewrite ?app_nil_r; reflexivity.
    + rewrite !app_nil_r. reflexivity.
Qed.

Lemma update_item_records tr u k r :
  Trader.active_orders tr !! k = Some r ->
  Trader.active_orders (Orders.update_item exchange (tr, u) (k, r)).1 !! k
    = Some (refreshed k r)
  /\ forall j, j <> k ->
       Trader.active_orders (Orders.update_item exchange (tr, u) (k, r)).1 !! j
       = Trader.active_orders tr !! j.
Proof.
  intros Hk.
  unfold Orders.update_item, refreshed, Trader.get_order_status, Orders.status_only.
  cbn [status_reply]. fold (is_terminal r).
  destruct (is_terminal r); cbn [negb].
  - split; [exact Hk | reflexivity].
  - destruct (exchange k) as [st | e].
    + assert (Hmap : forall m, Trader.active_orders
               (if Trader.terminal_status st
                then ({| Trader.active_orders := m |},
                      {| Orders.completed := Orders.completed u ++ [Trader.set_status st r];
                         Orders.active := Orders.active u; Orders.failed := Orders.failed u |})
                else ({| Trader.active_orders := m |},
                      {| Orders.completed := Orders.completed u;
                         Orders.active := Orders.active u ++ [Trader.set_status st r];
                         Orders.failed := Orders.failed u |})).1 = m).
      { intros m. destruct (Trader.terminal_status st); reflexivity. }
      cbn [Trader.active_orders]. rewrite Hmap. split.
      * rewrite !lookup_alter_eq, Hk. reflexivity.
      * intros j Hj. rewrite !lookup_alter_ne by congruence. reflexivity.
    + split; [exact Hk | reflexivity].
Qed.

Lemma update_fold items :
  NoDup items.*1 ->
  forall tr u,
    (forall k r, (k, r) ∈ items -> Trader.active_orders tr !! k = Some r) ->
    (forall k r, (k, r) ∈ items ->
       Trader.active_orders (fold_left (Orders.update_item exchange) items (tr, u)).1 !! k
       = Some (refreshed k r))
    /\ (forall j, j ∉ items.*1 ->
          Trader.active_orders (fold_left (Orders.update_item exchange) items (tr, u)).1 !! j
          = Trader.active_orders tr !! j)
    /\ (fold_left (Orders.update_item exchange) items (tr, u)).2
       = {| Orders.completed := Orders.completed u ++ List.filter is_terminal (reported items);
            Orders.active :=
              Orders.active u ++ List.filter (fun x => negb (is_terminal x)) (reported items);
            Orders.failed := Orders.failed u ++ unanswered items |}.
Proof.
  induction items as [|[k r] items IH]; intros Hnd tr u Hin.
  - split; [|split].
    + intros k r H. apply elem_of_nil in H. destruct H.
    + reflexivity.
    + cbn. rewrite !app_nil_r. destruct u; reflexivity.
  - cbn [fmap list_fmap fst] in Hnd. apply NoDup_cons in Hnd. destruct Hnd as [Hk Hnd].
    cbn [fold_left].
    assert (Hkr : Trader.active_orders tr !! k = Some r).
    { apply Hin. apply elem_of_cons. left. reflexivity. }
    destruct (update_item_records tr u k r Hkr) as [Hsame Hother].
    pose proof (update_item_report tr u k r) as Hrep.
    destruct (Orders.update_item exchange (tr, u) (k, r)) as [tr1 u1].
    cbn [fst snd] in Hsame, Hother, Hrep.
    assert (Hin1 : forall k' r', (k', r') ∈ items ->
                     Trader.active_orders tr1 !! k' = Some r').
    { intros k' r' H. rewrite Hother.
      - apply Hin. apply elem_of_cons. right. exact H.
      - intros ->. apply Hk. apply list_elem_of_fmap. exists (k, r'). split; [reflexivity | exact H]. }
    destruct (IH Hnd tr1 u1 Hin1) as (IH1 & IH2 & IH3).
    split; [|split].
    + intros k' r' H. apply elem_of_cons in H. destruct H as [H | H].
      * injection H as -> ->. rewrite (IH2 k Hk). exact Hsame.
      * apply IH1. exact H.
    + intros j Hj. cbn [fmap list_fmap fst] in Hj. apply not_elem_of_cons in Hj.
      destruct Hj as [Hjk Hj]. rewrite (IH2 j Hj). apply Hother. exact Hjk.
    + rewrite IH3, Hrep. cbn [Orders.completed Orders.active Orders.failed].
      change ((k, r) :: items) with ([(k, r)] ++ items).
      unfold reported, unanswered.
      rewrite !List.filter_app, !List.map_app, !List.filter_app, <- !app_assoc. reflexivity.
Qed.

Lemma update_active_orders_lookup tr k :
  Trader.active_orders (Orders.update_active_orders exchange tr).1 !! k
  = refreshed k <$> Trader.active_orders tr !! k.
Proof.
  unfold Orders.update_active_orders.
  destruct (update_fold (map_to_list (Trader.active_orders tr))
              (NoDup_fst_map_to_list _) tr
              {| Orders.completed := []; Orders.active := []; Orders.failed := [] |})
    as (H1 & H2 & _).
  { intros k' r' H. apply elem_of_map_to_list in H. exact H. }
  destruct (Trader.active_orders tr !! k) as [r|] eqn:E.
  - apply H1. apply elem_of_map_to_list. exact E.
  - rewrite H2; [exact E|]. intros H. apply list_elem_of_fmap in H.
    destruct H as ([k' r'] & -> & H). apply elem_of_map_to_list in H.
    cbn in E. congruence.
Qed.

Lemma refreshed_twice k r : refreshed k (refreshed k r) = refreshed k r.
Proof.
  unfold refreshed. destruct (is_terminal r) eqn:Et; [rewrite Et; reflexivity|].
  destruct (exchange k) as [st | e]; [|rewrite Et; reflexivity].
  unfold is_terminal. cbn [Trader.set_status Trader.o_status].
  destruct (Trader.terminal_status st); reflexivity.
Qed.

End OrderBook.

Lemma get_active_orders_elem (tr : Trader.t) (x : Trader.OrderRecord) :
  x ∈ Trader.get_active_orders tr
  <-> exists j, Trader.active_orders tr !! j = Some x /\ is_terminal x = false.
Proof.
  unfold Trader.get_active_orders. rewrite list_elem_of_In, filter_In, <- list_elem_of_In.
  rewrite list_elem_of_fmap. fold (is_terminal x). split.
  - intros [([j y] & -> & Hin) Ht]. exists j. apply elem_of_map_to_list in Hin.
    split; [exact Hin | apply negb_true_iff; exact Ht].
  - intros (j & Hj & Ht). split; [|apply negb_true_iff; exact Ht].
    exists (j, x). split; [reflexivity | apply elem_of_map_to_list; exact Hj].
Qed.

(** X13. A pass of [update_active_orders] leaves every key of the order
    book in place, rewrites the status of each open order with the
    exchange's answer, and leaves a filled or cancelled record and a
    record whose poll raised as they were.  A second pass against the
    same answers changes nothing. *)
Theorem update_active_orders_refreshes (exchange : string -> result (option string))
    (tr : Trader.t) :
  (forall k, Trader.active_orders (Orders.update_active_orders exchange tr).1 !! k
             = refreshed exchange k <$> Trader.active_orders tr !! k)
  /\ dom (Trader.active_orders (Orders.update_active_orders exchange tr).1)
     = dom (Trader.active_orders tr)
  /\ (Orders.update_active_orders exchange
        (Orders.update_active_orders exchange tr).1).1
     = (Orders.update_active_orders exchange tr).1.
Proof.
  split; [apply update_active_orders_lookup|]. split.
  - apply set_eq. intros k. rewrite !elem_of_dom, update_active_orders_lookup.
    destruct (Trader.active_orders tr !! k); cbn; split; intros [x H]; try discriminate;
      eexists; reflexivity.
  - assert (H : forall a b : Trader.t,
               Trader.active_orders a = Trader.active_orders b -> a = b).
    { intros [a] [b] E. cbn in E. rewrite E. reflexivity. }
    apply H. apply map_eq. intros k. rewrite !update_active_orders_lookup.
    destruct (Trader.active_orders tr !! k) as [r|]; cbn; [|reflexivity].
    rewrite refreshed_twice. reflexivity.
Qed.

(** X14. The report of [update_active_orders]: [completed] holds exactly
    the records that are filled or cancelled after the pass, [active]
    exactly the open records whose poll was answered, and an order whose
    poll raised is in neither list although it is still open in the order
    book; every order is accounted for once. *)
Theorem update_active_orders_report (exchange : string -> result (option string))
    (tr : Trader.t) :
  let tr' := (Orders.update_active_orders exchange tr).1 in
  let u := (Orders.update_active_orders exchange tr).2 in
  (forall x, x ∈ Orders.completed u
             <-> exists k, Trader.active_orders tr' !! k = Some x /\ is_terminal x = true)
  /\ (forall x, x ∈ Orders.active u
                <-> exists k, Trader.active_orders tr' !! k = Some x
                              /\ is_terminal x = false /\ is_ok (exchange k) = true)
  /\ (forall k, k ∈ Orders.failed u
                <-> exists x, Trader.active_orders tr' !! k = Some x
                              /\ is_terminal x = false /\ is_ok (exchange k) = false)
  /\ (length (Orders.completed u) + length (Orders.active u) + length (Orders.failed u)
      = size (Trader.active_orders tr))%nat.
Proof.
  intros tr' u.
  assert (Hlook : forall k, Trader.active_orders tr' !! k
                            = refreshed exchange k <$> Trader.active_orders tr !! k).
  { apply update_active_orders_lookup. }
  assert (Hu : u = {| Orders.completed :=
                        List.filter is_terminal
                          (reported exchange (map_to_list (Trader.active_orders tr)));
                      Orders.active :=
                        List.filter (fun x => negb (is_terminal x))
                          (reported exchange (map_to_list (Trader.active_orders tr)));
                      Orders.failed :=
                        unanswered exchange (map_to_list (Trader.active_orders tr)) |}).
  { unfold u, Orders.update_active_orders.
    destruct (update_fold exchange (map_to_list (Trader.active_orders tr))
                (NoDup_fst_map_to_list _) tr
                {| Orders.completed := []; Orders.active := []; Orders.failed := [] |})
      as (_ & _ & H3).
    - intros k' r' H. apply elem_of_map_to_list in H. exact H.
    - rewrite H3. reflexivity. }
  assert (Hrep : forall x, In x (reported exchange (map_to_list (Trader.active_orders tr)))
                 <-> exists k r, Trader.active_orders tr !! k = Some r
                                 /\ x = refreshed exchange k r
                                 /\ answered exchange (k, r) = true).
  { intros x. unfold reported. rewrite in_map_iff. split.
    - intros ([k r] & <- & Hin). apply filter_In in Hin. destruct Hin as [Hin Ha].
      exists k, r. apply list_elem_of_In, elem_of_map_to_list in Hin. auto.
    - intros (k & r & Hk & -> & Ha). exists (k, r). split; [reflexivity|].
      apply filter_In. split; [|exact Ha].
      apply list_elem_of_In, elem_of_map_to_list. exact Hk. }
  assert (Hraise : forall k r, is_terminal r = false -> is_ok (exchange k) = false ->
                               refreshed exchange k r = r).
  { intros k r Ht Ho. unfold refreshed. rewrite Ht.
    destruct (exchange k); [discriminate | reflexivity]. }
  assert (Hterm : forall k r, is_terminal r = true -> refreshed exchange k r = r).
  { intros k r Ht. unfold refreshed. rewrite Ht. reflexivity. }
  rewrite Hu. cbn [Orders.completed Orders.active Orders.failed].
  split; [|split; [|split]].
  - intros x. rewrite list_elem_of_In, filter_In, Hrep. split.
    + intros [(k & r & Hk & -> & _) Ht]. exists k. rewrite Hlook, Hk. auto.
    + intros (k & Hk & Ht). rewrite Hlook in Hk.
      destruct (Trader.active_orders tr !! k) as [r|] eqn:E; [|discriminate].
      injection Hk as <-. split; [|exact Ht]. exists k, r. split; [exact E|].
      split; [reflexivity|]. unfold answered. cbn [fst snd].
      destruct (is_terminal r) eqn:Er; [reflexivity|].
      destruct (is_ok (exchange k)) eqn:Eo; [reflexivity|].
      rewrite (Hraise k r Er Eo) in Ht. congruence.
  - intros x. rewrite list_elem_of_In, filter_In, Hrep. split.
    + intros [(k & r & Hk & -> & Ha) Ht]. apply negb_true_iff in Ht.
      exists k. rewrite Hlook, Hk. split; [reflexivity|]. split; [exact Ht|].
      unfold answered in Ha. cbn [fst snd] in Ha.
      destruct (is_terminal r) eqn:Er; [|exact Ha].
      rewrite (Hterm k r Er) in Ht. congruence.
    + intros (k & Hk & Ht & Ho). rewrite Hlook in Hk.
      destruct (Trader.active_orders tr !! k) as [r|] eqn:E; [|discriminate].
      injection Hk as <-. split; [|apply negb_true_iff; exact Ht].
      exists k, r. split; [exact E|]. split; [reflexivity|].
      unfold answered. cbn [fst snd]. rewrite Ho. apply orb_true_r.
  - intros k. unfold unanswered. rewrite list_elem_of_In, in_map_iff. split.
    + intros ([k' r] & <- & Hin). apply filter_In in Hin. destruct Hin as [Hin Ha].
      apply list_elem_of_In, elem_of_map_to_list in Hin.
      apply negb_true_iff, orb_false_iff in Ha. cbn [fst snd] in Ha. destruct Ha as [Ht Ho].
      exists r. cbn [fst]. rewrite Hlook, Hin. cbn. rewrite (Hraise k' r Ht Ho). auto.
    + intros (x & Hk & Ht & Ho). rewrite Hlook in Hk.
      destruct (Trader.active_orders tr !! k) as [r|] eqn:E; [|discriminate].
      injection Hk as <-.
      assert (Er : is_terminal r = false).
      { destruct (is_terminal r) eqn:Er; [|reflexivity].
        rewrite (Hterm k r Er) in Ht. congruence. }
      exists (k, r). split; [reflexivity|]. apply filter_In. split.
      * apply list_elem_of_In, elem_of_map_to_list. exact E.
      * unfold answered. cbn [fst snd]. rewrite Er, Ho. reflexivity.
  - rewrite <- length_map_to_list.
    generalize (map_to_list (Trader.active_orders tr)). intros items.
    unfold reported, unanswered.
    induction items as [|i items IH]; [reflexivity|].
    cbn [List.filter]. destruct (answered exchange i); cbn [negb List.map List.filter length].
    + destruct (is_terminal (refreshed exchange i.1 i.2)); cbn [negb length]; lia.
    + lia.
Qed.

(** X15. [cancel_order]: when the exchange accepts the cancellation of a
    tracked order, its record becomes cancelled and the other records are
    untouched; the order is no longer among [get_active_orders], and a
    later pass of [update_active_orders] keeps it cancelled whatever the
    exchange would answer about it.  When the call raises, the order book
    is as before. *)
Theorem cancelled_order_stays_cancelled (tr : Trader.t) (order_id : string)
    (r : Trader.OrderRecord) (exchange : string -> result (option string)) :
  Trader.active_orders tr !! order_id = Some r ->
  let tr' := (Orders.cancel_order tr (Ok tt) order_id).2 in
  Trader.active_orders tr' !! order_id
    = Some (Trader.set_status (Some "cancelled"%string) r)
  /\ (forall j, j <> order_id ->
        Trader.active_orders tr' !! j = Trader.active_orders tr !! j)
  /\ (forall x, x ∈ Trader.get_active_orders tr' ->
        exists j, j <> order_id /\ Trader.active_orders tr !! j = Some x)
  /\ Trader.active_orders (Orders.update_active_orders exchange tr').1 !! order_id
     = Some (Trader.set_status (Some "cancelled"%string) r)
  /\ (forall e, (Orders.cancel_order tr (Raise e) order_id).2 = tr).
Proof.
  intros Hr tr'.
  assert (H1 : Trader.active_orders tr' !! order_id
               = Some (Trader.set_status (Some "cancelled"%string) r)).
  { unfold tr', Orders.cancel_order. cbn [snd Trader.active_orders].
    rewrite lookup_alter_eq, Hr. reflexivity. }
  assert (H2 : forall j, j <> order_id ->
                 Trader.active_orders tr' !! j = Trader.active_orders tr !! j).
  { intros j Hj. unfold tr', Orders.cancel_order. cbn [snd Trader.active_orders].
    rewrite lookup_alter_ne by congruence. reflexivity. }
  split; [exact H1|]. split; [exact H2|]. split; [|split].
  - intros x Hx. apply get_active_orders_elem in Hx. destruct Hx as (j & Hj & Ht).
    exists j. destruct (decide (j = order_id)) as [-> | Hne].
    + rewrite H1 in Hj. injection Hj as <-. discriminate Ht.
    + split; [exact Hne|]. rewrite <- (H2 j Hne). exact Hj.
  - rewrite update_active_orders_lookup, H1. reflexivity.
  - reflexivity.
Qed.

Definition one_open_order : Trader.t :=
  {| Trader.active_orders :=
       {[ "42"%string :=
            Trader.new_record Buy (PyFloat.of_ratio 13 20) (PyFloat.of_Z 100) 1700000000 ]} |}.

Lemma cancelled_order_stays_cancelled_witness :
  Trader.active_orders
    (Orders.update_active_orders (fun _ => Ok (Some "filled"%string))
       (Orders.cancel_order one_open_order (Ok tt) "42"%string).2).1 !! "42"%string
  = Some (Trader.set_status (Some "cancelled"%string)
            (Trader.new_record Buy (PyFloat.of_ratio 13 20) (PyFloat.of_Z 100) 1700000000)).
Proof.
  apply (cancelled_order_stays_cancelled one_open_order "42"%string
           (Trader.new_record Buy (PyFloat.of_ratio 13 20) (PyFloat.of_Z 100) 1700000000)
           (fun _ => Ok (Some "filled"%string))).
  unfold one_open_order. cbn [Trader.active_orders]. apply lookup_singleton_eq.
Defined.

Definition entry (code : string) (amount : Z) : Account.raw_balance :=
  {| Account.rb_currency := Some code;
     Account.rb_balance := Tracker.Num (PyFloat.of_Z amount);
     Account.rb_locked_balance := Tracker.Absent |}.

Definition replies_from (pair : string) (raw : list Account.raw_balance) : replies :=
  {| status_reply := Raise ApiError;
     balance_reply := Account.balance_reply_of pair (Ok raw);
     order_reply := Ok (Some "o1"%string);
     now := 1700000000 |}.

Lemma balance_without_fiat_never_buys_witness :
  exists r,
    Account.get_account_balance "ELYINR" (Ok [entry "ELY" 5]) = Ok r
    /\ ("ELY" ++ "INR")%string = "ELYINR"%string
    /\ Account.fiat_avail r = S754_zero false
    /\ orders_in (AutoTrader.check_price_and_trade fresh
                    (replies_from "ELYINR" [entry "ELY" 5]) (PyFloat.of_ratio 3 5)).2 = [].
Proof.
  eexists. split; [vm_compute; reflexivity|].
  pose proof (balance_without_fiat_never_buys "ELYINR" [entry "ELY" 5] _ fresh
                (replies_from "ELYINR" [entry "ELY" 5]) (PyFloat.of_ratio 3 5)
                eq_refl) as H.
  destruct H as (H1 & _ & H3 & _ & H5).
  - intros b Hb _. apply list_elem_of_singleton in Hb. subst b. reflexivity.
  - reflexivity.
  - reflexivity.
  - split; [exact H1|]. split; [exact H3 | exact H5].
Defined.

Lemma last_crypto_entry_counts_witness :
  exists r,
    Account.get_account_balance "ELYINR" (Ok ([entry "ELY" 1] ++ entry "ELY" 5 :: [entry "INR" 100]))
    = Ok r
    /\ Account.crypto_avail r = PyFloat.of_Z 5
    /\ Account.crypto_locked r = S754_zero false.
Proof.
  eexists. split; [vm_compute; reflexivity|].
  apply (last_crypto_entry_counts "ELYINR" [entry "ELY" 1] [entry "INR" 100] (entry "ELY" 5)).
  - vm_compute. reflexivity.
  - reflexivity.
  - reflexivity.
  - intros b Hb. apply list_elem_of_singleton in Hb. subst b. reflexivity.
Defined.

(** ** The pending order of the engine and its record *)

Section PendingOrder.
Implicit Types (a : AutoTrader.t) (ex : replies) (p : spec_float) (s : side).

(** The side of the order the engine waits for. *)
Definition waiting_side a : side := if AutoTrader.in_position a then Sell else Buy.

(** The pending order has a record, which is open and of the side the
    engine waits for; for a buy the engine remembers its price. *)
Definition pending_tracked a : Prop :=
  forall id, AutoTrader.current_order_id a = Some id -> truthy_id (Some id) = true ->
    exists r, tracked a !! id = Some r
              /\ is_terminal r = false
              /\ Trader.o_type r = waiting_side a
              /\ (AutoTrader.in_position a = false ->
                  AutoTrader.buy_order_price a = Some (Trader.o_price r)).

(** An order of side [s] was accepted at price [p] in going from [a] to
    [a']. *)
Definition placed_as s p a a' : Prop :=
  exists (id : option string) (q : spec_float) (ts : Z),
    tracked a' = Trader.active_orders
                   (Trader.store_order (AutoTrader.trader a) id (Trader.new_record s p q ts))
    /\ AutoTrader.current_order_id a' = id
    /\ AutoTrader.in_position a' = AutoTrader.in_position a
    /\ (s = Buy -> AutoTrader.buy_order_price a' = Some p).

Lemma try_buy_placed a ex p :
  (AutoTrader.try_buy a ex p).1 = a \/ placed_as Buy p a (AutoTrader.try_buy a ex p).1.
Proof.
  unfold AutoTrader.try_buy, Trader.get_account_balance.
  destruct (balance_reply ex) as [bal | e]; simpl; [|left; reflexivity].
  destruct (PyFloat.fgt _ _); simpl; [|left; reflexivity].
  unfold Trader.place_buy_order.
  destruct (Trader.buy_quantity _ p) as [q | e]; simpl; [|left; apply set_trader_same].
  unfold Trader.submit. destruct (order_reply ex) as [id | e]; simpl;
    [|left; apply set_trader_same].
  right. destruct (PyFloat.truediv _ p); simpl; exists id, q, (now ex); repeat split.
Qed.

Lemma try_sell_placed a ex p :
  (AutoTrader.try_sell a ex p).1 = a \/ placed_as Sell p a (AutoTrader.try_sell a ex p).1.
Proof.
  unfold AutoTrader.try_sell, Trader.get_account_balance.
  destruct (balance_reply ex) as [bal | e]; simpl; [|left; reflexivity].
  destruct (PyFloat.fgt _ _); simpl; [|left; reflexivity].
  unfold Trader.place_sell_order, Trader.submit.
  destruct (order_reply ex) as [id | e]; simpl; [|left; apply set_trader_same].
  right. exists id, (crypto_available bal), (now ex). repeat split. discriminate.
Qed.

Lemma place_order_placed a ex p :
  (AutoTrader.place_order a ex p).1 = a
  \/ placed_as (waiting_side a) p a (AutoTrader.place_order a ex p).1.
Proof.
  unfold AutoTrader.place_order, waiting_side.
  destruct (AutoTrader.in_position a), (truthy_id (AutoTrader.current_order_id a)); simpl;
    try (left; reflexivity).
  - destruct (PyFloat.fge _ _); [apply try_sell_placed | left; reflexivity].
  - destruct (PyFloat.fle _ _); [apply try_buy_placed | left; reflexivity].
Qed.

Lemma placed_as_pending s p a a' :
  s = waiting_side a -> placed_as s p a a' -> pending_tracked a'.
Proof.
  intros Hs (id & q & ts & Htr & Hcur & Hpos & Hbuy) k Hk Ht.
  subst id. rewrite Htr. unfold Trader.store_order. rewrite Hk, Ht.
  cbn [Trader.active_orders]. rewrite lookup_insert_eq.
  eexists. split; [reflexivity|]. split; [reflexivity|]. split.
  - unfold waiting_side. rewrite Hpos. exact Hs.
  - intros Hflat. cbn [Trader.new_record Trader.o_price]. apply Hbuy.
    rewrite Hs. unfold waiting_side. rewrite <- Hpos, Hflat. reflexivity.
Qed.

Lemma pending_tracked_init (buy sell : option spec_float) :
  pending_tracked (AutoTrader.init buy sell).
Proof. intros id H. discriminate H. Qed.

Lemma poll_order_pending a ex :
  pending_tracked a -> pending_tracked (AutoTrader.poll_order a ex).1.1.
Proof.
  intros Hinv.
  destruct (truthy_id (AutoTrader.current_order_id a)) eqn:Ht.
  2: { rewrite (poll_order_idle a ex Ht). exact Hinv. }
  destruct (AutoTrader.current_order_id a) as [id0|] eqn:Hid; [|discriminate].
  destruct (status_reply ex) as [st | e] eqn:Hst.
  2: { rewrite (poll_order_raised a ex id0 e Hid Ht Hst). exact Hinv. }
  rewrite (poll_order_answered a ex id0 st Hid Ht Hst). cbn [fst].
  destruct (Trader.terminal_status st) eqn:Hs.
  - intros k Hk Hkt. exfalso. rewrite terminal_status_is in Hs. unfold AutoTrader.resolve in Hk.
    destruct (AutoTrader.status_is st "filled").
    + destruct (negb (AutoTrader.in_position (with_status a id0 st))); discriminate Hk.
    + cbn [orb] in Hs. rewrite Hs in Hk. discriminate Hk.
  - rewrite (resolve_open _ st Hs). cbn [fst]. intros k Hk Hkt.
    change (AutoTrader.current_order_id (with_status a id0 st))
      with (AutoTrader.current_order_id a) in Hk.
    rewrite Hid in Hk. injection Hk as <-.
    destruct (Hinv id0 Hid Ht) as (r & Hr & _ & Hty & Hbp).
    exists (Trader.set_status st r). split; [|split; [|split]].
    + unfold with_status, tracked. cbn [AutoTrader.trader AutoTrader.set_trader Trader.active_orders].
      rewrite lookup_alter_eq. unfold tracked in Hr. rewrite Hr. reflexivity.
    + exact Hs.
    + exact Hty.
    + exact Hbp.
Qed.

Lemma place_order_pending_tracked a ex p :
  pending_tracked a -> pending_tracked (AutoTrader.place_order a ex p).1.
Proof.
  intros Hinv. destruct (place_order_placed a ex p) as [-> | H]; [exact Hinv|].
  apply (placed_as_pending (waiting_side a) p a); [reflexivity | exact H].
Qed.

Lemma run_pending_tracked a (cycles : list (spec_float * replies)) :
  pending_tracked a -> pending_tracked (AutoTrader.run a cycles).1.
Proof.
  revert a. induction cycles as [|[p ex] rest IH]; intros a Hinv; [exact Hinv|].
  simpl.
  assert (H1 : pending_tracked (AutoTrader.check_price_and_trade a ex p).1).
  { pose proof (poll_order_pending a ex Hinv) as Hp.
    destruct (check_price_and_trade_split a ex p) as [-> | ->]; simpl; [exact Hp|].
    apply place_order_pending_tracked. exact Hp. }
  destruct (AutoTrader.check_price_and_trade a ex p) as [a1 evs1].
  specialize (IH a1 H1). destruct (AutoTrader.run a1 rest) as [a2 evs2]. exact IH.
Qed.

End PendingOrder.

(** X16. The engine waits for an order exactly when its order book has
    an open record.  After any run from the initial state: in FLAT and
    LONG [get_active_orders] is empty; in BUY_PENDING it is the one
    record of the pending order, which is a buy whose price is the
    remembered [buy_order_price]; in SELL_PENDING it is the one record
    of the pending order, which is a sell. *)
Theorem pending_order_is_the_open_order (buy sell : option spec_float)
    (cycles : list (spec_float * replies)) :
  let a := (AutoTrader.run (AutoTrader.init buy sell) cycles).1 in
  match AutoTrader.state_of a with
  | AutoTrader.FLAT | AutoTrader.LONG => Trader.get_active_orders (AutoTrader.trader a) = []
  | AutoTrader.BUY_PENDING =>
      exists id r,
        AutoTrader.current_order_id a = Some id /\ tracked a !! id = Some r
        /\ Trader.get_active_orders (AutoTrader.trader a) = [r]
        /\ Trader.o_type r = Buy
        /\ AutoTrader.buy_order_price a = Some (Trader.o_price r)
  | AutoTrader.SELL_PENDING =>
      exists id r,
        AutoTrader.current_order_id a = Some id /\ tracked a !! id = Some r
        /\ Trader.get_active_orders (AutoTrader.trader a) = [r]
        /\ Trader.o_type r = Sell
  end.
Proof.
  intros a.
  assert (Hone : one_outstanding a) by (apply run_invariant, one_outstanding_init).
  assert (Hpend : pending_tracked a) by (apply run_pending_tracked, pending_tracked_init).
  assert (Hidle : truthy_id (AutoTrader.current_order_id a) = false ->
                  Trader.get_active_orders (AutoTrader.trader a) = []).
  { intros Hf. pose proof (one_outstanding_idle a Hone Hf) as Hall.
    destruct (Trader.get_active_orders (AutoTrader.trader a)) as [|x l] eqn:E; [reflexivity|].
    assert (Hx : x ∈ Trader.get_active_orders (AutoTrader.trader a)).
    { rewrite E. apply elem_of_cons. left. reflexivity. }
    apply get_active_orders_elem in Hx. destruct Hx as (j & Hj & Ht).
    specialize (Hall j x Hj). unfold terminal in Hall. unfold is_terminal in Ht. congruence. }
  assert (Hbusy : truthy_id (AutoTrader.current_order_id a) = true ->
                  exists id r,
                    AutoTrader.current_order_id a = Some id /\ tracked a !! id = Some r
                    /\ Trader.get_active_orders (AutoTrader.trader a) = [r]
                    /\ Trader.o_type r = waiting_side a
                    /\ (AutoTrader.in_position a = false ->
                        AutoTrader.buy_order_price a = Some (Trader.o_price r))).
  { intros Ht. destruct (AutoTrader.current_order_id a) as [id|] eqn:Hid; [|discriminate].
    destruct (Hpend id Hid Ht) as (r & Hr & Hopen & Hty & Hbp).
    exists id, r. split; [reflexivity|]. split; [exact Hr|]. split; [|split; assumption].
    assert (Hin : r ∈ Trader.get_active_orders (AutoTrader.trader a)).
    { apply get_active_orders_elem. exists id. split; assumption. }
    pose proof (one_outstanding_active a Hone) as Hlen.
    destruct (Trader.get_active_orders (AutoTrader.trader a)) as [|x [|y l]].
    - apply elem_of_nil in Hin. destruct Hin.
    - apply list_elem_of_singleton in Hin. rewrite Hin. reflexivity.
    - simpl in Hlen. lia. }
  unfold AutoTrader.state_of, waiting_side in *.
  destruct (AutoTrader.in_position a), (truthy_id (AutoTrader.current_order_id a)).
  - destruct (Hbusy eq_refl) as (id & r & H1 & H2 & H3 & H4 & _). exists id, r.
    repeat split; assumption.
  - apply Hidle. reflexivity.
  - destruct (Hbusy eq_refl) as (id & r & H1 & H2 & H3 & H4 & H5). exists id, r.
    repeat split; try assumption. apply H5. reflexivity.
  - apply Hidle. reflexivity.
Qed.

(** ** What warrants an order *)

Ltac elems H :=
  repeat first
    [ apply elem_of_app in H; destruct H as [H | H]
    | apply elem_of_cons in H; destruct H as [H | H]
    | apply elem_of_nil in H; destruct H ].

Section Warrant.
Implicit Types (a : AutoTrader.t) (ex : replies) (p price q : spec_float) (s : side).

(** The balances justify a buy of [q] at [p]. *)
Definition buy_warranted ex p q : Prop :=
  exists bal, balance_reply ex = Ok bal
    /\ PyFloat.fgt (AutoTrader.spend (fiat_available bal)) AutoTrader.c10 = true
    /\ Trader.buy_quantity (AutoTrader.spend (fiat_available bal)) p = Ok q.

(** The balances justify a sell of [q]: all the crypto available. *)
Definition sell_warranted ex q : Prop :=
  exists bal, balance_reply ex = Ok bal
    /\ q = crypto_available bal
    /\ PyFloat.fgt q AutoTrader.c0 = true.

Lemma poll_order_no_order a ex s price q :
  ExchangeOrder s price q ∉ (AutoTrader.poll_order a ex).1.2.
Proof.
  intros Hin. destruct (poll_order_outcome a ex) as [Hnone _].
  apply (filter_nonempty_elem is_exchange_order _ _ Hin); [reflexivity | exact Hnone].
Qed.

Lemma try_buy_orders a ex p s price q :
  ExchangeOrder s price q ∈ (AutoTrader.try_buy a ex p).2 ->
  s = Buy /\ price = p /\ buy_warranted ex p q.
Proof.
  unfold AutoTrader.try_buy, Trader.get_account_balance, buy_warranted.
  destruct (balance_reply ex) as [bal | e]; cbn [fst snd app].
  2: { intros H. elems H; discriminate H. }
  destruct (PyFloat.fgt (AutoTrader.spend (fiat_available bal)) AutoTrader.c10) eqn:Hgt.
  2: { cbn [snd app]. intros H. elems H; discriminate H. }
  unfold Trader.place_buy_order.
  destruct (Trader.buy_quantity (AutoTrader.spend (fiat_available bal)) p) as [q0 | e] eqn:Hq.
  2: { cbn [snd app]. intros H. elems H; discriminate H. }
  unfold Trader.submit. destruct (order_reply ex) as [id | e].
  - destruct (PyFloat.truediv _ p); cbn [snd app]; intros H; elems H; try discriminate H;
      injection H as -> -> ->; repeat split; exists bal; auto.
  - cbn [snd app]. intros H. elems H; try discriminate H.
    injection H as -> -> ->. repeat split. exists bal. auto.
Qed.

Lemma try_sell_orders a ex p s price q :
  ExchangeOrder s price q ∈ (AutoTrader.try_sell a ex p).2 ->
  s = Sell /\ price = p /\ sell_warranted ex q.
Proof.
  unfold AutoTrader.try_sell, Trader.get_account_balance, sell_warranted.
  destruct (balance_reply ex) as [bal | e]; cbn [fst snd app].
  2: { intros H. elems H; discriminate H. }
  destruct (PyFloat.fgt (crypto_available bal) AutoTrader.c0) eqn:Hgt.
  2: { cbn [snd app]. intros H. elems H; discriminate H. }
  unfold Trader.place_sell_order, Trader.submit. destruct (order_reply ex) as [id | e];
    cbn [snd app]; intros H; elems H; try discriminate H;
    injection H as -> -> ->; repeat split; exists bal; auto.
Qed.

(** An order among the events of a cycle was sent by the placement
    block, run on the engine the poll left. *)
Lemma order_comes_from_placement a ex p s price q :
  ExchangeOrder s price q ∈ (AutoTrader.check_price_and_trade a ex p).2 ->
  ExchangeOrder s price q ∈ (AutoTrader.place_order (AutoTrader.poll_order a ex).1.1 ex p).2.
Proof.
  intros Hin.
  destruct (check_price_and_trade_split a ex p) as [E | E]; rewrite E in Hin;
    cbn [snd] in Hin.
  - exfalso. exact (poll_order_no_order a ex s price q Hin).
  - apply elem_of_app in Hin. destruct Hin as [Hin | Hin]; [|exact Hin].
    exfalso. exact (poll_order_no_order a ex s price q Hin).
Qed.

(** What an order among the events of the placement block tells. *)
Lemma place_order_orders a ex p s price q :
  ExchangeOrder s price q ∈ (AutoTrader.place_order a ex p).2 ->
  price = p
  /\ truthy_id (AutoTrader.current_order_id a) = false
  /\ ((s = Buy /\ AutoTrader.in_position a = false
       /\ PyFloat.fle p (AutoTrader.buy_price a) = true /\ buy_warranted ex p q)
      \/ (s = Sell /\ AutoTrader.in_position a = true
          /\ PyFloat.fge p (AutoTrader.sell_price a) = true /\ sell_warranted ex q)).
Proof.
  intros Hplace. unfold AutoTrader.place_order in Hplace.
  destruct (AutoTrader.in_position a), (truthy_id (AutoTrader.current_order_id a));
    cbn [negb andb] in Hplace; try (apply elem_of_nil in Hplace; destruct Hplace).
  - destruct (PyFloat.fge p (AutoTrader.sell_price a)) eqn:Hge;
      [|apply elem_of_nil in Hplace; destruct Hplace].
    destruct (try_sell_orders a ex p s price q Hplace) as (-> & -> & Hw).
    split; [reflexivity|]. split; [reflexivity|]. right. auto.
  - destruct (PyFloat.fle p (AutoTrader.buy_price a)) eqn:Hle;
      [|apply elem_of_nil in Hplace; destruct Hplace].
    destruct (try_buy_orders a ex p s price q Hplace) as (-> & -> & Hw).
    split; [reflexivity|]. split; [reflexivity|]. left. auto.
Qed.

(** X17. Every order the engine sends in a cycle is warranted by that
    cycle: there is no pending order once the poll is done; the limit
    price is the current price; a buy is sent only when not in position,
    at a price at or below [buy_price], for the quantity computed from
    a spend above 10; a sell only when in position, at a price at or
    above [sell_price], for all the crypto available, which is above 0. *)
Theorem every_order_is_warranted a ex p s price q :
  ExchangeOrder s price q ∈ (AutoTrader.check_price_and_trade a ex p).2 ->
  let a1 := (AutoTrader.poll_order a ex).1.1 in
  price = p
  /\ truthy_id (AutoTrader.current_order_id a1) = false
  /\ ((s = Buy /\ AutoTrader.in_position a1 = false
       /\ PyFloat.fle p (AutoTrader.buy_price a1) = true /\ buy_warranted ex p q)
      \/ (s = Sell /\ AutoTrader.in_position a1 = true
          /\ PyFloat.fge p (AutoTrader.sell_price a1) = true /\ sell_warranted ex q)).
Proof.
  intros Hin a1. apply place_order_orders.
  apply order_comes_from_placement. exact Hin.
Qed.

Lemma state_long a :
  AutoTrader.state_of a = AutoTrader.LONG ->
  AutoTrader.in_position a = true /\ truthy_id (AutoTrader.current_order_id a) = false.
Proof.
  unfold AutoTrader.state_of.
  destruct (AutoTrader.in_position a), (truthy_id (AutoTrader.current_order_id a));
    intros H; try discriminate; split; reflexivity.
Qed.

(** X18. The sell side.  In LONG at a price at or above [sell_price],
    with the balances known: when the crypto available is above 0 and the
    exchange accepts the order, the one order sent is a sell of all the
    crypto available at the current price - not of the quantity bought -
    and it becomes the pending order with its record; when the crypto
    available is not above 0 (or is NaN), nothing is sent and the engine
    is unchanged. *)
Theorem sell_order_is_all_available a ex price (bal : Balance) :
  AutoTrader.state_of a = AutoTrader.LONG ->
  PyFloat.fge price (AutoTrader.sell_price a) = true ->
  balance_reply ex = Ok bal ->
  let r := AutoTrader.check_price_and_trade a ex price in
  (PyFloat.fgt (crypto_available bal) AutoTrader.c0 = true ->
     forall id, order_reply ex = Ok id ->
       orders_in r.2 = [ExchangeOrder Sell price (crypto_available bal)]
       /\ AutoTrader.current_order_id r.1 = id
       /\ AutoTrader.in_position r.1 = true
       /\ tracked r.1
          = Trader.active_orders
              (Trader.store_order (AutoTrader.trader a) id
                 (Trader.new_record Sell price (crypto_available bal) (now ex))))
  /\ (PyFloat.fgt (crypto_available bal) AutoTrader.c0 = false ->
        r = (a, [Warned Sell])).
Proof.
  intros Hlong Hge Hbal r. destruct (state_long a Hlong) as [Hpos Hid].
  assert (Hr : r = AutoTrader.try_sell a ex price).
  { unfold r, AutoTrader.check_price_and_trade. rewrite (poll_order_idle a ex Hid).
    unfold AutoTrader.place_order. rewrite Hpos, Hid, Hge. cbn [negb andb app].
    destruct (AutoTrader.try_sell a ex price). reflexivity. }
  rewrite Hr. unfold AutoTrader.try_sell, Trader.get_account_balance. rewrite Hbal.
  split.
  - intros Hgt id Hord. rewrite Hgt.
    unfold Trader.place_sell_order, Trader.submit. rewrite Hord. cbn.
    rewrite Hpos. repeat split.
  - intros Hgt. rewrite Hgt. reflexivity.
Qed.

End Warrant.

(** ** An accepted order whose reply carries no id *)

Section NoOrderId.
Implicit Types (a : AutoTrader.t) (ex : replies) (p q : spec_float).

Lemma store_order_falsy (tr : Trader.t) (id : option string) (r : Trader.OrderRecord) :
  truthy_id id = false -> Trader.store_order tr id r = tr.
Proof. intros H. unfold Trader.store_order. destruct id; [rewrite H|]; reflexivity. Qed.

(** The cycle in which the exchange accepts a buy and answers without an
    id. *)
Definition accepts_without_id a ex p q : Prop :=
  PyFloat.fle p (AutoTrader.buy_price a) = true
  /\ (exists bal, balance_reply ex = Ok bal
        /\ PyFloat.fgt (AutoTrader.spend (fiat_available bal)) AutoTrader.c10 = true
        /\ Trader.buy_quantity (AutoTrader.spend (fiat_available bal)) p = Ok q)
  /\ (exists id, order_reply ex = Ok id /\ truthy_id id = false).

Lemma cycle_without_id a ex p q :
  AutoTrader.state_of a = AutoTrader.FLAT ->
  accepts_without_id a ex p q ->
  let r := AutoTrader.check_price_and_trade a ex p in
  orders_in r.2 = [ExchangeOrder Buy p q]
  /\ AutoTrader.state_of r.1 = AutoTrader.FLAT
  /\ AutoTrader.buy_price r.1 = AutoTrader.buy_price a
  /\ tracked r.1 = tracked a.
Proof.
  intros Hflat (Hle & (bal & Hbal & Hgt & Hq) & (id & Hord & Hid)) r.
  unfold r. rewrite (flat_cycle_is_try_buy a ex p Hflat Hle).
  destruct (state_flat a Hflat) as [Hpos Hcur].
  unfold AutoTrader.try_buy, Trader.get_account_balance. rewrite Hbal, Hgt.
  unfold Trader.place_buy_order. rewrite Hq. unfold Trader.submit. rewrite Hord.
  rewrite (store_order_falsy _ id _ Hid).
  destruct (PyFloat.is_zero p) eqn:Hz.
  { destruct (buy_quantity_zero_price _ p Hgt Hz) as [e He]. congruence. }
  rewrite (truediv_ok_or_zero _ p Hz). cbn.
  unfold AutoTrader.state_of. cbn. rewrite Hpos, Hid. repeat split.
Qed.

(** X19. An order the exchange accepts with a reply that carries no id
    (or an empty one) is not tracked and does not count as pending: the
    engine is FLAT again with the same order book, and as long as the
    replies stay the same every cycle sends the same buy order once more. *)
Theorem order_without_id_is_repeated a ex p q (n : nat) :
  AutoTrader.state_of a = AutoTrader.FLAT ->
  accepts_without_id a ex p q ->
  let r := AutoTrader.run a (repeat (p, ex) n) in
  orders_in r.2 = repeat (ExchangeOrder Buy p q) n
  /\ AutoTrader.state_of r.1 = AutoTrader.FLAT
  /\ tracked r.1 = tracked a.
Proof.
  revert a. induction n as [|n IH]; intros a Hflat Hacc.
  - cbn. repeat split. exact Hflat.
  - cbn [repeat AutoTrader.run].
    destruct (cycle_without_id a ex p q Hflat Hacc) as (H1 & H2 & H3 & H4).
    destruct (AutoTrader.check_price_and_trade a ex p) as [a1 evs1]. cbn [fst snd] in *.
    assert (Hacc1 : accepts_without_id a1 ex p q).
    { destruct Hacc as (Hle & Hrest). split; [rewrite H3; exact Hle | exact Hrest]. }
    specialize (IH a1 H2 Hacc1). cbn zeta in IH.
    destruct (AutoTrader.run a1 (repeat (p, ex) n)) as [a2 evs2]. cbn [fst snd] in *.
    destruct IH as (I1 & I2 & I3).
    unfold orders_in in *. rewrite List.filter_app, H1, I1.
    split; [reflexivity|]. split; [exact I2 | congruence].
Qed.

End NoOrderId.

Definition replies_without_id : replies :=
  {| status_reply := Raise ApiError;
     balance_reply := Ok {| crypto_available := S754_zero false;
                            fiat_available := PyFloat.of_Z 2000 |};
     order_reply := Ok None;
     now := 1700000000 |}.

Definition holding : AutoTrader.t := AutoTrader.set_in_position fresh true.

Definition replies_with_crypto (crypto : spec_float) : replies :=
  {| status_reply := Raise ApiError;
     balance_reply := Ok {| crypto_available := crypto; fiat_available := S754_zero false |};
     order_reply := Ok (Some "o2"%string);
     now := 1700000000 |}.

Lemma every_order_is_warranted_witness :
  ExchangeOrder Buy (PyFloat.of_ratio 65 100) (PyFloat.of_ratio 153846153846 100000000)
    ∈ (AutoTrader.check_price_and_trade fresh (replies_with_fiat (PyFloat.of_Z 2000))
         (PyFloat.of_ratio 65 100)).2
  /\ buy_warranted (replies_with_fiat (PyFloat.of_Z 2000)) (PyFloat.of_ratio 65 100)
       (PyFloat.of_ratio 153846153846 100000000).
Proof.
  assert (Hin : ExchangeOrder Buy (PyFloat.of_ratio 65 100)
                  (PyFloat.of_ratio 153846153846 100000000)
                ∈ (AutoTrader.check_price_and_trade fresh
                     (replies_with_fiat (PyFloat.of_Z 2000)) (PyFloat.of_ratio 65 100)).2).
  { vm_compute. apply elem_of_cons. left. reflexivity. }
  split; [exact Hin|].
  destruct (every_order_is_warranted _ _ _ _ _ _ Hin) as (_ & _ & [H | H]).
  - destruct H as (_ & _ & _ & Hw). exact Hw.
  - destruct H as (Hs & _). discriminate Hs.
Defined.

Lemma sell_order_is_all_available_witness :
  AutoTrader.state_of holding = AutoTrader.LONG
  /\ orders_in (AutoTrader.check_price_and_trade holding
                  (replies_with_crypto (PyFloat.of_Z 1538)) (PyFloat.of_ratio 70 100)).2
     = [ExchangeOrder Sell (PyFloat.of_ratio 70 100) (PyFloat.of_Z 1538)].
Proof.
  split; [reflexivity|].
  assert (Hge : PyFloat.fge (PyFloat.of_ratio 70 100) (AutoTrader.sell_price holding) = true)
    by (vm_compute; reflexivity).
  assert (Hgt : PyFloat.fgt (PyFloat.of_Z 1538) AutoTrader.c0 = true)
    by (vm_compute; reflexivity).
  destruct (sell_order_is_all_available holding (replies_with_crypto (PyFloat.of_Z 1538))
              (PyFloat.of_ratio 70 100)
              {| crypto_available := PyFloat.of_Z 1538; fiat_available := S754_zero false |}
              eq_refl Hge eq_refl) as [Hsell _].
  destruct (Hsell Hgt (Some "o2"%string) eq_refl) as [Ho _]. exact Ho.
Defined.

Lemma order_without_id_is_repeated_witness :
  orders_in (AutoTrader.run fresh
               (repeat (PyFloat.of_ratio 65 100, replies_without_id) 3)).2
  = repeat (ExchangeOrder Buy (PyFloat.of_ratio 65 100)
              (PyFloat.of_ratio 153846153846 100000000)) 3.
Proof.
  apply (order_without_id_is_repeated fresh replies_without_id (PyFloat.of_ratio 65 100)
           (PyFloat.of_ratio 153846153846 100000000) 3).
  - reflexivity.
  - split; [vm_compute; reflexivity|]. split.
    + eexists. split; [reflexivity|]. split; vm_compute; reflexivity.
    + exists None. split; reflexivity.
Defined.

(** * [buy_sell_strategy.py]: the stand-alone loop *)

Module Strategy.

(** The module's own trading parameters. *)
Definition BUY_PRICE : spec_float := PyFloat.of_ratio 65 100.
Definition SELL_PRICE : spec_float := PyFloat.of_ratio 70 100.

(** The local variables of [run_strategy] that live across iterations. *)
Record t : Type := {
  trader : Trader.t;
  in_position : bool;
  current_order_id : option string
}.

(** What an iteration leaves behind: an event of the trader or a message,
    the message that goes with a warning, or the error caught by the
    [try] around the whole iteration, logged and sent. *)
Inductive note : Set :=
| Of (e : event)
| WarningSent (s : side)
| LoopError.

Definition start : t :=
  {| trader := Trader.init; in_position := false; current_order_id := None |}.

Definition set_trader (s : t) (tr : Trader.t) : t :=
  {| trader := tr; in_position := in_position s; current_order_id := current_order_id s |}.

Definition set_in_position (s : t) (b : bool) : t :=
  {| trader := trader s; in_position := b; current_order_id := current_order_id s |}.

Definition set_order_id (s : t) (id : option string) : t :=
  {| trader := trader s; in_position := in_position s; current_order_id := id |}.

Definition notes (evs : list event) : list note := List.map Of evs.

(** Lines 52-66: the branches on [status]. *)
Definition resolve (s : t) (st : option string) : t * list note :=
  if AutoTrader.status_is st "filled" then
    if negb (in_position s) then
      (set_order_id (set_in_position s true) None,
       [Of (Message (BuyFilled (Some BUY_PRICE)))])
    else
      (set_order_id (set_in_position s false) None,
       [Of (Message (SellFilled SELL_PRICE))])
  else if AutoTrader.status_is st "cancelled" then (set_order_id s None, [])
  else (s, []).

(** Lines 76-97: the buy side; an exception leaves the iteration. *)
Definition buy (s : t) (ex : replies) (current_price : spec_float) : t * list note :=
  match Trader.get_account_balance ex with
  | (Raise _, evs) => (s, notes evs ++ [LoopError])
  | (Ok balance, evs) =>
      let total_amount := AutoTrader.spend (fiat_available balance) in
      if PyFloat.fgt total_amount AutoTrader.c10 then
        match Trader.place_buy_order (trader s) ex current_price None (Some total_amount) with
        | (Raise _, tr, evs') => (set_trader s tr, notes (evs ++ evs') ++ [LoopError])
        | (Ok id, tr, evs') =>
            let s1 := set_order_id (set_trader s tr) id in
            match PyFloat.truediv total_amount current_price with
            | Raise _ => (s1, notes (evs ++ evs') ++ [LoopError])
            | Ok _ => (s1, notes (evs ++ evs') ++ [Of (Message (PlacedBuy current_price))])
            end
        end
      else (s, notes evs ++ [Of (Warned Buy); WarningSent Buy])
  end.

(** Lines 101-118: the sell side. *)
Definition sell (s : t) (ex : replies) (current_price : spec_float) : t * list note :=
  match Trader.get_account_balance ex with
  | (Raise _, evs) => (s, notes evs ++ [LoopError])
  | (Ok balance, evs) =>
      let available_crypto := crypto_available balance in
      if PyFloat.fgt available_crypto AutoTrader.c0 then
        match Trader.place_sell_order (trader s) ex current_price available_crypto with
        | (Raise _, tr, evs') => (set_trader s tr, notes (evs ++ evs') ++ [LoopError])
        | (Ok id, tr, evs') =>
            (set_order_id (set_trader s tr) id,
             notes (evs ++ evs') ++ [Of (Message (PlacedSell current_price))])
        end
      else (s, notes evs ++ [Of (Warned Sell); WarningSent Sell])
  end.

(** Lines 74-118: [if not in_position: ... else: ...]; the pending order
    id is not looked at. *)
Definition place (s : t) (ex : replies) (current_price : spec_float) : t * list note :=
  if negb (in_position s) then
    if PyFloat.fle current_price BUY_PRICE then buy s ex current_price else (s, [])
  else
    if PyFloat.fge current_price SELL_PRICE then sell s ex current_price else (s, []).

(** Lines 42-122: one iteration of [while True], on the price the tracker
    returned. *)
Definition step (s : t) (ex : replies) (current_price : spec_float) : t * list note :=
  match current_order_id s with
  | Some id =>
      if truthy_id (current_order_id s) then
        match Trader.get_order_status (trader s) ex id with
        | (Raise _, tr, evs) => (set_trader s tr, notes evs ++ [LoopError])
        | (Ok st, tr, evs) =>
            let '(s1, evs1) := resolve (set_trader s tr) st in
            if AutoTrader.status_is st "open" || AutoTrader.status_is st "partially_filled"
            then (s1, notes evs ++ evs1)
            else
              let '(s2, evs2) := place s1 ex current_price in
              (s2, notes evs ++ evs1 ++ evs2)
        end
      else place s ex current_price
  | None => place s ex current_price
  end.

Fixpoint run (s : t) (cycles : list (spec_float * replies)) : t * list note :=
  match cycles with
  | [] => (s, [])
  | (p, ex) :: rest =>
      let '(s1, evs1) := step s ex p in
      let '(s2, evs2) := run s1 rest in
      (s2, evs1 ++ evs2)
  end.

(** The calls of the exchange's order endpoint among the notes. *)
Definition orders (ns : list note) : list event :=
  flat_map (fun n => match n with
                     | Of e => if is_exchange_order e then [e] else []
                     | _ => []
                     end) ns.

End Strategy.

(** ** The stand-alone loop against the engine *)

Section TwoLoops.
Implicit Types (a : AutoTrader.t) (ex : replies) (p : spec_float) (st : option string).

(** What the stand-alone loop keeps of the engine's state. *)
Definition view a : Strategy.t :=
  {| Strategy.trader := AutoTrader.trader a;
     Strategy.in_position := AutoTrader.in_position a;
     Strategy.current_order_id := AutoTrader.current_order_id a |}.

(** The settings of the engine are the parameters of the stand-alone loop. *)
Definition same_prices a : Prop :=
  AutoTrader.buy_price a = Strategy.BUY_PRICE /\ AutoTrader.sell_price a = Strategy.SELL_PRICE.

(** The statuses both loops have a branch for. *)
Definition known_status st : bool :=
  Trader.terminal_status st
  || AutoTrader.status_is st "open" || AutoTrader.status_is st "partially_filled".

Lemma orders_app (l1 l2 : list Strategy.note) :
  Strategy.orders (l1 ++ l2) = Strategy.orders l1 ++ Strategy.orders l2.
Proof. apply flat_map_app. Qed.

Lemma orders_notes (evs : list event) : Strategy.orders (Strategy.notes evs) = orders_in evs.
Proof.
  induction evs as [|e evs IH]; [reflexivity|].
  cbn. fold (Strategy.notes evs). fold (Strategy.orders (Strategy.notes evs)).
  rewrite IH. unfold orders_in. destruct (is_exchange_order e); reflexivity.
Qed.

Lemma orders_in_app (l1 l2 : list event) : orders_in (l1 ++ l2) = orders_in l1 ++ orders_in l2.
Proof. apply List.filter_app. Qed.

Lemma resolve_view a st :
  (Strategy.resolve (view a) st).1 = view (AutoTrader.resolve a st).1
  /\ Strategy.orders (Strategy.resolve (view a) st).2 = []
  /\ orders_in (AutoTrader.resolve a st).2 = []
  /\ AutoTrader.buy_price (AutoTrader.resolve a st).1 = AutoTrader.buy_price a
  /\ AutoTrader.sell_price (AutoTrader.resolve a st).1 = AutoTrader.sell_price a
  /\ (Trader.terminal_status st = true ->
      AutoTrader.current_order_id (AutoTrader.resolve a st).1 = None).
Proof.
  rewrite terminal_status_is. unfold Strategy.resolve, AutoTrader.resolve. cbn [Strategy.in_position view].
  destruct (AutoTrader.status_is st "filled").
  - destruct (AutoTrader.in_position a); cbn; repeat split.
  - destruct (AutoTrader.status_is st "cancelled"); cbn; repeat split. discriminate.
Qed.

Lemma try_buy_view a ex p :
  (Strategy.buy (view a) ex p).1 = view (AutoTrader.try_buy a ex p).1
  /\ Strategy.orders (Strategy.buy (view a) ex p).2 = orders_in (AutoTrader.try_buy a ex p).2
  /\ AutoTrader.buy_price (AutoTrader.try_buy a ex p).1 = AutoTrader.buy_price a
  /\ AutoTrader.sell_price (AutoTrader.try_buy a ex p).1 = AutoTrader.sell_price a.
Proof.
  unfold Strategy.buy, AutoTrader.try_buy, Trader.get_account_balance.
  destruct (balance_reply ex) as [bal | e]; [|cbn; repeat split].
  destruct (PyFloat.fgt _ _); [|cbn; repeat split].
  cbn [Strategy.trader view]. unfold Trader.place_buy_order.
  destruct (Trader.buy_quantity _ p) as [q | e]; [|cbn; repeat split].
  unfold Trader.submit. destruct (order_reply ex) as [id | e]; [|cbn; repeat split].
  destruct (PyFloat.truediv _ p); cbn; repeat split.
Qed.

Lemma try_sell_view a ex p :
  (Strategy.sell (view a) ex p).1 = view (AutoTrader.try_sell a ex p).1
  /\ Strategy.orders (Strategy.sell (view a) ex p).2 = orders_in (AutoTrader.try_sell a ex p).2
  /\ AutoTrader.buy_price (AutoTrader.try_sell a ex p).1 = AutoTrader.buy_price a
  /\ AutoTrader.sell_price (AutoTrader.try_sell a ex p).1 = AutoTrader.sell_price a.
Proof.
  unfold Strategy.sell, AutoTrader.try_sell, Trader.get_account_balance.
  destruct (balance_reply ex) as [bal | e]; [|cbn; repeat split].
  destruct (PyFloat.fgt _ _); [|cbn; repeat split].
  cbn [Strategy.trader view]. unfold Trader.place_sell_order, Trader.submit.
  destruct (order_reply ex) as [id | e]; cbn; repeat split.
Qed.

Lemma place_order_prices a ex p :
  AutoTrader.buy_price (AutoTrader.place_order a ex p).1 = AutoTrader.buy_price a
  /\ AutoTrader.sell_price (AutoTrader.place_order a ex p).1 = AutoTrader.sell_price a.
Proof.
  unfold AutoTrader.place_order.
  destruct (negb (AutoTrader.in_position a) && negb (truthy_id (AutoTrader.current_order_id a))).
  - destruct (PyFloat.fle _ _); [|split; reflexivity].
    destruct (try_buy_view a ex p) as (_ & _ & H1 & H2). split; assumption.
  - destruct (AutoTrader.in_position a && negb (truthy_id (AutoTrader.current_order_id a)));
      [|split; reflexivity].
    destruct (PyFloat.fge _ _); [|split; reflexivity].
    destruct (try_sell_view a ex p) as (_ & _ & H1 & H2). split; assumption.
Qed.

(** With no pending order the two placement blocks do the same. *)
Lemma place_view a ex p :
  same_prices a ->
  truthy_id (AutoTrader.current_order_id a) = false ->
  (Strategy.place (view a) ex p).1 = view (AutoTrader.place_order a ex p).1
  /\ Strategy.orders (Strategy.place (view a) ex p).2
     = orders_in (AutoTrader.place_order a ex p).2.
Proof.
  intros [Hb Hs] Hid. unfold Strategy.place, AutoTrader.place_order.
  cbn [Strategy.in_position view]. rewrite Hid, Hb, Hs.
  destruct (AutoTrader.in_position a); cbn [negb andb].
  - destruct (PyFloat.fge p Strategy.SELL_PRICE); [|split; reflexivity].
    destruct (try_sell_view a ex p) as (H1 & H2 & _). split; assumption.
  - destruct (PyFloat.fle p Strategy.BUY_PRICE); [|split; reflexivity].
    destruct (try_buy_view a ex p) as (H1 & H2 & _). split; assumption.
Qed.

Lemma poll_order_prices a ex :
  AutoTrader.buy_price (AutoTrader.poll_order a ex).1.1 = AutoTrader.buy_price a
  /\ AutoTrader.sell_price (AutoTrader.poll_order a ex).1.1 = AutoTrader.sell_price a.
Proof.
  destruct (truthy_id (AutoTrader.current_order_id a)) eqn:Ht.
  2: { rewrite (poll_order_idle a ex Ht). split; reflexivity. }
  destruct (AutoTrader.current_order_id a) as [id0|] eqn:Hid; [|discriminate].
  destruct (status_reply ex) as [st | e] eqn:Hst.
  2: { rewrite (poll_order_raised a ex id0 e Hid Ht Hst). split; reflexivity. }
  rewrite (poll_order_answered a ex id0 st Hid Ht Hst). cbn [fst].
  destruct (resolve_view (with_status a id0 st) st) as (_ & _ & _ & H1 & H2 & _).
  rewrite H1, H2. split; reflexivity.
Qed.

Lemma check_price_and_trade_prices a ex p :
  same_prices a -> same_prices (AutoTrader.check_price_and_trade a ex p).1.
Proof.
  intros [Hb Hs]. destruct (poll_order_prices a ex) as [H1 H2]. unfold same_prices.
  destruct (check_price_and_trade_split a ex p) as [-> | ->]; cbn [fst].
  - rewrite H1, H2. split; assumption.
  - destruct (place_order_prices (AutoTrader.poll_order a ex).1.1 ex p) as [H3 H4].
    rewrite H3, H4, H1, H2. split; assumption.
Qed.

End TwoLoops.

Lemma step_view (a : AutoTrader.t) (ex : replies) (p : spec_float) :
  same_prices a ->
  (truthy_id (AutoTrader.current_order_id a) = true ->
   forall st, status_reply ex = Ok st -> known_status st = true) ->
  (Strategy.step (view a) ex p).1 = view (AutoTrader.check_price_and_trade a ex p).1
  /\ Strategy.orders (Strategy.step (view a) ex p).2
     = orders_in (AutoTrader.check_price_and_trade a ex p).2.
Proof.
  intros Hprices Hknown.
  destruct (truthy_id (AutoTrader.current_order_id a)) eqn:Ht.
  - destruct (AutoTrader.current_order_id a) as [id|] eqn:Hid; [|discriminate].
    unfold Strategy.step, AutoTrader.check_price_and_trade.
    cbn [Strategy.current_order_id Strategy.trader view]. rewrite Hid, Ht.
    destruct (status_reply ex) as [st | e] eqn:Hst.
    + rewrite (poll_order_answered a ex id st Hid Ht Hst).
      unfold Trader.get_order_status. rewrite Hst.
      change (Strategy.set_trader _ _) with (view (with_status a id st)).
      destruct (resolve_view (with_status a id st) st) as (R1 & R2 & R3 & R4 & R5 & R6).
      destruct (Strategy.resolve (view (with_status a id st)) st) as [s1 evs1].
      cbn [fst snd] in R1, R2.
      destruct (AutoTrader.status_is st "open" || AutoTrader.status_is st "partially_filled")
        eqn:Hstop.
      * cbn [fst snd Strategy.notes List.map app]. split; [exact R1|].
        rewrite R2, R3. reflexivity.
      * assert (Hterm : Trader.terminal_status st = true).
        { specialize (Hknown eq_refl st eq_refl). unfold known_status in Hknown.
          rewrite <- orb_assoc, Hstop, orb_false_r in Hknown. exact Hknown. }
        assert (Hidle : truthy_id (AutoTrader.current_order_id
                                     (AutoTrader.resolve (with_status a id st) st).1) = false).
        { rewrite (R6 Hterm). reflexivity. }
        assert (Hp1 : same_prices (AutoTrader.resolve (with_status a id st) st).1).
        { destruct Hprices as [Hb Hs]. split; [rewrite R4 | rewrite R5]; assumption. }
        destruct (place_view _ ex p Hp1 Hidle) as [P1 P2]. rewrite <- R1 in P1, P2.
        destruct (Strategy.place s1 ex p) as [s2 evs2].
        destruct (AutoTrader.place_order _ ex p) as [a2 evs2'].
        cbn [fst snd] in *. split; [exact P1|].
        cbn [Strategy.notes List.map app]. rewrite orders_app, R2, P2, orders_in_app, R3.
        reflexivity.
    + rewrite (poll_order_raised a ex id e Hid Ht Hst).
      rewrite (place_order_pending a ex p) by (rewrite Hid; exact Ht).
      unfold Trader.get_order_status. rewrite Hst. split; reflexivity.
  - unfold AutoTrader.check_price_and_trade. rewrite (poll_order_idle a ex Ht).
    destruct (place_view a ex p Hprices Ht) as [P1 P2].
    assert (Hstep : Strategy.step (view a) ex p = Strategy.place (view a) ex p).
    { unfold Strategy.step. cbn [Strategy.current_order_id view].
      destruct (AutoTrader.current_order_id a); [rewrite Ht|]; reflexivity. }
    rewrite Hstep. destruct (AutoTrader.place_order a ex p) as [a2 evs2].
    cbn [fst snd app] in *. split; assumption.
Qed.

(** X20. The stand-alone loop of [buy_sell_strategy.py] and the engine
    started with the settings' prices go through the same states and send
    the same orders to the exchange, as long as every status the exchange
    answers is one of [filled], [cancelled], [open] and
    [partially_filled]. *)
Theorem strategy_agrees_with_engine (cycles : list (spec_float * replies)) :
  (forall p ex st, (p, ex) ∈ cycles -> status_reply ex = Ok st -> known_status st = true) ->
  (Strategy.run Strategy.start cycles).1
    = view (AutoTrader.run (AutoTrader.init None None) cycles).1
  /\ Strategy.orders (Strategy.run Strategy.start cycles).2
     = orders_in (AutoTrader.run (AutoTrader.init None None) cycles).2.
Proof.
  change Strategy.start with (view (AutoTrader.init None None)).
  assert (Hp : same_prices (AutoTrader.init None None)) by (split; reflexivity).
  revert Hp. generalize (AutoTrader.init None None).
  induction cycles as [|[p ex] rest IH]; intros a Hp Hknown; [split; reflexivity|].
  cbn [Strategy.run AutoTrader.run].
  destruct (step_view a ex p Hp) as [S1 S2].
  { intros _ st Hst. apply (Hknown p ex st); [apply elem_of_cons; left; reflexivity | exact Hst]. }
  pose proof (check_price_and_trade_prices a ex p Hp) as Hp1.
  destruct (Strategy.step (view a) ex p) as [s1 ns1].
  destruct (AutoTrader.check_price_and_trade a ex p) as [a1 evs1].
  cbn [fst snd] in S1, S2, Hp1. subst s1.
  destruct (IH a1 Hp1) as [I1 I2].
  { intros p' ex' st Hin Hst.
    apply (Hknown p' ex' st); [apply elem_of_cons; right; exact Hin | exact Hst]. }
  destruct (Strategy.run (view a1) rest) as [s2 ns2].
  destruct (AutoTrader.run a1 rest) as [a2 evs2].
  cbn [fst snd] in *. split; [exact I1|].
  rewrite orders_app, orders_in_app, S2, I2. reflexivity.
Qed.

Lemma unknown_status (st : option string) :
  known_status st = false ->
  AutoTrader.status_is st "filled" = false
  /\ AutoTrader.status_is st "cancelled" = false
  /\ AutoTrader.status_is st "open" || AutoTrader.status_is st "partially_filled" = false
  /\ Trader.terminal_status st = false.
Proof.
  unfold known_status. rewrite <- orb_assoc. intros H. apply orb_false_iff in H.
  destruct H as [Ht Ho]. pose proof Ht as Ht'. rewrite terminal_status_is in Ht'.
  apply orb_false_iff in Ht'. destruct Ht' as [Hf Hc]. auto.
Qed.

(** X21. Where the two loops part.  The stand-alone loop does not look at
    the pending order id before it places an order: when the exchange
    answers the poll of a pending buy with a status other than [filled],
    [cancelled], [open] and [partially_filled], and the price is at or
    below the buy price with enough fiat, it sends a second buy order and
    forgets the id of the first; its order book then holds two open
    orders.  The engine in the same state and cycle sends nothing and
    keeps waiting for the first. *)
Theorem strategy_orders_over_an_unknown_status (a : AutoTrader.t) (ex : replies)
    (p q : spec_float) (id id' : string) (st : option string) (r : Trader.OrderRecord) :
  AutoTrader.current_order_id a = Some id ->
  truthy_id (Some id) = true ->
  AutoTrader.in_position a = false ->
  tracked a !! id = Some r ->
  status_reply ex = Ok st ->
  known_status st = false ->
  PyFloat.fle p Strategy.BUY_PRICE = true ->
  buy_warranted ex p q ->
  order_reply ex = Ok (Some id') ->
  truthy_id (Some id') = true ->
  id' <> id ->
  let s' := (Strategy.step (view a) ex p).1 in
  Strategy.orders (Strategy.step (view a) ex p).2 = [ExchangeOrder Buy p q]
  /\ Strategy.current_order_id s' = Some id'
  /\ (exists r1 r2,
        Trader.active_orders (Strategy.trader s') !! id = Some r1
        /\ Trader.active_orders (Strategy.trader s') !! id' = Some r2
        /\ is_terminal r1 = false /\ is_terminal r2 = false)
  /\ orders_in (AutoTrader.check_price_and_trade a ex p).2 = []
  /\ AutoTrader.current_order_id (AutoTrader.check_price_and_trade a ex p).1 = Some id.
Proof.
  intros Hid Ht Hpos Hr Hst Hunk Hle (bal & Hbal & Hgt & Hq) Hord Ht' Hne s'.
  destruct (unknown_status st Hunk) as (Hf & Hc & Hstop & Hterm).
  assert (Hz : PyFloat.is_zero p = false).
  { destruct (PyFloat.is_zero p) eqn:Hz; [|reflexivity].
    destruct (buy_quantity_zero_price _ p Hgt Hz) as [e He]. congruence. }
  assert (Hstep : Strategy.step (view a) ex p
                  = (Strategy.set_order_id
                       (Strategy.set_trader (view a)
                          {| Trader.active_orders :=
                               <[id' := Trader.new_record Buy p q (now ex)]>
                                 (alter (Trader.set_status st) id (tracked a)) |})
                       (Some id'),
                     Strategy.notes
                       [ExchangeOrder Buy p q;
                        TradeNotification Buy p q (PyFloat.fmul p q) (Some id')]
                     ++ [Strategy.Of (Message (PlacedBuy p))])).
  { unfold Strategy.step. cbn [Strategy.current_order_id Strategy.trader view].
    rewrite Hid, Ht. unfold Trader.get_order_status. rewrite Hst.
    unfold Strategy.resolve. rewrite Hf, Hc, Hstop.
    unfold Strategy.place. cbn [Strategy.in_position Strategy.set_trader view].
    rewrite Hpos, Hle. cbn [negb].
    unfold Strategy.buy, Trader.get_account_balance. rewrite Hbal, Hgt.
    unfold Trader.place_buy_order. cbn [Strategy.trader]. rewrite Hq.
    unfold Trader.submit. rewrite Hord. rewrite (truediv_ok_or_zero _ p Hz).
    unfold Trader.store_order. rewrite Ht'. reflexivity. }
  unfold s'. rewrite Hstep. cbn [fst snd].
  split; [|split; [|split; [|split]]].
  - reflexivity.
  - reflexivity.
  - exists (Trader.set_status st r), (Trader.new_record Buy p q (now ex)).
    cbn [Strategy.trader Strategy.set_order_id Strategy.set_trader Trader.active_orders].
    split; [|split; [|split]].
    + rewrite lookup_insert_ne by exact Hne. rewrite lookup_alter_eq, Hr. reflexivity.
    + apply lookup_insert_eq.
    + exact Hterm.
    + reflexivity.
  - unfold AutoTrader.check_price_and_trade.
    rewrite (poll_order_answered a ex id st Hid Ht Hst), (resolve_open _ st Hterm), Hstop.
    cbn [fst snd].
    rewrite (place_order_pending (with_status a id st) ex p)
      by (change (AutoTrader.current_order_id (with_status a id st))
            with (AutoTrader.current_order_id a); rewrite Hid; exact Ht).
    reflexivity.
  - unfold AutoTrader.check_price_and_trade.
    rewrite (poll_order_answered a ex id st Hid Ht Hst), (resolve_open _ st Hterm), Hstop.
    cbn [fst snd].
    rewrite (place_order_pending (with_status a id st) ex p)
      by (change (AutoTrader.current_order_id (with_status a id st))
            with (AutoTrader.current_order_id a); rewrite Hid; exact Ht).
    exact Hid.
Qed.

Definition buy_then_fill : list (spec_float * replies) :=
  [(PyFloat.of_ratio 65 100, replies_with_fiat (PyFloat.of_Z 2000));
   (PyFloat.of_ratio 66 100, reply_filled)].

Lemma strategy_agrees_with_engine_witness :
  (Strategy.run Strategy.start buy_then_fill).1
    = view (AutoTrader.run (AutoTrader.init None None) buy_then_fill).1
  /\ Strategy.orders (Strategy.run Strategy.start buy_then_fill).2
     = orders_in (AutoTrader.run (AutoTrader.init None None) buy_then_fill).2.
Proof.
  apply (strategy_agrees_with_engine buy_then_fill).
  intros p ex st Hin Hst. unfold buy_then_fill in Hin. elems Hin.
  - injection Hin as -> ->. discriminate Hst.
  - injection Hin as -> ->. injection Hst as <-. reflexivity.
Defined.

(** An engine that waits for the buy order ["o1"] it has placed at 0.65. *)
Definition waiting : AutoTrader.t :=
  AutoTrader.set_buy_order_price
    (AutoTrader.set_order_id
       (AutoTrader.set_trader fresh
          {| Trader.active_orders :=
               {[ "o1"%string :=
                    Trader.new_record Buy (PyFloat.of_ratio 65 100)
                      (PyFloat.of_ratio 153846153846 100000000) 1700000000 ]} |})
       (Some "o1"%string))
    (Some (PyFloat.of_ratio 65 100)).

Definition replies_rejected : replies :=
  {| status_reply := Ok (Some "rejected"%string);
     balance_reply := Ok {| crypto_available := S754_zero false;
                            fiat_available := PyFloat.of_Z 2000 |};
     order_reply := Ok (Some "o2"%string);
     now := 1700000060 |}.

Lemma strategy_orders_over_an_unknown_status_witness :
  Strategy.orders (Strategy.step (view waiting) replies_rejected (PyFloat.of_ratio 65 100)).2
    = [ExchangeOrder Buy (PyFloat.of_ratio 65 100) (PyFloat.of_ratio 153846153846 100000000)]
  /\ orders_in (AutoTrader.check_price_and_trade waiting replies_rejected
                  (PyFloat.of_ratio 65 100)).2 = [].
Proof.
  assert (Hle : PyFloat.fle (PyFloat.of_ratio 65 100) Strategy.BUY_PRICE = true)
    by (vm_compute; reflexivity).
  assert (Hw : buy_warranted replies_rejected (PyFloat.of_ratio 65 100)
                 (PyFloat.of_ratio 153846153846 100000000)).
  { eexists. split; [reflexivity|]. split; vm_compute; reflexivity. }
  assert (Hr : tracked waiting !! "o1"%string
               = Some (Trader.new_record Buy (PyFloat.of_ratio 65 100)
                         (PyFloat.of_ratio 153846153846 100000000) 1700000000)).
  { unfold tracked, waiting. cbn [AutoTrader.trader AutoTrader.set_buy_order_price
      AutoTrader.set_order_id AutoTrader.set_trader Trader.active_orders].
    apply lookup_singleton_eq. }
  assert (Hne : "o2"%string <> "o1"%string) by discriminate.
  destruct (strategy_orders_over_an_unknown_status waiting replies_rejected
              (PyFloat.of_ratio 65 100) (PyFloat.of_ratio 153846153846 100000000)
              "o1"%string "o2"%string (Some "rejected"%string) _
              eq_refl eq_refl eq_refl Hr eq_refl eq_refl Hle Hw eq_refl eq_refl Hne)
    as (H1 & _ & _ & H4 & _).
  split; assumption.
Defined.

(** * The tracking loop: what is recorded, and the callbacks *)

Section Recorded.
Context {W : Type}.
Implicit Types (tr : Tracker.t W) (w : W) (cycles : list (result Tracker.last_price * Z)).

(** The samples the loop appends over [cycles], from the cached price
    [cache]: the clock reading of each cycle with the price
    [get_current_price] returned in it. *)
Definition recorded (cache : option spec_float) cycles : list Tracker.PriceSample :=
  zip_with (fun clock p => {| Tracker.timestamp := clock; Tracker.price := p |})
    (cycles.*2) (observed cache (cycles.*1)).

Lemma recorded_cons tr (r : result Tracker.last_price) (clock : Z) cycles :
  recorded (Tracker.current_price tr) ((r, clock) :: cycles)
  = {| Tracker.timestamp := clock; Tracker.price := (Tracker.get_current_price tr r).1 |}
    :: recorded (Tracker.current_price (Tracker.get_current_price tr r).2) cycles.
Proof.
  unfold recorded. rewrite !fmap_cons. cbn [fst snd].
  rewrite (get_current_price_observed tr r). reflexivity.
Qed.

Lemma start_tracking_recorded tr w cycles :
  forall all_before,
    Tracker.price_history tr = skipn (length all_before - 1000) all_before ->
    Tracker.price_history (Tracker.start_tracking tr w cycles).1.1
    = skipn (length (all_before ++ recorded (Tracker.current_price tr) cycles) - 1000)
        (all_before ++ recorded (Tracker.current_price tr) cycles).
Proof.
  revert tr w. induction cycles as [|[r clock] rest IH]; intros tr w all_before Hh.
  - unfold recorded. cbn. rewrite app_nil_r. exact Hh.
  - rewrite recorded_cons. cbn [Tracker.start_tracking]. unfold Tracker.tracking_cycle.
    assert (Hh1 : Tracker.price_history (Tracker.get_current_price tr r).2
                  = Tracker.price_history tr).
    { unfold Tracker.get_current_price. destruct (Tracker.fetched_price r); reflexivity. }
    destruct (Tracker.get_current_price tr r) as [p tr1]. cbn [fst snd] in *.
    set (s := {| Tracker.timestamp := clock; Tracker.price := p |}).
    set (tr2 := Tracker.set_history tr1 (Tracker.append_sample (Tracker.price_history tr1) s)).
    destruct (Tracker.run_callbacks (Tracker.callbacks tr2) p w) as [w1 evs1].
    specialize (IH tr2 w1 (all_before ++ [s])).
    destruct (Tracker.start_tracking tr2 w1 rest) as [[tr3 w3] evs3].
    cbn [fst snd] in *.
    change (Tracker.current_price tr2) with (Tracker.current_price tr1) in IH.
    rewrite IH.
    + rewrite <- app_assoc. reflexivity.
    + unfold tr2. cbn [Tracker.price_history Tracker.set_history].
      rewrite Hh1, Hh. apply append_sample_window.
Qed.

Lemma observed_outage (tickers : list (result Tracker.last_price)) :
  (forall r, r ∈ tickers -> fetch_failed r) ->
  forall p, p ∈ observed None tickers -> p = S754_zero false.
Proof.
  induction tickers as [|r rest IH]; intros Hfail p Hin.
  - apply elem_of_nil in Hin. destruct Hin.
  - cbn [observed] in Hin.
    rewrite (Hfail r) in Hin by (apply elem_of_cons; left; reflexivity).
    apply elem_of_cons in Hin. destruct Hin as [-> | Hin]; [reflexivity|].
    apply IH; [|exact Hin]. intros r' Hr'. apply Hfail. apply elem_of_cons. right. exact Hr'.
Qed.

(** X22. What the history holds.  Over any cycles, whatever the callbacks
    do, the history is the window of the last 1000 of the samples it held
    and one sample per cycle, made of the clock reading and the price
    [get_current_price] returned in that cycle: a cycle whose fetch fails
    is recorded with the cached price, and from a tracker that has cached
    nothing an outage is recorded as a run of samples of price 0. *)
Theorem history_records_returned_prices tr w cycles :
  (length (Tracker.price_history tr) <= 1000)%nat ->
  let all := Tracker.price_history tr ++ recorded (Tracker.current_price tr) cycles in
  Tracker.price_history (Tracker.start_tracking tr w cycles).1.1
    = skipn (length all - 1000) all
  /\ Tracker.timestamp <$> recorded (Tracker.current_price tr) cycles = cycles.*2
  /\ Tracker.price <$> recorded (Tracker.current_price tr) cycles
     = observed (Tracker.current_price tr) (cycles.*1)
  /\ (Tracker.current_price tr = None ->
      (forall c, c ∈ cycles -> fetch_failed c.1) ->
      forall s, s ∈ recorded None cycles -> Tracker.price s = S754_zero false).
Proof.
  intros Hlen all.
  assert (Hobs : forall cache cs,
            length (observed cache (cs.*1)) = length (cs.*2 : list Z)).
  { intros cache cs. revert cache. induction cs as [|[r c] cs IHcs]; intros cache;
      [reflexivity|].
    rewrite !fmap_cons. cbn [fst snd observed].
    destruct (Tracker.fetched_price r); cbn [length]; rewrite IHcs; reflexivity. }
  assert (Hzip : forall (cs : list Z) (ps : list spec_float),
            length ps = length cs ->
            Tracker.timestamp <$>
              zip_with (fun clock p => {| Tracker.timestamp := clock; Tracker.price := p |}) cs ps
            = cs
            /\ Tracker.price <$>
                 zip_with (fun clock p => {| Tracker.timestamp := clock; Tracker.price := p |})
                   cs ps
               = ps).
  { induction cs as [|c cs IHcs]; intros [|q ps] Hl; try discriminate Hl;
      [split; reflexivity|].
    injection Hl as Hl. destruct (IHcs ps Hl) as [H1 H2]. cbn. split; f_equal; assumption. }
  destruct (Hzip (cycles.*2) (observed (Tracker.current_price tr) (cycles.*1)) (Hobs _ _))
    as [Hts Hps].
  split; [|split; [exact Hts|split; [exact Hps|]]].
  - apply start_tracking_recorded.
    replace (length (Tracker.price_history tr) - 1000)%nat with O by lia. reflexivity.
  - intros Hnone Hfail s Hs.
    destruct (Hzip (cycles.*2) (observed None (cycles.*1)) (Hobs _ _)) as [_ Hp0].
    apply (observed_outage (cycles.*1)).
    + intros r Hr. apply list_elem_of_fmap in Hr. destruct Hr as (c & -> & Hc).
      apply Hfail. exact Hc.
    + fold (recorded None cycles) in Hp0. rewrite <- Hp0.
      apply list_elem_of_fmap. exists s. split; [reflexivity | exact Hs].
Qed.

Lemma run_callbacks_app (cbs1 cbs2 : list (Tracker.callback W)) (p : spec_float) w :
  Tracker.run_callbacks (cbs1 ++ cbs2) p w
  = ((Tracker.run_callbacks cbs2 p (Tracker.run_callbacks cbs1 p w).1).1,
     (Tracker.run_callbacks cbs1 p w).2
     ++ (Tracker.run_callbacks cbs2 p (Tracker.run_callbacks cbs1 p w).1).2).
Proof.
  revert w. induction cbs1 as [|cb cbs1 IH]; intros w.
  - cbn. destruct (Tracker.run_callbacks cbs2 p w). reflexivity.
  - cbn [app Tracker.run_callbacks]. rewrite IH.
    destruct (Tracker.run_callbacks cbs1 p (Tracker.world (cb p w))) as [w1 evs1].
    cbn [fst snd]. destruct (Tracker.run_callbacks cbs2 p w1) as [w2 evs2].
    cbn [fst snd]. rewrite <- !app_assoc. reflexivity.
Qed.

(** X23. A callback registered later runs last, and always: in every
    cycle the callbacks registered before it do what they did without it,
    and it is then called with the price of the cycle on the world they
    left, whether or not any of them raised; if it raises, the error is
    logged and the cycle ends as usual.  Price, history and cache do not
    depend on it. *)
Theorem registered_callback_runs_last tr (cb : Tracker.callback W) w
    (r : result Tracker.last_price) (clock : Z) :
  let before := Tracker.tracking_cycle tr w r clock in
  let after := Tracker.tracking_cycle (Tracker.register_callback tr cb) w r clock in
  let o := cb (Tracker.get_current_price tr r).1 before.1.2 in
  after.1.2 = Tracker.world o
  /\ after.2
     = before.2 ++ Tracker.trace o
       ++ (if Tracker.raised o then [ErrorLogged TrackerCallback] else [])
  /\ after.1.1 = Tracker.register_callback before.1.1 cb.
Proof.
  unfold Tracker.tracking_cycle, Tracker.get_current_price.
  destruct (Tracker.fetched_price r) as [x|];
    cbn [fst snd Tracker.callbacks Tracker.set_history Tracker.set_price
         Tracker.register_callback Tracker.price_history Tracker.current_price];
    rewrite run_callbacks_app;
    match goal with
    | |- context [Tracker.run_callbacks (Tracker.callbacks tr) ?p w] =>
        destruct (Tracker.run_callbacks (Tracker.callbacks tr) p w) as [w1 evs1]
    end;
    cbn [fst snd Tracker.run_callbacks]; rewrite ?app_nil_r; repeat split.
Qed.

End Recorded.

(** * The trading loop during an outage of the ticker *)

Section Outage.
Implicit Types (a : AutoTrader.t) (tr : Tracker.t unit)
  (cycles : list (result Tracker.last_price * replies)).

Lemma no_order_in (evs : list event) :
  (forall s price q, ExchangeOrder s price q ∉ evs) -> orders_in evs = [].
Proof.
  induction evs as [|e evs IH]; intros H; [reflexivity|].
  unfold orders_in. cbn [List.filter].
  destruct e; cbn [is_exchange_order];
    try (apply IH; intros s0 price0 q0 Hin; apply (H s0 price0 q0);
         apply elem_of_cons; right; exact Hin).
  exfalso. apply (H s price quantity). apply elem_of_cons. left. reflexivity.
Qed.

(** At price 0 the engine sends nothing, unless it would sell at 0. *)
Lemma cycle_at_zero a ex :
  PyFloat.fge (S754_zero false) (AutoTrader.sell_price a) = false ->
  orders_in (AutoTrader.check_price_and_trade a ex (S754_zero false)).2 = [].
Proof.
  intros Hsell. apply no_order_in. intros s price q Hin.
  apply order_comes_from_placement in Hin.
  destruct (place_order_orders _ ex _ s price q Hin) as (_ & _ & [H | H]).
  - destruct H as (_ & _ & _ & bal & _ & Hgt & Hq).
    destruct (buy_quantity_zero_price _ (S754_zero false) Hgt eq_refl) as [e He]. congruence.
  - destruct H as (_ & _ & Hge & _).
    destruct (poll_order_prices a ex) as [_ Hsp]. rewrite Hsp in Hge. congruence.
Qed.

(** X24. An engine whose tracker has never read a price sends no order
    while the ticker is out: every cycle runs at the price 0 that
    [get_current_price] returns, at which a buy cannot be sized and a
    sell price above 0 is not reached - whatever the balances, the
    statuses polled and the state of the engine. *)
Theorem blind_engine_sends_no_order tr a cycles :
  Tracker.current_price tr = None ->
  (forall c, c ∈ cycles -> fetch_failed c.1) ->
  PyFloat.fge (S754_zero false) (AutoTrader.sell_price a) = false ->
  orders_in (AutoTrader.trading_loop tr a cycles).2 = []
  /\ (AutoTrader.trading_loop tr a cycles).1.1 = tr.
Proof.
  revert a. induction cycles as [|[r ex] rest IH]; intros a Hnone Hfail Hsell;
    [split; reflexivity|].
  cbn [AutoTrader.trading_loop].
  assert (Hr : fetch_failed r).
  { apply (Hfail (r, ex)). apply elem_of_cons. left. reflexivity. }
  rewrite (get_current_price_failed tr r Hr), Hnone. cbn [PyFloat.or_default].
  pose proof (cycle_at_zero a ex Hsell) as H0.
  destruct (poll_order_prices a ex) as [_ Hs1].
  assert (Hs2 : AutoTrader.sell_price
                  (AutoTrader.check_price_and_trade a ex (S754_zero false)).1
                = AutoTrader.sell_price a).
  { destruct (check_price_and_trade_split a ex (S754_zero false)) as [-> | ->]; cbn [fst].
    - exact Hs1.
    - destruct (place_order_prices (AutoTrader.poll_order a ex).1.1 ex (S754_zero false))
        as [_ H]. rewrite H. exact Hs1. }
  destruct (AutoTrader.check_price_and_trade a ex (S754_zero false)) as [a1 evs1].
  cbn [fst snd] in *.
  destruct (IH a1 Hnone) as [I1 I2].
  { intros c Hc. apply Hfail. apply elem_of_cons. right. exact Hc. }
  { rewrite Hs2. exact Hsell. }
  destruct (AutoTrader.trading_loop tr a1 rest) as [[tr2 a2] evs2]. cbn [fst snd] in *.
  split; [|exact I2]. rewrite orders_in_app, H0, I1. reflexivity.
Qed.

End Outage.

Lemma blind_engine_sends_no_order_witness :
  orders_in (AutoTrader.trading_loop (@Tracker.init unit) fresh
               [(Raise ApiError, replies_with_fiat (PyFloat.of_Z 2000));
                (Ok Tracker.Malformed, replies_with_fiat (PyFloat.of_Z 2000))]).2 = [].
Proof.
  apply (blind_engine_sends_no_order (@Tracker.init unit) fresh
           [(Raise ApiError, replies_with_fiat (PyFloat.of_Z 2000));
            (Ok Tracker.Malformed, replies_with_fiat (PyFloat.of_Z 2000))]).
  - reflexivity.
  - intros c Hc. elems Hc; subst c; reflexivity.
  - vm_compute. reflexivity.
Defined.

Definition outage_then_price : list (result Tracker.last_price * Z) :=
  [(Raise ApiError, 1700000000); (Ok (Tracker.Num (PyFloat.of_ratio 65 100)), 1700000060)].

Lemma history_records_returned_prices_witness :
  Tracker.price_history
    (Tracker.start_tracking (@Tracker.init unit) tt outage_then_price).1.1
  = [ {| Tracker.timestamp := 1700000000; Tracker.price := S754_zero false |};
      {| Tracker.timestamp := 1700000060; Tracker.price := PyFloat.of_ratio 65 100 |} ].
Proof.
  destruct (history_records_returned_prices (@Tracker.init unit) tt outage_then_price)
    as [H _].
  - cbn. lia.
  - rewrite H. reflexivity.
Defined.

(** * The thresholds of several alert systems *)

Module AlertSystems.

(** The dicts alive in the process, by identity.  [SETTINGS] is the dict
    [PRICE_ALERT_THRESHOLDS] of [config/settings.py], which
    [core/alerts.py] imports by name. *)
Abbreviation loc := nat (only parsing).
Abbreviation heap := (gmap nat (list (string * spec_float))) (only parsing).
Definition SETTINGS : loc := O.

Definition start : heap := {[ SETTINGS := Settings.PRICE_ALERT_THRESHOLDS ]}.

(** An alert system holds its thresholds by reference. *)
Record t : Type := {
  thresholds_at : loc;
  triggered_alerts : gset Alerts.alert_id
}.

Definition dict_at (h : heap) (l : loc) : list (string * spec_float) :=
  default [] (h !! l).

(** [thresholds or PRICE_ALERT_THRESHOLDS]: [None] and an empty dict are
    false. *)
Definition or_settings (h : heap) (thresholds : option loc) : loc :=
  match thresholds with
  | Some l => match dict_at h l with [] => SETTINGS | _ :: _ => l end
  | None => SETTINGS
  end.

(** [__init__]. *)
Definition init (h : heap) (thresholds : option loc) : t :=
  {| thresholds_at := or_settings h thresholds; triggered_alerts := ∅ |}.

(** The alert system as [check_alerts] reads it. *)
Definition read (h : heap) (s : t) : Alerts.t :=
  {| Alerts.thresholds := dict_at h (thresholds_at s);
     Alerts.triggered_alerts := triggered_alerts s |}.

(** [self.thresholds[alert_type] = price]. *)
Definition add_threshold (h : heap) (s : t) (alert_type : string) (price : spec_float) : heap :=
  alter (Alerts.assign alert_type price) (thresholds_at s) h.

(** [if alert_type in self.thresholds: del self.thresholds[alert_type]]. *)
Definition remove_threshold (h : heap) (s : t) (alert_type : string) : heap :=
  alter (Alerts.remove_key alert_type) (thresholds_at s) h.

Definition check_alerts (h : heap) (s : t) (current_price : spec_float)
    : list Alerts.alert * t :=
  let '(alerts, a) := Alerts.check_alerts (read h s) current_price in
  (alerts, {| thresholds_at := thresholds_at s;
              triggered_alerts := Alerts.triggered_alerts a |}).

End AlertSystems.

Section SharedThresholds.
Implicit Types (h : AlertSystems.heap) (o : option AlertSystems.loc).

(** The constructor is given no thresholds, or an empty dict. *)
Definition no_thresholds_given h o : Prop :=
  match o with
  | Some l => AlertSystems.dict_at h l = []
  | None => True
  end.

Lemma no_thresholds_settings h o :
  no_thresholds_given h o -> AlertSystems.or_settings h o = AlertSystems.SETTINGS.
Proof.
  destruct o as [l|]; [|reflexivity]. cbn. intros ->. reflexivity.
Qed.

Lemma assign_has (k : string) (v : spec_float) (d : list (string * spec_float)) :
  (k, v) ∈ Alerts.assign k v d.
Proof.
  induction d as [|[k' v'] d IH]; cbn.
  - apply elem_of_cons. left. reflexivity.
  - destruct (String.eqb k' k); apply elem_of_cons; [left; reflexivity | right; exact IH].
Qed.

Lemma dict_at_alter h (f : list (string * spec_float) -> list (string * spec_float))
    (l l' : AlertSystems.loc) :
  is_Some (h !! l) ->
  AlertSystems.dict_at (alter f l h) l'
  = if decide (l' = l) then f (AlertSystems.dict_at h l) else AlertSystems.dict_at h l'.
Proof.
  intros [d Hd]. unfold AlertSystems.dict_at. destruct (decide (l' = l)) as [-> | Hne].
  - rewrite lookup_alter_eq, Hd. reflexivity.
  - rewrite lookup_alter_ne by congruence. reflexivity.
Qed.

(** X25. Alert systems built without thresholds, or with an empty dict,
    do not get a dict of their own: they all hold the one dict of the
    settings.  A threshold added through one of them is a threshold of
    the others and of every alert system built so afterwards - the next
    check of another one fires it when the price is at or beyond it - and
    a threshold removed through one is gone from the others; an alert
    system built on a dict of its own is not affected. *)
Theorem default_thresholds_are_shared h o1 o2 (k : string) (v p : spec_float) :
  is_Some (h !! AlertSystems.SETTINGS) ->
  no_thresholds_given h o1 ->
  no_thresholds_given h o2 ->
  let s1 := AlertSystems.init h o1 in
  let s2 := AlertSystems.init h o2 in
  let h' := AlertSystems.add_threshold h s1 k v in
  Alerts.thresholds (AlertSystems.read h' s2)
    = Alerts.assign k v (Alerts.thresholds (AlertSystems.read h s2))
  /\ Alerts.thresholds (AlertSystems.read h' (AlertSystems.init h' None))
     = Alerts.assign k v (Alerts.thresholds (AlertSystems.read h s2))
  /\ (Alerts.crosses k v p = true -> fires k v (AlertSystems.check_alerts h' s2 p).1)
  /\ Alerts.thresholds (AlertSystems.read (AlertSystems.remove_threshold h s1 k) s2)
     = Alerts.remove_key k (Alerts.thresholds (AlertSystems.read h s2))
  /\ (forall l d, l <> AlertSystems.SETTINGS -> h !! l = Some d -> d <> [] ->
        AlertSystems.read h' (AlertSystems.init h (Some l))
        = AlertSystems.read h (AlertSystems.init h (Some l))).
Proof.
  intros Hset H1 H2 s1 s2 h'.
  assert (Hread : Alerts.thresholds (AlertSystems.read h' s2)
                  = Alerts.assign k v (Alerts.thresholds (AlertSystems.read h s2))).
  { unfold h', s1, s2, AlertSystems.read, AlertSystems.add_threshold, AlertSystems.init.
    cbn [Alerts.thresholds AlertSystems.thresholds_at].
    rewrite !(no_thresholds_settings h _ H1), !(no_thresholds_settings h _ H2).
    rewrite (dict_at_alter h _ _ _ Hset), decide_True by reflexivity. reflexivity. }
  split; [exact Hread|]. split; [|split; [|split]].
  - unfold h', s1, s2, AlertSystems.read, AlertSystems.add_threshold, AlertSystems.init.
    cbn [Alerts.thresholds AlertSystems.thresholds_at AlertSystems.or_settings].
    rewrite !(no_thresholds_settings h _ H1), !(no_thresholds_settings h _ H2).
    rewrite (dict_at_alter h _ _ _ Hset), decide_True by reflexivity. reflexivity.
  - intros Hcross. unfold AlertSystems.check_alerts.
    pose proof (check_alerts_fires (AlertSystems.read h' s2) p) as Hf.
    destruct (Alerts.check_alerts (AlertSystems.read h' s2) p) as [alerts a'].
    cbn [fst snd] in *. apply Hf. split; [|split].
    + rewrite Hread. apply assign_has.
    + exact Hcross.
    + cbn. apply not_elem_of_empty.
  - unfold s1, s2, AlertSystems.read, AlertSystems.remove_threshold, AlertSystems.init.
    cbn [Alerts.thresholds AlertSystems.thresholds_at].
    rewrite !(no_thresholds_settings h _ H1), !(no_thresholds_settings h _ H2).
    rewrite (dict_at_alter h _ _ _ Hset), decide_True by reflexivity. reflexivity.
  - intros l d Hl Hd Hne.
    unfold h', s1, AlertSystems.read, AlertSystems.add_threshold, AlertSystems.init.
    cbn [Alerts.thresholds AlertSystems.thresholds_at AlertSystems.triggered_alerts].
    rewrite !(no_thresholds_settings h _ H1).
    assert (Hor : AlertSystems.or_settings h (Some l) = l).
    { cbn. unfold AlertSystems.dict_at. rewrite Hd. cbn. destruct d; [contradiction|reflexivity]. }
    rewrite Hor, (dict_at_alter h _ _ _ Hset), decide_False by exact Hl. reflexivity.
Qed.

End SharedThresholds.

Lemma default_thresholds_are_shared_witness :
  fires "Low" (PyFloat.of_ratio 60 100)
    (AlertSystems.check_alerts
       (AlertSystems.add_threshold AlertSystems.start
          (AlertSystems.init AlertSystems.start None) "Low" (PyFloat.of_ratio 60 100))
       (AlertSystems.init AlertSystems.start None) (PyFloat.of_ratio 60 100)).1.
Proof.
  destruct (default_thresholds_are_shared AlertSystems.start None None
              "Low" (PyFloat.of_ratio 60 100) (PyFloat.of_ratio 60 100))
    as (_ & _ & H & _).
  - eexists. apply lookup_singleton_eq.
  - exact I.
  - exact I.
  - apply H. vm_compute. reflexivity.
Defined.
